(** * Content-addressed file identification: FileHasher and DuplicateFileFinder

    A shallow embedding of [src/file_hasher.py] and [src/duplicate_finder.py].
    Python functions become Rocq functions in a small world-passing monad:
    the world holds the file system, the pending answers of [input()], and
    the log of everything the program did to the outside (files opened,
    deleted, moved, lines printed).  A Python exception is a [Raised]
    outcome; a loop that did not finish within its fuel is [Diverged]. *)

From Stdlib Require Import ZArith String Ascii List Lia Bool Arith.
From Stdlib Require Import Sorting.Sorted Sorting.Permutation.
From Stdlib Require Import Decimal DecimalString DecimalNat.
From stdpp Require Import base gmap strings.
Import ListNotations.

Local Open Scope string_scope.
Local Open Scope list_scope.

(** ** Python values the two scripts pass around *)

(** A [bytes] object. *)
Abbreviation bytes := (list Byte.byte).

(** The exceptions the scripts raise or meet.  In Python 3 [IOError] is
    [OSError], and [FileNotFoundError], [PermissionError],
    [IsADirectoryError] and [shutil.Error] are subclasses of it: they are all
    [OSError] here, told apart by [os_kind]. *)
Inductive os_kind := ENOENT | EACCES | EISDIR | EIO | EEXIST | ENOTDIR.

Inductive exn :=
| ValueError (msg : string)
| OSError (k : os_kind) (path : string)
| TypeError (msg : string)
| AttributeError (msg : string)
| IndexError
| JSONDecodeError
| EOFError.

(** [except (IOError, OSError)] and [except OSError] catch exactly these. *)
Definition is_OSError (e : exn) : bool :=
  match e with OSError _ _ => true | _ => false end.

(** What running a piece of Python gives: a value, an exception that is
    propagating, or no answer because a loop was cut off by its fuel. *)
Inductive outcome (A : Type) :=
| Returned (a : A)
| Raised (e : exn)
| Diverged.
Arguments Returned {A} a.
Arguments Raised {A} e.
Arguments Diverged {A}.

(** ** Insertion-ordered dictionaries

    A Python [dict] keeps its keys in insertion order; assigning to a key
    that is present replaces the value in place, assigning to a new key
    appends.  The order decides in which order groups are processed and
    prompts are shown, so a dict is an association list with these two
    operations, not an unordered map. *)
Module PyDict.
Section Dict.
Context {V : Type}.

Definition t := list (string * V).

Fixpoint get (k : string) (d : t) : option V :=
  match d with
  | [] => None
  | (k', v) :: d' => if String.eqb k k' then Some v else get k d'
  end.

(** [d[k] = v] *)
Fixpoint set (k : string) (v : V) (d : t) : t :=
  match d with
  | [] => [(k, v)]
  | (k', v') :: d' =>
      if String.eqb k k' then (k', v) :: d' else (k', v') :: set k v d'
  end.

Definition keys (d : t) : list string := map fst d.
Definition values (d : t) : list V := map snd d.
Definition items (d : t) : list (string * V) := d.
Definition contains (k : string) (d : t) : bool :=
  match get k d with Some _ => true | None => false end.

End Dict.
Arguments t V : clear implicits.
End PyDict.

(** ** The outside world *)

(** A regular file: its bytes, its modification time, whether [open] is
    permitted, the offset of the first byte that cannot be read (a bad
    sector, a vanished network share), and whether the directory entry may
    be removed or renamed.  [st_mtime] is a float in Python; only its order
    is ever used, so it is an integer count of clock ticks here. *)
Record file_node := {
  f_data : bytes;
  f_mtime : Z;
  f_readable : bool;
  f_fault : option nat;
  f_removable : bool
}.

Inductive node :=
| NFile (f : file_node)
| NDir (size mtime : Z).

(** One line of standard output, with the values it was formatted from. *)
Inductive message :=
| MsgErrorReading (path : string) (e : exn)
| MsgVerifying (name : string)
| MsgVerificationComplete
| MsgScanningForFiles
| MsgDirectoryMissing (d : string)
| MsgScanning (d : string)
| MsgProcessed (n : Z)
| MsgErrorProcessing (path : string) (e : exn)
| MsgCompletedScanning (n : Z)
| MsgIdentifying
| MsgFoundSets (n : nat)
| MsgNoDuplicatesToRemove
| MsgDryRunDelete
| MsgProcessingSet (hash_prefix : string)
| MsgKeeping (path : string)
| MsgCancelled
| MsgSkipping (path : string)
| MsgDeleted (path : string)
| MsgWouldDelete (path : string)
| MsgErrorDeleting (path : string) (e : exn)
| MsgRemoveSummary (dry_run : bool) (space_freed : Z) (removed_count : Z)
| MsgNoDuplicatesToMove
| MsgDryRunMove
| MsgMoved (src dst : string)
| MsgWouldMove (src dst : string)
| MsgErrorMoving (path : string) (e : exn)
| MsgMoveSummary (dry_run : bool) (moved_count : Z) (target_folder : string).

(** What the program did to the outside, in order. *)
Inductive event :=
| EvOpen (path : string)
| EvUnlink (path : string)
| EvMove (src dst : string)
| EvMkdir (path : string)
| EvInput (prompt : string)
| EvPrint (m : message).

(** The world: the file system by path; what [os.walk] yields for a root,
    as (directory, file names) pairs; which file descriptors are open; the
    working directory; the answers waiting at the prompt; and the log. *)
Record world := {
  fs : gmap string node;
  walk : string -> list (string * list string);
  fd_open : Z -> bool;
  cwd : string;
  stdin : list string;
  log : list event
}.

Definition with_fs (w : world) (m : gmap string node) : world :=
  {| fs := m; walk := walk w; fd_open := fd_open w; cwd := cwd w;
     stdin := stdin w; log := log w |}.
Definition with_stdin (w : world) (i : list string) : world :=
  {| fs := fs w; walk := walk w; fd_open := fd_open w; cwd := cwd w;
     stdin := i; log := log w |}.
Definition with_event (w : world) (e : event) : world :=
  {| fs := fs w; walk := walk w; fd_open := fd_open w; cwd := cwd w;
     stdin := stdin w; log := log w ++ [e] |}.

(** ** The monad of Python statements *)

Definition Py (A : Type) : Type := world -> outcome A * world.

Definition ret {A} (a : A) : Py A := fun w => (Returned a, w).
Definition raise {A} (e : exn) : Py A := fun w => (Raised e, w).
Definition diverge {A} : Py A := fun w => (Diverged, w).

Definition bind {A B} (c : Py A) (k : A -> Py B) : Py B :=
  fun w =>
    match c w with
    | (Returned a, w') => k a w'
    | (Raised e, w') => (Raised e, w')
    | (Diverged, w') => (Diverged, w')
    end.

(** [try: c  except <the exceptions caught holds of>: handler] *)
Definition try_except {A} (c : Py A) (caught : exn -> bool)
    (handler : exn -> Py A) : Py A :=
  fun w =>
    match c w with
    | (Raised e, w') => if caught e then handler e w' else (Raised e, w')
    | r => r
    end.

Declare Scope py_scope.
Delimit Scope py_scope with py.
Notation "'do' x <- c ; k" := (bind c (fun x => k))
  (at level 10, x name, c at level 100, k at level 200) : py_scope.
Notation "'do' ' p <- c ; k" := (bind c (fun x => match x with p => k end))
  (at level 10, p pattern, c at level 100, k at level 200) : py_scope.
Notation "c ;; k" := (bind c (fun _ => k))
  (at level 100, k at level 200, right associativity) : py_scope.
Local Open Scope py_scope.

Definition emit (e : event) : Py unit :=
  fun w => (Returned tt, with_event w e).
Definition print (m : message) : Py unit := emit (EvPrint m).
Definition get_world : Py world := fun w => (Returned w, w).

(** [for x in l: body], threading the loop-carried variables [acc]. *)
Fixpoint for_each {A S} (l : list A) (body : S -> A -> Py S) (acc : S) : Py S :=
  match l with
  | [] => ret acc
  | x :: l' => do acc' <- body acc x; for_each l' body acc'
  end.

(** ** Library functions the scripts call *)

(** *** hashlib

    The constructors of [hashlib] are taken as given: a hash object is made
    by name, fed chunks, and asked for its hexadecimal digest.  Nothing is
    assumed about the digests themselves. *)
Class Hashlib := {
  hash_obj : Type;
  hashlib_new : string -> hash_obj;
  hash_update : hash_obj -> bytes -> hash_obj;
  hexdigest : hash_obj -> string
}.

(** *** zlib.crc32

    [zlib.crc32(data, value)]: the CRC-32 of zlib (reflected polynomial
    [0xEDB88320]), continuing from the running checksum [value]; the result
    is an unsigned 32-bit integer. *)
Definition crc32_bit (c : Z) : Z :=
  if Z.testbit c 0 then Z.lxor (Z.shiftr c 1) 3988292384 else Z.shiftr c 1.

Definition crc32_byte (c : Z) (b : Byte.byte) : Z :=
  let c0 := Z.lxor c (Z.of_N (Byte.to_N b)) in
  crc32_bit (crc32_bit (crc32_bit (crc32_bit
    (crc32_bit (crc32_bit (crc32_bit (crc32_bit c0))))))).

Definition zlib_crc32 (data : bytes) (value : Z) : Z :=
  Z.lxor (fold_left crc32_byte data
            (Z.lxor (Z.land value 4294967295) 4294967295))
         4294967295.

(** *** Formatting *)

Definition hex_digit (n : Z) : ascii :=
  if (n <? 10)%Z then ascii_of_nat (Z.to_nat (48 + n))
  else ascii_of_nat (Z.to_nat (87 + n)).

Fixpoint hex_digits (width : nat) (n : Z) (acc : string) : string :=
  match width with
  | O => acc
  | S width' => hex_digits width' (n / 16)%Z (String (hex_digit (n mod 16)%Z) acc)
  end.

(** [f"{n:08x}"] for [0 <= n < 2^32]. *)
Definition format_08x (n : Z) : string := hex_digits 8 n "".

(** [str(n)] for a natural number. *)
Definition str_of_nat (n : nat) : string :=
  NilEmpty.string_of_uint (Nat.to_uint n).

(** *** Strings *)

(** [s.startswith(p)] *)
Definition startswith (p s : string) : bool := String.prefix p s.

(** [p in s] for strings: [p] occurs in [s]. *)
Fixpoint str_contains (p s : string) : bool :=
  String.prefix p s ||
  match s with
  | EmptyString => false
  | String _ s' => str_contains p s'
  end.

(** *** Files *)

(** [os.path.exists(p)], [os.path.isfile(p)] for a string [p]. *)
Definition os_path_exists (w : world) (p : string) : bool :=
  match fs w !! p with Some _ => true | None => false end.

Definition os_path_isfile (w : world) (p : string) : bool :=
  match fs w !! p with Some (NFile _) => true | _ => false end.

(** [os.stat(p)]: size and modification time. *)
Definition os_stat (p : string) : Py (Z * Z) :=
  fun w =>
    match fs w !! p with
    | Some (NFile f) => (Returned (Z.of_nat (length (f_data f)), f_mtime f), w)
    | Some (NDir size mtime) => (Returned (size, mtime), w)
    | None => (Raised (OSError ENOENT p), w)
    end.

(** An open binary file: what is left to read and how far the reader is
    from the first unreadable byte. *)
Record handle := {
  h_path : string;
  h_rest : bytes;
  h_good : option nat
}.

(** [open(p, 'rb')] *)
Definition open_rb (p : string) : Py handle :=
  fun w =>
    let w' := with_event w (EvOpen p) in
    match fs w !! p with
    | None => (Raised (OSError ENOENT p), w')
    | Some (NDir _ _) => (Raised (OSError EISDIR p), w')
    | Some (NFile f) =>
        if f_readable f
        then (Returned {| h_path := p; h_rest := f_data f; h_good := f_fault f |}, w')
        else (Raised (OSError EACCES p), w')
    end.

(** [f.read(n)]: up to [n] bytes ([n < 0]: all that is left), [b''] at the
    end of the file; [IOError] when the bytes asked for reach the fault. *)
Definition f_read (h : handle) (n : Z) : outcome (bytes * handle) :=
  let k := if (n <? 0)%Z then length (h_rest h) else Z.to_nat n in
  let chunk := firstn k (h_rest h) in
  match h_good h with
  | Some g =>
      if (g <? length chunk)%nat then Raised (OSError EIO (h_path h))
      else Returned (chunk, {| h_path := h_path h; h_rest := skipn k (h_rest h);
                               h_good := Some (g - length chunk)%nat |})
  | None =>
      Returned (chunk, {| h_path := h_path h; h_rest := skipn k (h_rest h);
                          h_good := None |})
  end.

Definition lift {A} (o : outcome A) : Py A := fun w => (o, w).

(** [while chunk := f.read(chunk_size): acc = step(acc, chunk)], the loop
    the hashing functions share.  Every turn but the last consumes at least
    one byte, so [S (length (h_rest h))] turns are enough. *)
Fixpoint read_loop {A} (fuel : nat) (chunk_size : Z) (h : handle)
    (step : A -> bytes -> Py A) (acc : A) : Py A :=
  match fuel with
  | O => diverge
  | S fuel' =>
      do r <- lift (f_read h chunk_size);
      match fst r with
      | [] => ret acc
      | _ :: _ =>
          do acc' <- step acc (fst r);
          read_loop fuel' chunk_size (snd r) step acc'
      end
  end.

(** [with open(p, 'rb') as f:] followed by the loop. *)
Definition hash_stream {A} (p : string) (chunk_size : Z)
    (step : A -> bytes -> Py A) (acc : A) : Py A :=
  do h <- open_rb p;
  read_loop (S (length (h_rest h))) chunk_size h step acc.

(** [open(p, 'r')] and [f.read()]: the whole file as text, one character
    per byte. *)
Definition read_text (p : string) : Py string :=
  do h <- open_rb p;
  do r <- lift (f_read h (-1));
  ret (string_of_list_byte (fst r)).

(** [os.path.basename(p)]: what follows the last slash. *)
Fixpoint os_path_basename (p : string) : string :=
  match p with
  | EmptyString => EmptyString
  | String c p' =>
      if str_contains "/" p then os_path_basename p' else p
  end.

(** [os.path.abspath(p)], without the normalisation of dots and doubled
    slashes. *)
Definition os_path_abspath (w : world) (p : string) : string :=
  if startswith "/" p then p else cwd w ++ "/" ++ p.

(** [str.isspace] on the characters below 256. *)
Definition is_space (c : ascii) : bool :=
  let n := nat_of_ascii c in
  ((9 <=? n) && (n <=? 13) || (28 <=? n) && (n <=? 32)
   || (n =? 133) || (n =? 160))%nat.

Fixpoint lstrip (s : string) : string :=
  match s with
  | String c s' => if is_space c then lstrip s' else s
  | EmptyString => EmptyString
  end.

Fixpoint rstrip (s : string) : string :=
  match s with
  | EmptyString => EmptyString
  | String c s' =>
      match rstrip s' with
      | EmptyString => if is_space c then EmptyString else String c EmptyString
      | r => String c r
      end
  end.

(** [s.strip()] *)
Definition strip (s : string) : string := rstrip (lstrip s).

(** The text before the first [sep], and what follows it, if [sep] occurs. *)
Fixpoint cut_at (sep : ascii) (s : string) : string * option string :=
  match s with
  | EmptyString => (EmptyString, None)
  | String c s' =>
      if Ascii.eqb c sep then (EmptyString, Some s')
      else let r := cut_at sep s' in (String c (fst r), snd r)
  end.

(** [s.split(sep)] for a one-character separator. *)
Fixpoint split_char (sep : ascii) (s : string) : list string :=
  match s with
  | EmptyString => [EmptyString]
  | String c s' =>
      if Ascii.eqb c sep then EmptyString :: split_char sep s'
      else match split_char sep s' with
           | first :: others => String c first :: others
           | [] => [String c EmptyString]
           end
  end.

(** The first whitespace-free word of [s], and what follows it. *)
Fixpoint take_word (s : string) : string * string :=
  match s with
  | EmptyString => (EmptyString, EmptyString)
  | String c s' =>
      if is_space c then (EmptyString, s)
      else let r := take_word s' in (String c (fst r), snd r)
  end.

(** [s.split(None, 1)]: the first word and, if anything but whitespace
    follows it, the rest from its first non-blank character on. *)
Definition split_ws_1 (s : string) : list string :=
  match lstrip s with
  | EmptyString => []
  | s' =>
      let r := take_word s' in
      match lstrip (snd r) with
      | EmptyString => [fst r]
      | rest => [fst r; rest]
      end
  end.

Definition lower_char (c : ascii) : ascii :=
  let n := nat_of_ascii c in
  if ((65 <=? n) && (n <=? 90)
      || (192 <=? n) && (n <=? 222) && negb (n =? 215))%nat
  then ascii_of_nat (n + 32) else c.

(** [s.lower()] on the characters below 256. *)
Fixpoint lower (s : string) : string :=
  match s with
  | EmptyString => EmptyString
  | String c s' => String (lower_char c) (lower s')
  end.

(** *** pathlib *)

(** [Path(a) / b] *)
Definition joinpath (a b : string) : string := a ++ "/" ++ b.

(** [name.rfind('.')], scanning from position [i]. *)
Fixpoint rfind_dot (s : string) (i : nat) (last : option nat) : option nat :=
  match s with
  | EmptyString => last
  | String c s' =>
      rfind_dot s' (S i) (if Ascii.eqb c "."%char then Some i else last)
  end.

(** Where [Path.suffix] starts: the last dot, unless it is the first or the
    last character of the name. *)
Definition suffix_start (name : string) : option nat :=
  match rfind_dot name 0 None with
  | Some i =>
      if ((0 <? i) && (i <? String.length name - 1))%nat then Some i else None
  | None => None
  end.

(** [Path.suffix] and [Path.stem], of a file name. *)
Definition path_suffix (name : string) : string :=
  match suffix_start name with
  | Some i => String.substring i (String.length name - i) name
  | None => EmptyString
  end.

Definition path_stem (name : string) : string :=
  match suffix_start name with
  | Some i => String.substring 0 i name
  | None => name
  end.

(** [Path.unlink()] *)
Definition unlink (p : string) : Py unit :=
  fun w =>
    let w' := with_event w (EvUnlink p) in
    match fs w !! p with
    | None => (Raised (OSError ENOENT p), w')
    | Some (NDir _ _) => (Raised (OSError EISDIR p), w')
    | Some (NFile f) =>
        if f_removable f
        then (Returned tt, with_fs w' (delete p (fs w)))
        else (Raised (OSError EACCES p), w')
    end.

(** [shutil.move(src, dst)] of a regular file.  A destination that is a
    directory receives the file under its own name, and refuses when that
    name is taken; any other destination is replaced.  Directories are not
    required to exist above the entries below them. *)
Definition shutil_move (src dst : string) : Py unit :=
  fun w =>
    let w' := with_event w (EvMove src dst) in
    match fs w !! src with
    | None => (Raised (OSError ENOENT src), w')
    | Some (NDir _ _) => (Raised (OSError EISDIR src), w')
    | Some (NFile f) =>
        if negb (f_removable f) then (Raised (OSError EACCES src), w')
        else
          match fs w !! dst with
          | Some (NDir _ _) =>
              let real_dst := joinpath dst (os_path_basename src) in
              if os_path_exists w real_dst
              then (Raised (OSError EEXIST real_dst), w')
              else (Returned tt,
                    with_fs w' (<[real_dst := NFile f]> (delete src (fs w))))
          | _ =>
              (Returned tt, with_fs w' (<[dst := NFile f]> (delete src (fs w))))
          end
    end.

(** [Path.mkdir(parents=True, exist_ok=True)] *)
Definition mkdir_p (p : string) : Py unit :=
  fun w =>
    let w' := with_event w (EvMkdir p) in
    match fs w !! p with
    | None => (Returned tt, with_fs w' (<[p := NDir 0 0]> (fs w)))
    | Some (NDir _ _) => (Returned tt, w')
    | Some (NFile _) => (Raised (OSError EEXIST p), w')
    end.

(** [input(prompt)]: the next pending answer, [EOFError] when there is
    none. *)
Definition input (prompt : string) : Py string :=
  fun w =>
    let w' := with_event w (EvInput prompt) in
    match stdin w with
    | [] => (Raised EOFError, w')
    | answer :: rest => (Returned answer, with_stdin w' rest)
    end.

(** [list.sort(key=...)] is a stable sort.  Insertion from the right puts
    each element before the first one whose key is not smaller, so equal
    keys keep their order. *)
Section Sort.
Context {A : Type} (key : A -> Z).

Fixpoint insert_by (x : A) (l : list A) : list A :=
  match l with
  | [] => [x]
  | y :: l' => if (key x <=? key y)%Z then x :: l else y :: insert_by x l'
  end.

Definition sort_by (l : list A) : list A := fold_right insert_by [] l.

End Sort.

(** ** JSON documents, as [json.loads] returns them *)
#[local] Set Warnings "-register-all".
Inductive json :=
| JNull
| JBool (b : bool)
| JInt (n : Z)
| JFloat (literal : string)
| JStr (s : string)
| JList (l : list json)
| JDict (d : list (string * json)).

(** ** [class FileHasher] (src/file_hasher.py) *)
Module FileHasher.

(** The keys of [SUPPORTED_ALGORITHMS], lines 11-18. *)
Definition SUPPORTED_ALGORITHMS : list string :=
  ["md5"; "sha1"; "sha256"; "sha512"; "blake2b"; "blake2s"].

Definition in_SUPPORTED (algorithm : string) : bool :=
  existsb (String.eqb algorithm) SUPPORTED_ALGORITHMS.

(** The instance attributes set by [__init__], lines 19-22. *)
Record hasher := {
  chunk_size : Z;
  processed_files : Z;
  total_size : Z
}.

Definition init (chunk_size : Z) : hasher :=
  {| chunk_size := chunk_size; processed_files := 0; total_size := 0 |}.

(** What [hash_file] returns when the path is a file: lines 79-87, without
    the two fields read off the clock ([modified], [processing_time]). *)
Record file_info := {
  fi_filepath : string;
  fi_filename : string;
  fi_size : Z;
  fi_modified_timestamp : Z;
  fi_hashes : PyDict.t string
}.

(** The dict [hash_file] returns: [{'error': ...}] or a file record. *)
Inductive hash_file_result :=
| HashError (error : string)
| HashInfo (info : file_info).

(** The value of [a and b] when [a] is an optional string: [a] itself when
    it is [None] or empty, else the boolean [b]. *)
Inductive and_value :=
| Falsy (current : option string)
| Compared (b : bool).

Definition truthy (v : and_value) : bool :=
  match v with Falsy _ => false | Compared b => b end.

(** [if s:] for an optional string. *)
Definition nonempty (s : option string) : bool :=
  match s with
  | Some (String _ _) => true
  | _ => false
  end.

Record hash_match := {
  expected : json;
  current : option string;
  matches : and_value
}.

Record verification_result := {
  vr_filepath : json;
  vr_filename : string;
  vr_size : Z;
  vr_hash_matches : PyDict.t hash_match;
  vr_overall_match : bool
}.

(** An element of the [errors] list: the message about the manifest itself
    (line 143) or the record of one entry (lines 166-169). *)
Inductive error_entry :=
| ManifestError (e : exn)
| EntryError (filepath : json) (error : string).

Record verification_results := {
  verified : list verification_result;
  failed : list verification_result;
  missing : list (json * string);
  errors : list error_entry
}.

Definition add_verified r v :=
  {| verified := verified r ++ [v]; failed := failed r;
     missing := missing r; errors := errors r |}.
Definition add_failed r v :=
  {| verified := verified r; failed := failed r ++ [v];
     missing := missing r; errors := errors r |}.
Definition add_missing r m :=
  {| verified := verified r; failed := failed r;
     missing := missing r ++ [m]; errors := errors r |}.
Definition add_error r e :=
  {| verified := verified r; failed := failed r;
     missing := missing r; errors := errors r ++ [e] |}.

Section Methods.
Context `{Hashlib}.

(** A value of [hash_objects]: the running CRC (an [int]) or a hash
    object. *)
Inductive slot :=
| Crc (c : Z)
| Obj (o : hash_obj).

(** [_calculate_crc32], lines 34-39. *)
Definition _calculate_crc32 (self : hasher) (filepath : string) : Py string :=
  do crc <- hash_stream filepath (chunk_size self)
              (fun crc chunk => ret (zlib_crc32 chunk crc)) 0%Z;
  ret (format_08x (Z.land crc 4294967295)).

(** [_calculate_cryptographic_hash], lines 40-45. *)
Definition _calculate_cryptographic_hash (self : hasher)
    (filepath algorithm : string) : Py string :=
  let hash_obj := hashlib_new algorithm in
  do hash_obj <- hash_stream filepath (chunk_size self)
                   (fun o chunk => ret (hash_update o chunk)) hash_obj;
  ret (hexdigest hash_obj).

(** [calculate_hash], lines 23-33. *)
Definition calculate_hash (self : hasher) (filepath algorithm : string)
    : Py (option string) :=
  if negb (in_SUPPORTED algorithm) && negb (String.eqb algorithm "crc32")
  then raise (ValueError ("Unsupported algorithm: " ++ algorithm))
  else
    try_except
      (if String.eqb algorithm "crc32"
       then do d <- _calculate_crc32 self filepath; ret (Some d)
       else do d <- _calculate_cryptographic_hash self filepath algorithm;
            ret (Some d))
      is_OSError
      (fun e => print (MsgErrorReading filepath e) ;; ret None).

(** Lines 47-54: one slot per requested name, or [ValueError]. *)
Definition new_hash_objects (algorithms : list string) : Py (PyDict.t slot) :=
  for_each algorithms
    (fun hash_objects algo =>
       if String.eqb algo "crc32"
       then ret (PyDict.set algo (Crc 0) hash_objects)
       else if in_SUPPORTED algo
       then ret (PyDict.set algo (Obj (hashlib_new algo)) hash_objects)
       else raise (ValueError ("Unsupported algorithm: " ++ algo)))
    [].

(** Lines 58-62: every slot takes the chunk.  [hash_obj.update] changes the
    object the dict holds, which is the same as storing the new state. *)
Definition update_all (hash_objects : PyDict.t slot) (chunk : bytes)
    : Py (PyDict.t slot) :=
  for_each (PyDict.items hash_objects)
    (fun hash_objects item =>
       let algo := fst item in
       if String.eqb algo "crc32"
       then match snd item with
            | Crc c => ret (PyDict.set algo (Crc (zlib_crc32 chunk c)) hash_objects)
            | Obj _ => raise (TypeError "an integer is required")
            end
       else match snd item with
            | Obj o => ret (PyDict.set algo (Obj (hash_update o chunk)) hash_objects)
            | Crc _ => raise (AttributeError "update")
            end)
    hash_objects.

(** Lines 63-69. *)
Definition collect_results (hash_objects : PyDict.t slot) : Py (PyDict.t string) :=
  for_each (PyDict.items hash_objects)
    (fun results item =>
       let algo := fst item in
       if String.eqb algo "crc32"
       then match snd item with
            | Crc c => ret (PyDict.set algo (format_08x (Z.land c 4294967295)) results)
            | Obj _ => raise (TypeError "unsupported operand type(s) for &")
            end
       else match snd item with
            | Obj o => ret (PyDict.set algo (hexdigest o) results)
            | Crc _ => raise (AttributeError "hexdigest")
            end)
    [].

(** [calculate_multiple_hashes], lines 46-72. *)
Definition calculate_multiple_hashes (self : hasher) (filepath : string)
    (algorithms : list string) : Py (PyDict.t string) :=
  do hash_objects <- new_hash_objects algorithms;
  try_except
    (do hash_objects <- hash_stream filepath (chunk_size self)
                          update_all hash_objects;
     collect_results hash_objects)
    is_OSError
    (fun e => print (MsgErrorReading filepath e) ;; ret []).

(** [hash_file], lines 73-98. *)
Definition hash_file (self : hasher) (filepath : string)
    (algorithms : option (list string)) : Py (hasher * hash_file_result) :=
  let algorithms := match algorithms with None => ["sha256"] | Some l => l end in
  do w <- get_world;
  if negb (os_path_isfile w filepath)
  then ret (self, HashError ("File not found: " ++ filepath))
  else
    do file_stat <- os_stat filepath;
    do hashes <-
      match algorithms with
      | [algorithm] =>
          do hash_value <- calculate_hash self filepath algorithm;
          if nonempty hash_value
          then ret (match hash_value with
                    | Some v => PyDict.set algorithm v []
                    | None => []
                    end)
          else ret []
      | _ => calculate_multiple_hashes self filepath algorithms
      end;
    let info := {| fi_filepath := os_path_abspath w filepath;
                   fi_filename := os_path_basename filepath;
                   fi_size := fst file_stat;
                   fi_modified_timestamp := snd file_stat;
                   fi_hashes := hashes |} in
    ret ({| chunk_size := chunk_size self;
            processed_files := processed_files self + 1;
            total_size := total_size self + fi_size info |},
         HashInfo info).

(** The comment marker of the line-oriented manifest.  Line 198 of the
    source reads [if not line or line.startswith('] and stops there: the
    argument of [startswith] is not in the file, so it is a parameter. *)
Context (comment_marker : string).

(** [_parse_simple_hash_file], lines 194-209.  Each entry is the dict
    [{'filepath': ..., 'hash': ...}]. *)
Definition parse_line (results : list json) (line : string) : list json :=
  let line := strip line in
  if String.eqb line "" || startswith comment_marker line then results
  else
    match split_ws_1 line with
    | [hash_value; filepath] =>
        let filepath :=
          if startswith "*" filepath
          then String.substring 1 (String.length filepath - 1) filepath
          else filepath in
        results ++ [JDict [("filepath", JStr filepath); ("hash", JStr hash_value)]]
    | _ => results
    end.

Definition _parse_simple_hash_file (content default_algorithm : string)
    : list json :=
  fold_left parse_line (split_char "010"%char (strip content)) [].

(** [json.loads], taken as given: a document or [JSONDecodeError]. *)
Context (json_loads : string -> outcome json).

(** [file_entry.get(key, default)], lines 150-155.  Only a dict has [get]:
    for any other JSON value the [else] branch raises [AttributeError] at
    its first statement, line 154, so the [algorithm] of line 155 is never
    reached. *)
Definition entry_get (file_entry : json) (key : string) (default : json)
    : Py json :=
  match file_entry with
  | JDict d => ret (match PyDict.get key d with Some v => v | None => default end)
  | _ => raise (AttributeError "get")
  end.

(** [os.path.exists(x)] for whatever the manifest held: a string is a
    path, an integer a file descriptor, anything else a [TypeError]. *)
Definition exists_json (x : json) : Py bool :=
  match x with
  | JStr p => do w <- get_world; ret (os_path_exists w p)
  | JInt n => do w <- get_world; ret (fd_open w n)
  | JBool b => do w <- get_world; ret (fd_open w (if b then 1 else 0)%Z)
  | _ => raise (TypeError "stat: path should be string, bytes, os.PathLike or integer")
  end.

(** A path argument must be a string: [os.path.basename], [hash_file]. *)
Definition fspath (x : json) : Py string :=
  match x with
  | JStr p => ret p
  | _ => raise (TypeError "expected str, bytes or os.PathLike object")
  end.

(** [expected_hashes.keys()] and [.items()]: only a dict has them. *)
Definition dict_items (x : json) : Py (list (string * json)) :=
  match x with
  | JDict d => ret (PyDict.items d)
  | _ => raise (AttributeError "keys")
  end.

(** Lines 178-187: one expected digest against the current one. *)
Definition compare_hash (hashes : PyDict.t string)
    (acc : PyDict.t hash_match * bool) (item : string * json)
    : Py (PyDict.t hash_match * bool) :=
  let algo := fst item in
  let expected_hash := snd item in
  let current_hash := PyDict.get algo hashes in
  do matches <-
    (if nonempty current_hash
     then match current_hash, expected_hash with
          | Some c, JStr e => ret (Compared (String.eqb (lower c) (lower e)))
          | _, _ => raise (AttributeError "lower")
          end
     else ret (Falsy current_hash));
  ret (PyDict.set algo {| expected := expected_hash; current := current_hash;
                          matches := matches |} (fst acc),
       if truthy matches then snd acc else false).

(** The body of the loop over the manifest's entries, lines 150-191. *)
Definition verify_entry (st : hasher * verification_results)
    (file_entry : json) : Py (hasher * verification_results) :=
  let self := fst st in
  let verification_results := snd st in
  do filepath <- entry_get file_entry "filepath" JNull;
  do expected_hashes <- entry_get file_entry "hashes" (JDict []);
  do present <- exists_json filepath;
  if negb present
  then ret (self, add_missing verification_results (filepath, "File not found"))
  else
    do path <- fspath filepath;
    print (MsgVerifying (os_path_basename path)) ;;
    do items <- dict_items expected_hashes;
    let algorithms_to_check := map fst items in
    do r <- hash_file self path (Some algorithms_to_check);
    match snd r with
    | HashError error =>
        ret (fst r, add_error verification_results (EntryError filepath error))
    | HashInfo current_file_info =>
        do m <- for_each items (compare_hash (fi_hashes current_file_info))
                  ([], true);
        let verification_result :=
          {| vr_filepath := filepath;
             vr_filename := fi_filename current_file_info;
             vr_size := fi_size current_file_info;
             vr_hash_matches := fst m;
             vr_overall_match := snd m |} in
        if snd m
        then ret (fst r, add_verified verification_results verification_result)
        else ret (fst r, add_failed verification_results verification_result)
    end.

Definition no_results : verification_results :=
  {| verified := []; failed := []; missing := []; errors := [] |}.

(** Lines 145-193: the entries of the loaded manifest, one after the
    other. *)
Definition verify_entries (self : hasher) (hash_data : json)
    : Py (hasher * verification_results) :=
  let files_to_verify :=
    match hash_data with JList l => l | _ => [hash_data] end in
  do st <- for_each files_to_verify verify_entry (self, no_results);
  print MsgVerificationComplete ;;
  ret st.

(** Lines 133-138: the manifest as a document or as parsed lines. *)
Definition load_manifest (hash_file algorithm : string) : Py json :=
  do text <- read_text hash_file;
  let content := strip text in
  if startswith "{" content || startswith "[" content
  then lift (json_loads content)
  else ret (JList (_parse_simple_hash_file content algorithm)).

(** [verify_hashes], lines 125-193.  A [JSONDecodeError] sends the file to
    the line parser (an error while doing so propagates); any other
    exception while loading ends the run with one error recorded. *)
Definition verify_hashes (self : hasher) (hash_file algorithm : string)
    : Py (hasher * verification_results) :=
  fun w =>
    match load_manifest hash_file algorithm w with
    | (Returned hash_data, w') => verify_entries self hash_data w'
    | (Raised JSONDecodeError, w') =>
        (do text <- read_text hash_file;
         verify_entries self
           (JList (_parse_simple_hash_file text algorithm))) w'
    | (Raised e, w') =>
        (Returned (self, add_error no_results (ManifestError e)), w')
    | (Diverged, w') => (Diverged, w')
    end.

End Methods.
End FileHasher.

(** ** [class DuplicateFileFinder] (src/duplicate_finder.py) *)
Module DuplicateFileFinder.

(** The tuple [(path, size, modification_time)] of line 65. *)
Record file_info := {
  path : string;
  size : Z;
  mtime : Z
}.

(** The instance attributes set by [__init__], lines 15-19. *)
Record finder := {
  directories : list string;
  ignore_patterns : list string;
  file_hashes : PyDict.t (list file_info);
  duplicates : PyDict.t (list file_info)
}.

Definition init (directories ignore_patterns : list string) : finder :=
  {| directories := directories; ignore_patterns := ignore_patterns;
     file_hashes := []; duplicates := [] |}.

Definition with_file_hashes (self : finder) fh : finder :=
  {| directories := directories self; ignore_patterns := ignore_patterns self;
     file_hashes := fh; duplicates := duplicates self |}.

(** [self.file_hashes[file_hash].append(file_info)] on a
    [defaultdict(list)], line 70. *)
Definition append_to (file_hash : string) (info : file_info)
    (fh : PyDict.t (list file_info)) : PyDict.t (list file_info) :=
  match PyDict.get file_hash fh with
  | Some l => PyDict.set file_hash (l ++ [info]) fh
  | None => PyDict.set file_hash [info] fh
  end.

(** How a loop body ends: it falls through to the next turn, or the
    enclosing function returns. *)
Inductive flow (S : Type) :=
| Next (s : S)
| Return (s : S).
Arguments Next {S} s.
Arguments Return {S} s.

Fixpoint for_each_flow {A S} (l : list A) (body : S -> A -> Py (flow S))
    (acc : S) : Py (flow S) :=
  match l with
  | [] => ret (Next acc)
  | x :: l' =>
      do r <- body acc x;
      match r with
      | Next acc' => for_each_flow l' body acc'
      | Return s => ret (Return s)
      end
  end.

Section Methods.
Context `{Hashlib}.

(** [calculate_file_hash], lines 21-30. *)
Definition calculate_file_hash (filepath : string) (chunk_size : Z)
    : Py (option string) :=
  let hash_md5 := hashlib_new "md5" in
  try_except
    (do hash_md5 <- hash_stream filepath chunk_size
                      (fun o chunk => ret (hash_update o chunk)) hash_md5;
     ret (Some (hexdigest hash_md5)))
    is_OSError
    (fun e => print (MsgErrorReading filepath e) ;; ret None).

(** [should_ignore_file], lines 32-37. *)
Definition should_ignore_file (self : finder) (filepath : string) : bool :=
  let filename := os_path_basename filepath in
  existsb (fun pattern => str_contains pattern filename
                          || startswith pattern filename)
          (ignore_patterns self).

(** Lines 52-77: one file name under one [root]. *)
Definition scan_file (self : finder) (root : string)
    (st : PyDict.t (list file_info) * Z) (filename : string)
    : Py (PyDict.t (list file_info) * Z) :=
  let filepath := joinpath root filename in
  if should_ignore_file self filepath then ret st
  else
    try_except
      (do s <- os_stat filepath;
       let file_size := fst s in
       if (file_size =? 0)%Z then ret st
       else
         do file_hash <- calculate_file_hash filepath 8192;
         match file_hash with
         | Some (String c h) =>
             do s' <- os_stat filepath;
             let info := {| path := filepath; size := file_size;
                            mtime := snd s' |} in
             let total_files := (snd st + 1)%Z in
             (if (total_files mod 100 =? 0)%Z
              then print (MsgProcessed total_files) else ret tt) ;;
             ret (append_to (String c h) info (fst st), total_files)
         | _ => ret st
         end)
      is_OSError
      (fun e => print (MsgErrorProcessing filepath e) ;; ret st).

(** [scan_directories], lines 39-79. *)
Definition scan_directories (self : finder) : Py finder :=
  print MsgScanningForFiles ;;
  do st <- for_each (directories self)
    (fun st directory =>
       do w <- get_world;
       if negb (os_path_exists w directory)
       then print (MsgDirectoryMissing directory) ;; ret st
       else
         print (MsgScanning directory) ;;
         for_each (walk w directory)
           (fun st entry => for_each (snd entry) (scan_file self (fst entry)) st)
           st)
    (file_hashes self, 0%Z);
  print (MsgCompletedScanning (snd st)) ;;
  ret (with_file_hashes self (fst st)).

(** [find_duplicates], lines 81-90.  [file_list.sort] sorts the list that
    [file_hashes] holds, and [duplicates] then holds the same list. *)
Definition find_duplicates (self : finder) : Py finder :=
  print MsgIdentifying ;;
  let r :=
    fold_left
      (fun acc item =>
         let file_hash := fst item in
         let file_list := snd item in
         if (1 <? length file_list)%nat
         then let sorted := sort_by mtime file_list in
              (PyDict.set file_hash sorted (fst acc),
               PyDict.set file_hash sorted (snd acc))
         else acc)
      (PyDict.items (file_hashes self))
      (file_hashes self, duplicates self) in
  print (MsgFoundSets (length (snd r))) ;;
  ret {| directories := directories self;
         ignore_patterns := ignore_patterns self;
         file_hashes := fst r; duplicates := snd r |}.

(** Lines 149-170: one member after the first. *)
Definition remove_one (interactive dry_run : bool) (acc : Z * Z)
    (info : file_info) : Py (flow (Z * Z)) :=
  let filepath := path info in
  let delete_it :=
    try_except
      ((if negb dry_run
        then unlink filepath ;; print (MsgDeleted filepath)
        else print (MsgWouldDelete filepath)) ;;
       ret (Next (fst acc + 1, snd acc + size info)%Z))
      is_OSError
      (fun e => print (MsgErrorDeleting filepath e) ;; ret (Next acc)) in
  if interactive && negb dry_run
  then
    do answer <- input ("  Delete " ++ filepath ++ "? (y/n/q): ");
    let response := lower answer in
    if String.eqb response "q"
    then print MsgCancelled ;; ret (Return acc)
    else if negb (String.eqb response "y")
    then print (MsgSkipping filepath) ;; ret (Next acc)
    else delete_it
  else delete_it.

(** Lines 140-170: one duplicate set. *)
Definition remove_group (interactive dry_run : bool) (acc : Z * Z)
    (item : string * list file_info) : Py (flow (Z * Z)) :=
  let file_hash := fst item in
  let files := snd item in
  print (MsgProcessingSet (String.substring 0 12 file_hash)) ;;
  match files with
  | [] => raise IndexError
  | original :: duplicates_to_remove =>
      print (MsgKeeping (path original)) ;;
      for_each_flow duplicates_to_remove (remove_one interactive dry_run) acc
  end.

(** [remove_duplicates], lines 129-173.  The pair carried through the
    loops is [(removed_count, space_freed)]. *)
Definition remove_duplicates (self : finder) (interactive dry_run : bool)
    : Py unit :=
  match duplicates self with
  | [] => print MsgNoDuplicatesToRemove
  | _ =>
      (if dry_run then print MsgDryRunDelete else ret tt) ;;
      do r <- for_each_flow (PyDict.items (duplicates self))
                (remove_group interactive dry_run) (0, 0)%Z;
      match r with
      | Return _ => ret tt
      | Next acc => print (MsgRemoveSummary dry_run (snd acc) (fst acc))
      end
  end.

(** Lines 195-200: the first name that is free in the target. *)
Fixpoint free_name (fuel : nat) (w : world) (target_path stem suffix : string)
    (counter : nat) (new_name : string) : outcome string :=
  match fuel with
  | O => Diverged
  | S fuel' =>
      if os_path_exists w (joinpath target_path new_name)
      then free_name fuel' w target_path stem suffix (S counter)
             (stem ++ "_" ++ str_of_nat counter ++ suffix)
      else Returned new_name
  end.

(** Lines 193-214: one member after the first.  The loop of lines 197-200
    meets at most one taken name per entry of the file system, and the name
    it started from. *)
Definition move_one (target_path : string) (dry_run : bool) (moved_count : Z)
    (info : file_info) : Py Z :=
  let filepath := path info in
  let name := os_path_basename filepath in
  do w <- get_world;
  do new_name <- lift (free_name (S (S (base.size (fs w)))) w target_path
                         (path_stem name) (path_suffix name) 1 name);
  let new_path := joinpath target_path new_name in
  try_except
    ((if negb dry_run
      then shutil_move filepath new_path ;; print (MsgMoved filepath new_path)
      else print (MsgWouldMove filepath new_path)) ;;
     ret (moved_count + 1)%Z)
    is_OSError
    (fun e => print (MsgErrorMoving filepath e) ;; ret moved_count).

(** [move_duplicates_to_folder], lines 175-217. *)
Definition move_duplicates_to_folder (self : finder) (target_folder : string)
    (dry_run : bool) : Py unit :=
  match duplicates self with
  | [] => print MsgNoDuplicatesToMove
  | _ =>
      let target_path := target_folder in
      (if negb dry_run then mkdir_p target_path else ret tt) ;;
      (if dry_run then print MsgDryRunMove else ret tt) ;;
      do moved_count <-
        for_each (PyDict.items (duplicates self))
          (fun moved_count item =>
             let duplicates_to_move := tl (snd item) in
             for_each duplicates_to_move (move_one target_path dry_run)
               moved_count)
          0%Z;
      print (MsgMoveSummary dry_run moved_count target_folder)
  end.

End Methods.
End DuplicateFileFinder.

(** ** A stand-in for hashlib, to run the functions on examples

    The digest of the stand-in is the algorithm's name followed by the
    CRC-32 of the bytes fed so far; it is used only where a statement is
    evaluated on a concrete file. *)
Definition toy_hashlib : Hashlib :=
  {| hash_obj := string * Z;
     hashlib_new := fun name => (name, 0%Z);
     hash_update := fun o chunk => (fst o, zlib_crc32 chunk (snd o));
     hexdigest := fun o => (fst o ++ "-" ++ format_08x (snd o))%string |}.

(** A readable, removable regular file with the given text. *)
Definition plain_file (text : string) (mtime : Z) : node :=
  NFile {| f_data := list_byte_of_string text; f_mtime := mtime;
           f_readable := true; f_fault := None; f_removable := true |}.

(** A world with the given files, nothing typed at the prompt and nothing
    done yet. *)
Definition world_of (files : list (string * node)) (answers : list string)
    : world :=
  {| fs := list_to_map files; walk := fun _ => []; fd_open := fun _ => false;
     cwd := "/home"; stdin := answers; log := [] |}.

(** ** Notions used in the statements *)

(** The names [calculate_hash] accepts at line 24. *)
Definition supported (algorithm : string) : bool :=
  FileHasher.in_SUPPORTED algorithm || String.eqb algorithm "crc32".

(** The slot a name receives at lines 47-54, and the dict of slots a list of
    supported names builds. *)
Section Slots.
Context {HL : Hashlib}.

Definition fresh_slot (algo : string) : FileHasher.slot :=
  if String.eqb algo "crc32" then FileHasher.Crc 0
  else FileHasher.Obj (hashlib_new algo).

Definition fresh_slots (algorithms : list string) : PyDict.t FileHasher.slot :=
  fold_left (fun d algo => PyDict.set algo (fresh_slot algo) d) algorithms [].

End Slots.

(** What goes wrong when the file at [p] is opened and read to its end in
    chunks of [chunk_size], if anything does: it is absent, a directory or
    unreadable, or its first bad byte lies within the data (and bytes are
    asked for at all). *)
Definition io_failure (chunk_size : Z) (w : world) (p : string) : option exn :=
  match fs w !! p with
  | None => Some (OSError ENOENT p)
  | Some (NDir _ _) => Some (OSError EISDIR p)
  | Some (NFile f) =>
      if negb (f_readable f) then Some (OSError EACCES p)
      else match f_fault f with
           | Some g =>
               if (g <? length (f_data f))%nat && negb (chunk_size =? 0)%Z
               then Some (OSError EIO p) else None
           | None => None
           end
  end.

(** A loop body that only computes: from a state satisfying [I] it returns
    one satisfying [I] and leaves the world alone. *)
Definition pure_step {A} (I : A -> Prop) (step : A -> bytes -> Py A) : Prop :=
  forall a chunk w, I a -> exists a', step a chunk w = (Returned a', w) /\ I a'.

(** Two loop bodies that keep their states related by [R]. *)
Definition sim_step {A B} (R : A -> B -> Prop)
    (stepA : A -> bytes -> Py A) (stepB : B -> bytes -> Py B) : Prop :=
  forall a b chunk w, R a b ->
    exists a' b', stepA a chunk w = (Returned a', w) /\
                  stepB b chunk w = (Returned b', w) /\ R a' b'.

(** What lines 58-62 do to one entry of [hash_objects], what lines 64-68
    make of it, and the shape every entry has: the key "crc32" holds the
    running checksum, every other key a hash object. *)
Section SlotSpec.
Context {HL : Hashlib}.

Definition feed (chunk : bytes) (item : string * FileHasher.slot)
    : string * FileHasher.slot :=
  (fst item,
   match snd item with
   | FileHasher.Crc c => FileHasher.Crc (zlib_crc32 chunk c)
   | FileHasher.Obj o => FileHasher.Obj (hash_update o chunk)
   end).

Definition digest_of (item : string * FileHasher.slot) : string * string :=
  (fst item,
   match snd item with
   | FileHasher.Crc c => format_08x (Z.land c 4294967295)
   | FileHasher.Obj o => hexdigest o
   end).

Definition slot_fits (item : string * FileHasher.slot) : Prop :=
  match snd item with
  | FileHasher.Crc _ => fst item = "crc32"
  | FileHasher.Obj _ => fst item <> "crc32"
  end.

Definition slots_ok (d : PyDict.t FileHasher.slot) : Prop :=
  List.NoDup (PyDict.keys d) /\ Forall slot_fits d.

End SlotSpec.

(** A file of nine bytes whose sixth byte cannot be read. *)
Definition damaged_file : node :=
  NFile {| f_data := list_byte_of_string "123456789"; f_mtime := 1;
           f_readable := true; f_fault := Some 5; f_removable := true |}.

(** Words for the line-oriented manifest: a string all of whose characters
    satisfy [P]; a field (no blank in it, not empty); a run of blanks; a
    text that starts with a character that is not blank. *)
Fixpoint str_forall (P : ascii -> bool) (s : string) : bool :=
  match s with
  | EmptyString => true
  | String c s' => P c && str_forall P s'
  end.

Definition is_field (s : string) : Prop :=
  s <> "" /\ str_forall (fun c => negb (is_space c)) s = true.

Definition is_blanks (s : string) : Prop :=
  s <> "" /\ str_forall is_space s = true.

Definition starts_unblank (s : string) : Prop :=
  exists c r, s = String c r /\ is_space c = false.

(** The path of an entry: the second field without one leading star. *)
Definition without_star (p : string) : string :=
  match p with
  | String c r => if Ascii.eqb c "*"%char then r else p
  | EmptyString => p
  end.

(** The entry a line [<digest> <path>] stands for. *)
Definition manifest_entry (digest path : string) : json :=
  JDict [("filepath", JStr (without_star path)); ("hash", JStr digest)].

(** [sep.join(pieces)] *)
Fixpoint join (sep : string) (pieces : list string) : string :=
  match pieces with
  | [] => ""
  | [p] => p
  | p :: rest => p ++ sep ++ join sep rest
  end.

(** The comparison of line 180 when the current file gave no digest: the
    expected value is recorded against [None], and the entry no longer
    matches. *)
Definition unread (acc : PyDict.t FileHasher.hash_match * bool)
    (item : string * json) : PyDict.t FileHasher.hash_match * bool :=
  (PyDict.set (fst item)
     {| FileHasher.expected := snd item; FileHasher.current := None;
        FileHasher.matches := FileHasher.Falsy None |} (fst acc),
   false).

(** The manifest entry of the spec's scenario, keyed "path". *)
Definition spec_missing_entry : json :=
  JDict [("path", JStr "missing.txt"); ("hashes", JDict [("sha256", JStr "abc")])].

(** An entry as [save_hashes] writes it, for a file that cannot be read
    to its end. *)
Definition damaged_entry : json :=
  JDict [("filepath", JStr "a.bin"); ("hashes", JDict [("sha256", JStr "abc")])].

(** The grouping of lines 62-70 on a sequence of (digest, file) records,
    taken by itself: each record is appended to the list of its digest. *)
Definition group_records
    (records : list (string * DuplicateFileFinder.file_info))
    : PyDict.t (list DuplicateFileFinder.file_info) :=
  fold_left
    (fun fh r => DuplicateFileFinder.append_to (fst r) (snd r) fh) records [].

(** The files recorded with digest [h], in input order. *)
Definition digest_class (h : string)
    (records : list (string * DuplicateFileFinder.file_info))
    : list DuplicateFileFinder.file_info :=
  map snd (List.filter (fun r => String.eqb (fst r) h) records).

(** A finder that has scanned [records] and not yet looked for
    duplicates. *)
Definition scanned (directories ignore_patterns : list string)
    (records : list (string * DuplicateFileFinder.file_info))
    : DuplicateFileFinder.finder :=
  DuplicateFileFinder.with_file_hashes
    (DuplicateFileFinder.init directories ignore_patterns)
    (group_records records).

(** The members of a list with modification time [t], in list order. *)
Definition at_time (t : Z) (l : list DuplicateFileFinder.file_info)
    : list DuplicateFileFinder.file_info :=
  List.filter (fun x => (DuplicateFileFinder.mtime x =? t)%Z) l.

Definition not_newer (a b : DuplicateFileFinder.file_info) : Prop :=
  (DuplicateFileFinder.mtime a <= DuplicateFileFinder.mtime b)%Z.

(** The names lines 195-200 try for a file called [name], in order: the
    name itself, then stem_1suffix, stem_2suffix, ... *)
Definition candidate (name : string) (k : nat) : string :=
  match k with
  | O => name
  | S _ => (path_stem name ++ "_" ++ str_of_nat k ++ path_suffix name)%string
  end.

(** The spec's scenario: an original and two duplicates, all called
    dup.txt, and the duplicates relocated into the directory [quarantine]. *)
Definition dup_scenario : world :=
  world_of [("keep/dup.txt", plain_file "same" 1);
            ("a/dup.txt", plain_file "same" 2);
            ("b/dup.txt", plain_file "same" 3)] [].

Definition dup_finder : DuplicateFileFinder.finder :=
  {| DuplicateFileFinder.directories := ["keep"; "a"; "b"];
     DuplicateFileFinder.ignore_patterns := [];
     DuplicateFileFinder.file_hashes := [];
     DuplicateFileFinder.duplicates :=
       [("0f0f", [{| DuplicateFileFinder.path := "keep/dup.txt";
                     DuplicateFileFinder.size := 4;
                     DuplicateFileFinder.mtime := 1 |};
                  {| DuplicateFileFinder.path := "a/dup.txt";
                     DuplicateFileFinder.size := 4;
                     DuplicateFileFinder.mtime := 2 |};
                  {| DuplicateFileFinder.path := "b/dup.txt";
                     DuplicateFileFinder.size := 4;
                     DuplicateFileFinder.mtime := 3 |}])] |}.

(** What a run printed, and what it reported done: the paths of the lines
    "Deleted"/"Would delete", and of the lines "Moved"/"Would move". *)
Definition printed (l : list event) : list message :=
  flat_map (fun e => match e with EvPrint m => [m] | _ => [] end) l.

Definition deletions (l : list event) : list string :=
  flat_map (fun e => match e with
                     | EvPrint (MsgDeleted p) => [p]
                     | EvPrint (MsgWouldDelete p) => [p]
                     | _ => []
                     end) l.

Definition relocations (l : list event) : list string :=
  flat_map (fun e => match e with
                     | EvPrint (MsgMoved p _) => [p]
                     | EvPrint (MsgWouldMove p _) => [p]
                     | _ => []
                     end) l.

(** The members after the first of every group, in processing order, and
    the sum of the sizes of a list of members. *)
Definition candidates (dups : PyDict.t (list DuplicateFileFinder.file_info))
    : list DuplicateFileFinder.file_info :=
  flat_map (fun item => tl (snd item)) dups.

Definition total_size (l : list DuplicateFileFinder.file_info) : Z :=
  fold_right (fun i acc => (DuplicateFileFinder.size i + acc)%Z) 0%Z l.




(** One directory [d] holding one file, and the finder started on that
    directory named twice, as in [duplicate_finder.py d d]. *)
Definition overlap_world : world :=
  {| fs := list_to_map [("d", NDir 0 0); ("d/a.txt", plain_file "hello" 1)];
     walk := fun root => if String.eqb root "d" then [("d", ["a.txt"])] else [];
     fd_open := fun _ => false; cwd := "/home"; stdin := []; log := [] |}.

Definition overlap_finder : DuplicateFileFinder.finder :=
  DuplicateFileFinder.init ["d"; "d"] [".DS_Store"; "Thumbs.db"].

(** Lines 257-259 of [main]: scan, then look for duplicates. *)
Definition scan_and_find `{Hashlib} (self : DuplicateFileFinder.finder)
    : Py DuplicateFileFinder.finder :=
  do self <- DuplicateFileFinder.scan_directories self;
  DuplicateFileFinder.find_duplicates self.

(** The paths handed to [unlink] or to [shutil.move] as the source. *)
Definition touched (l : list event) : list string :=
  flat_map (fun e => match e with
                     | EvUnlink p => [p]
                     | EvMove p _ => [p]
                     | _ => []
                     end) l.

(** [w] after the events of [l] were logged, and nothing else happened. *)
Definition with_events (w : world) (l : list event) : world :=
  fold_left with_event l w.

Definition is_print (e : event) : bool :=
  match e with EvPrint _ => true | _ => false end.







(** The chunks [f.read(k)] hands to the loop of a hashing function on a
    file holding [data], read without error: pieces of [k] bytes, the last
    one shorter, up to the first empty one. *)
Fixpoint chunks_of (fuel k : nat) (data : bytes) : list bytes :=
  match fuel with
  | O => []
  | S fuel' =>
      match firstn k data with
      | [] => []
      | chunk => chunk :: chunks_of fuel' k (skipn k data)
      end
  end.

Definition chunks (k : nat) (data : bytes) : list bytes :=
  chunks_of (S (length data)) k data.

(** What the documentation of [hashlib] promises of [update]: feeding two
    pieces one after the other is feeding their concatenation. *)
Definition update_concatenates `{Hashlib} : Prop :=
  forall o a b, hash_update (hash_update o a) b = hash_update o (a ++ b).

(** The digest of [data] taken in one piece: [zlib.crc32(data)] formatted
    as eight hexadecimal digits, or the digest of a new hash object fed
    [data] (and fed nothing when there is no data). *)
Definition one_shot `{Hashlib} (algorithm : string) (data : bytes) : string :=
  if String.eqb algorithm "crc32"
  then format_08x (zlib_crc32 data 0)
  else hexdigest match data with
                 | [] => hashlib_new algorithm
                 | _ => hash_update (hashlib_new algorithm) data
                 end.

(** Events that change nothing outside: a file opened for reading, a line
    printed. *)
Definition is_quiet (e : event) : bool :=
  match e with EvOpen _ | EvPrint _ => true | _ => false end.

(** The paths a scan comes by, in order: for every directory of the finder
    that exists, every file name [os.walk] yields, joined to its root
    (lines 43-52). *)
Definition scan_paths (self : DuplicateFileFinder.finder) (w : world)
    : list string :=
  flat_map
    (fun directory =>
       if os_path_exists w directory
       then flat_map (fun entry => map (joinpath (fst entry)) (snd entry))
              (walk w directory)
       else [])
    (DuplicateFileFinder.directories self).

Section ScanRecords.
Context {HL : Hashlib}.

(** The md5 digest as the scan takes it, in chunks of 8192 bytes. *)
Definition md5_digest (data : bytes) : string :=
  hexdigest (fold_left hash_update (chunks (Z.to_nat 8192) data) (hashlib_new "md5")).

(** The record a scan keeps of the path [p], if it keeps one: the name is
    not ignored, the path is a regular file that is not empty and can be
    read to its end, and its digest is not the empty string. *)
Definition scan_record (self : DuplicateFileFinder.finder) (w : world)
    (p : string) : option (string * DuplicateFileFinder.file_info) :=
  if DuplicateFileFinder.should_ignore_file self p then None
  else
    match fs w !! p with
    | Some (NFile f) =>
        if (length (f_data f) =? 0)%nat then None
        else
          match io_failure 8192 w p, md5_digest (f_data f) with
          | None, String c h =>
              Some (String c h,
                    {| DuplicateFileFinder.path := p;
                       DuplicateFileFinder.size := Z.of_nat (length (f_data f));
                       DuplicateFileFinder.mtime := f_mtime f |})
          | _, _ => None
          end
    | _ => None
    end.

Definition scan_records (self : DuplicateFileFinder.finder) (w : world)
    : list (string * DuplicateFileFinder.file_info) :=
  flat_map (fun p => match scan_record self w p with
                     | Some r => [r]
                     | None => []
                     end) (scan_paths self w).

End ScanRecords.

(** The test of line 180 on one expected digest: the current digest under
    the same name is there, is not empty, and equals the expected string
    once both are lowered. *)
Definition digest_agrees (current : PyDict.t string) (item : string * json)
    : bool :=
  match PyDict.get (fst item) current, snd item with
  | Some (String c d), JStr e => String.eqb (lower (String c d)) (lower e)
  | _, _ => false
  end.

Definition is_JStr (x : json) : bool :=
  match x with JStr _ => true | _ => false end.

(** A piece of Python that comes to an end, with a value or an exception,
    in whatever world it is run. *)
Definition ends {A} (c : Py A) : Prop := forall w, fst (c w) <> Diverged.

Definition is_JDict (x : json) : bool :=
  match x with JDict _ => true | _ => false end.

(** *** [FileHasher.save_hashes], the simple format (src/file_hasher.py) *)

(** The text [save_hashes] writes when [format_type == 'simple'], lines
    216-221: for every record that has a digest, the digest filed under its
    first algorithm, two blanks, the path, a newline.  A record
    [{'error': ...}] has no 'hashes' and is passed over. *)
Definition simple_line (result : FileHasher.hash_file_result) : string :=
  match result with
  | FileHasher.HashInfo info =>
      match FileHasher.fi_hashes info with
      | (algo, hash_value) :: _ =>
          (hash_value ++ "  " ++ FileHasher.fi_filepath info
           ++ String "010" "")%string
      | [] => ""
      end
  | FileHasher.HashError _ => ""
  end.

Definition save_hashes_simple (hash_results : list FileHasher.hash_file_result)
    : string :=
  fold_left (fun text result => (text ++ simple_line result)%string)
    hash_results "".

(** The (digest, path) pairs of the records that have a digest. *)
Definition saved_pair (result : FileHasher.hash_file_result)
    : list (string * string) :=
  match result with
  | FileHasher.HashInfo info =>
      match FileHasher.fi_hashes info with
      | (algo, hash_value) :: _ => [(hash_value, FileHasher.fi_filepath info)]
      | [] => []
      end
  | FileHasher.HashError _ => []
  end.

(** A path that a line of text can carry: not empty, no blank at either
    end, no newline in it. *)
Definition line_safe (p : string) : Prop :=
  p <> ""%string /\ strip p = p
  /\ str_forall (fun c => negb (Ascii.eqb c "010")) p = true.



(** One directory [d] holding two files with the same bytes, the older one
    called [b.txt]. *)
Definition two_copies_world : world :=
  {| fs := list_to_map [("d", NDir 0 0); ("d/a.txt", plain_file "hello" 2);
                        ("d/b.txt", plain_file "hello" 1)];
     walk := fun root =>
       if String.eqb root "d" then [("d", ["a.txt"; "b.txt"])] else [];
     fd_open := fun _ => false; cwd := "/home"; stdin := []; log := [] |}.

(** *** [DuplicateFileFinder.display_duplicates], the totals
    (src/duplicate_finder.py) *)

(** The two totals of [display_duplicates], lines 97-101: the number of
    members after the first, and the sum of their sizes, over all groups. *)
Definition total_duplicates (self : DuplicateFileFinder.finder) : Z :=
  fold_left Z.add
    (map (fun files : list DuplicateFileFinder.file_info =>
            (Z.of_nat (length files) - 1)%Z)
       (PyDict.values (DuplicateFileFinder.duplicates self))) 0%Z.

Definition total_wasted_space (self : DuplicateFileFinder.finder) : Z :=
  fold_left Z.add
    (map (fun files : list DuplicateFileFinder.file_info =>
            fold_left Z.add (map DuplicateFileFinder.size (tl files)) 0%Z)
       (PyDict.values (DuplicateFileFinder.duplicates self))) 0%Z.

(** ** Proofs *)

(** *** The monad *)

Lemma bind_returned {A B} (c : Py A) (k : A -> Py B) w a w' :
  c w = (Returned a, w') -> bind c k w = k a w'.
Proof. intros E. unfold bind. now rewrite E. Qed.

Lemma bind_raised {A B} (c : Py A) (k : A -> Py B) w e w' :
  c w = (Raised e, w') -> bind c k w = (Raised e, w').
Proof. intros E. unfold bind. now rewrite E. Qed.

Lemma for_each_pure {A S} (l : list A) (body : S -> A -> Py S)
    (g : S -> A -> S) (acc : S) (w : world) :
  (forall s x, In x l -> body s x w = (Returned (g s x), w)) ->
  for_each l body acc w = (Returned (fold_left g l acc), w).
Proof.
  revert acc. induction l as [|x l IH]; intros acc Hb; simpl.
  - reflexivity.
  - rewrite (bind_returned _ _ _ _ _ (Hb acc x (or_introl eq_refl))).
    apply IH. intros s y Hy. apply Hb. now right.
Qed.

Lemma for_each_app {A S} (l1 l2 : list A) (body : S -> A -> Py S) acc w :
  for_each (l1 ++ l2) body acc w =
  bind (for_each l1 body acc) (for_each l2 body) w.
Proof.
  revert acc w. induction l1 as [|x l1 IH]; intros acc w; simpl.
  - reflexivity.
  - unfold bind in *. destruct (body acc x w) as [[a|e|] w']; auto.
Qed.

(** *** Dictionaries *)

Lemma dict_get_set_eq {V} (k : string) (v : V) d :
  PyDict.get k (PyDict.set k v d) = Some v.
Proof.
  induction d as [|[k' v'] d IH]; simpl.
  - now rewrite String.eqb_refl.
  - destruct (String.eqb k k') eqn:E; simpl; rewrite E; auto.
Qed.

Lemma dict_get_set_ne {V} (k k' : string) (v : V) d :
  k <> k' -> PyDict.get k' (PyDict.set k v d) = PyDict.get k' d.
Proof.
  intros Hne. induction d as [|[k0 v0] d IH]; simpl.
  - destruct (String.eqb_spec k' k); congruence.
  - destruct (String.eqb_spec k k0) as [->|]; simpl.
    + destruct (String.eqb_spec k' k0); congruence.
    + now rewrite IH.
Qed.

Lemma dict_keys_set {V} (k : string) (v : V) d :
  PyDict.keys (PyDict.set k v d) =
  if PyDict.contains k d then PyDict.keys d else PyDict.keys d ++ [k].
Proof.
  unfold PyDict.contains, PyDict.keys.
  induction d as [|[k' v'] d IH]; simpl; auto.
  destruct (String.eqb k k') eqn:E; simpl; auto.
  rewrite IH. now destruct (PyDict.get k d).
Qed.

Lemma dict_contains_keys {V} (k : string) (d : PyDict.t V) :
  PyDict.contains k d = true <-> In k (PyDict.keys d).
Proof.
  unfold PyDict.contains, PyDict.keys.
  induction d as [|[k' v'] d IH]; simpl.
  - split; [discriminate | tauto].
  - destruct (String.eqb_spec k k') as [->|Hne].
    + split; auto.
    + rewrite IH. split; [tauto | intros [?|?]; congruence].
Qed.

Lemma dict_set_NoDup {V} (k : string) (v : V) d :
  List.NoDup (PyDict.keys d) -> List.NoDup (PyDict.keys (PyDict.set k v d)).
Proof.
  intros Hd. rewrite dict_keys_set.
  destruct (PyDict.contains k d) eqn:E; auto.
  apply List.NoDup_app; auto.
  - repeat constructor. simpl. tauto.
  - intros x Hx [<-|[]]. apply dict_contains_keys in Hx. congruence.
Qed.

(** Assigning to a key that is absent appends the entry. *)
Lemma dict_set_fresh {V} (k : string) (v : V) d :
  ~ In k (PyDict.keys d) -> PyDict.set k v d = d ++ [(k, v)].
Proof.
  unfold PyDict.keys. induction d as [|[k' v'] d IH]; simpl; intros Hn; auto.
  destruct (String.eqb_spec k k') as [->|]; [tauto|].
  rewrite IH; tauto.
Qed.

(** Assigning to the key of the entry in the middle replaces its value
    there, when no earlier entry has the key. *)
Lemma dict_set_middle {V} (k : string) (v v' : V) d1 d2 :
  ~ In k (PyDict.keys d1) ->
  PyDict.set k v' (d1 ++ (k, v) :: d2) = d1 ++ (k, v') :: d2.
Proof.
  unfold PyDict.keys. induction d1 as [|[k0 v0] d1 IH]; simpl; intros Hn.
  - now rewrite String.eqb_refl.
  - destruct (String.eqb_spec k k0) as [->|]; [tauto|].
    rewrite IH; tauto.
Qed.


(** *** Unsupported algorithms *)

Section Digest.
Context {HL : Hashlib}.

Lemma new_hash_objects_supported (algorithms : list string) w :
  forallb supported algorithms = true ->
  FileHasher.new_hash_objects algorithms w = (Returned (fresh_slots algorithms), w).
Proof.
  intros Hs. unfold FileHasher.new_hash_objects, fresh_slots.
  apply for_each_pure. intros d a Ha.
  rewrite forallb_forall in Hs. specialize (Hs a Ha). unfold supported in Hs.
  unfold fresh_slot. destruct (String.eqb a "crc32"); [reflexivity|].
  rewrite orb_false_r in Hs. now rewrite Hs.
Qed.

Lemma new_hash_objects_unsupported (before after : list string) bad w :
  forallb supported before = true -> supported bad = false ->
  FileHasher.new_hash_objects (before ++ bad :: after) w =
  (Raised (ValueError ("Unsupported algorithm: " ++ bad)), w).
Proof.
  intros Hb Hbad. unfold FileHasher.new_hash_objects.
  rewrite for_each_app.
  erewrite bind_returned by (apply new_hash_objects_supported, Hb).
  simpl. unfold supported in Hbad. apply orb_false_elim in Hbad as [H1 H2].
  unfold bind. now rewrite H2, H1.
Qed.

(** A list with an unsupported name splits at the first one. *)
Lemma first_unsupported (algorithms : list string) :
  forallb supported algorithms = false ->
  exists before bad after,
    algorithms = before ++ bad :: after /\
    forallb supported before = true /\ supported bad = false.
Proof.
  induction algorithms as [|a l IH]; simpl; [discriminate|].
  destruct (supported a) eqn:Ea; simpl.
  - intros Hl. destruct (IH Hl) as (b & bad & af & -> & Hb & Hbad).
    exists (a :: b), bad, af. simpl. now rewrite Ea.
  - intros _. now exists [], a, l.
Qed.

(** C3. An algorithm name outside md5, sha1, sha256, sha512, blake2b,
    blake2s and crc32 makes [calculate_hash] raise [ValueError]
    ("Unsupported algorithm"), and a list holding such a name makes
    [calculate_multiple_hashes] raise it for the first such name; in both
    cases the world is unchanged: nothing was opened, read or printed. *)
Theorem unsupported_algorithm_rejected_before_open
    (self : FileHasher.hasher) (filepath algorithm : string)
    (algorithms : list string) (w : world) :
  supported algorithm = false ->
  In algorithm algorithms ->
  FileHasher.calculate_hash self filepath algorithm w =
    (Raised (ValueError ("Unsupported algorithm: " ++ algorithm)), w)
  /\ exists bad,
       In bad algorithms /\ supported bad = false /\
       FileHasher.calculate_multiple_hashes self filepath algorithms w =
         (Raised (ValueError ("Unsupported algorithm: " ++ bad)), w).
Proof.
  intros Hbad Hin. split.
  - unfold FileHasher.calculate_hash. unfold supported in Hbad.
    apply orb_false_elim in Hbad as [-> ->]. reflexivity.
  - assert (Hall : forallb supported algorithms = false).
    { destruct (forallb supported algorithms) eqn:E; auto.
      rewrite forallb_forall in E. rewrite (E _ Hin) in Hbad. discriminate. }
    destruct (first_unsupported _ Hall) as (b & bad & af & -> & Hb & Hu).
    exists bad. repeat split; auto.
    + apply in_or_app. right. now left.
    + unfold FileHasher.calculate_multiple_hashes.
      now erewrite bind_raised by (apply new_hash_objects_unsupported; eauto).
Qed.

End Digest.

Lemma unsupported_algorithm_rejected_before_open_witness :
  @FileHasher.calculate_hash toy_hashlib (FileHasher.init 65536) "a.txt" "sha3"
     (world_of [("a.txt", plain_file "hello" 1)] []) =
    (Raised (ValueError "Unsupported algorithm: sha3"),
     world_of [("a.txt", plain_file "hello" 1)] [])
  /\ exists bad,
       In bad ["md5"; "sha3"; "crc32"] /\ supported bad = false /\
       @FileHasher.calculate_multiple_hashes toy_hashlib (FileHasher.init 65536)
         "a.txt" ["md5"; "sha3"; "crc32"]
         (world_of [("a.txt", plain_file "hello" 1)] []) =
         (Raised (ValueError ("Unsupported algorithm: " ++ bad)),
          world_of [("a.txt", plain_file "hello" 1)] []).
Proof.
  apply (@unsupported_algorithm_rejected_before_open toy_hashlib).
  - reflexivity.
  - simpl. tauto.
Defined.

(** *** Reading a file in chunks *)

Lemma f_read_clean h n g :
  h_good h = g ->
  match g with Some g => length (h_rest h) <= g | None => True end ->
  exists good',
    f_read h n = Returned (firstn (if (n <? 0)%Z then length (h_rest h) else Z.to_nat n) (h_rest h),
                           {| h_path := h_path h;
                              h_rest := skipn (if (n <? 0)%Z then length (h_rest h) else Z.to_nat n) (h_rest h);
                              h_good := good' |}) /\
    match good' with
    | Some g' => length (skipn (if (n <? 0)%Z then length (h_rest h) else Z.to_nat n) (h_rest h)) <= g'
    | None => True
    end.
Proof.
  intros Hg Hc. unfold f_read. rewrite Hg.
  set (k := if (n <? 0)%Z then _ else _).
  destruct g as [g|].
  - pose proof (length_firstn k (h_rest h)) as Hf.
    pose proof (length_skipn k (h_rest h)) as Hs.
    destruct (Nat.ltb_spec g (length (firstn k (h_rest h)))); [lia|].
    eexists; split; [reflexivity|]. simpl. lia.
  - eexists; split; [reflexivity|]. exact I.
Qed.

Lemma read_loop_clean {A} (I : A -> Prop) step cs :
  pure_step I step ->
  forall fuel h a w,
    I a -> length (h_rest h) < fuel ->
    cs = 0%Z \/ match h_good h with Some g => length (h_rest h) <= g | None => True end ->
    exists a', read_loop fuel cs h step a w = (Returned a', w) /\ I a'.
Proof.
  intros Hstep. induction fuel as [|fuel IH]; intros h a w Ia Hf Hc; [lia|].
  simpl. destruct Hc as [->|Hc].
  - unfold bind, lift, f_read. simpl.
    destruct (h_good h); simpl; eauto.
  - destruct (f_read_clean h cs _ eq_refl Hc) as (g' & E & Hg').
    unfold bind at 1. unfold lift. rewrite E. cbn [fst snd].
    set (k := if (cs <? 0)%Z then _ else _) in *.
    destruct (firstn k (h_rest h)) as [|b chunk] eqn:Ech; [eauto|].
    destruct (Hstep a (b :: chunk) w Ia) as (a' & Es & Ia').
    rewrite (bind_returned _ _ _ _ _ Es).
    apply IH; auto.
    simpl. pose proof (length_skipn k (h_rest h)) as Hs.
    assert (Hl : length (firstn k (h_rest h)) = S (length chunk)) by now rewrite Ech.
    rewrite length_firstn in Hl. lia.
Qed.

Lemma read_loop_faulty {A} (I : A -> Prop) step cs :
  pure_step I step -> cs <> 0%Z ->
  forall fuel h a w g,
    I a -> length (h_rest h) < fuel ->
    h_good h = Some g -> g < length (h_rest h) ->
    read_loop fuel cs h step a w = (Raised (OSError EIO (h_path h)), w).
Proof.
  intros Hstep Hcs. induction fuel as [|fuel IH]; intros h a w g Ia Hf Hg Hlt; [lia|].
  simpl. unfold bind at 1. unfold lift, f_read. rewrite Hg.
  set (k := if (cs <? 0)%Z then _ else _).
  assert (Hk : 1 <= k).
  { unfold k. destruct (Z.ltb_spec cs 0); lia. }
  pose proof (length_firstn k (h_rest h)) as Hfl.
  pose proof (length_skipn k (h_rest h)) as Hsl.
  destruct (Nat.ltb_spec g (length (firstn k (h_rest h)))); [reflexivity|].
  cbn [fst snd].
  destruct (firstn k (h_rest h)) as [|b chunk] eqn:Ech; [simpl in *; lia|].
  destruct (Hstep a (b :: chunk) w Ia) as (a' & Es & Ia').
  rewrite (bind_returned _ _ _ _ _ Es).
  erewrite IH; eauto; simpl in *; lia.
Qed.

Lemma read_loop_sim {A B} (R : A -> B -> Prop) stepA stepB cs :
  sim_step R stepA stepB ->
  forall fuel h a b w a' w',
    R a b ->
    read_loop fuel cs h stepA a w = (Returned a', w') ->
    exists b', read_loop fuel cs h stepB b w = (Returned b', w') /\ R a' b'.
Proof.
  intros Hsim. induction fuel as [|fuel IH]; intros h a b w a' w' Hab; simpl.
  - unfold diverge. discriminate.
  - unfold bind at 1 3. unfold lift.
    destruct (f_read h cs) as [[chunk h']| |]; try discriminate. cbn [fst snd].
    destruct chunk as [|c chunk].
    + unfold ret. intros [= <- <-]. eauto.
    + destruct (Hsim a b (c :: chunk) w Hab) as (a1 & b1 & Ea & Eb & Hab1).
      rewrite (bind_returned _ _ _ _ _ Ea), (bind_returned _ _ _ _ _ Eb).
      now apply IH.
Qed.

Lemma open_rb_outcome p w :
  open_rb p w =
  (match fs w !! p with
   | None => Raised (OSError ENOENT p)
   | Some (NDir _ _) => Raised (OSError EISDIR p)
   | Some (NFile f) =>
       if f_readable f
       then Returned {| h_path := p; h_rest := f_data f; h_good := f_fault f |}
       else Raised (OSError EACCES p)
   end, with_event w (EvOpen p)).
Proof.
  unfold open_rb. destruct (fs w !! p) as [[f|]|]; auto.
  now destruct (f_readable f).
Qed.

Lemma hash_stream_fails {A} (I : A -> Prop) step cs p acc w e :
  pure_step I step -> I acc -> io_failure cs w p = Some e ->
  hash_stream p cs step acc w = (Raised e, with_event w (EvOpen p)).
Proof.
  intros Hstep Ia Hf. unfold hash_stream, bind at 1.
  rewrite open_rb_outcome. unfold io_failure in Hf.
  destruct (fs w !! p) as [[f|]|]; try (now inversion Hf).
  destruct (f_readable f); simpl in Hf; [|now inversion Hf].
  destruct (f_fault f) as [g|] eqn:Eg; [|discriminate].
  destruct (Nat.ltb_spec g (length (f_data f))); simpl in Hf; [|discriminate].
  destruct (Z.eqb_spec cs 0); simpl in Hf; [discriminate|]. inversion Hf; subst.
  now apply (read_loop_faulty I) with (g := g); simpl; auto.
Qed.

Lemma hash_stream_clean {A} (I : A -> Prop) step cs p acc w :
  pure_step I step -> I acc -> io_failure cs w p = None ->
  exists a', hash_stream p cs step acc w = (Returned a', with_event w (EvOpen p))
             /\ I a'.
Proof.
  intros Hstep Ia Hf. unfold hash_stream, bind at 1.
  rewrite open_rb_outcome. unfold io_failure in Hf.
  destruct (fs w !! p) as [[f|]|]; try discriminate.
  destruct (f_readable f); simpl in Hf; [|discriminate].
  apply (read_loop_clean I); simpl; auto.
  destruct (f_fault f) as [g|]; auto.
  destruct (Nat.ltb_spec g (length (f_data f))); simpl in Hf; auto.
  destruct (Z.eqb_spec cs 0); simpl in Hf; [auto|discriminate].
Qed.

Lemma hash_stream_sim {A B} (R : A -> B -> Prop) stepA stepB cs p a b w a' w' :
  sim_step R stepA stepB -> R a b ->
  hash_stream p cs stepA a w = (Returned a', w') ->
  exists b', hash_stream p cs stepB b w = (Returned b', w') /\ R a' b'.
Proof.
  intros Hsim Hab. unfold hash_stream, bind.
  destruct (open_rb p w) as [[h| |] w1]; try discriminate.
  now apply (read_loop_sim R).
Qed.

(** *** One pass for several algorithms *)

Lemma dict_get_map {V W} (f : string * V -> string * W) (k : string) d :
  (forall it, fst (f it) = fst it) ->
  PyDict.get k (map f d) = option_map (fun v => snd (f (k, v))) (PyDict.get k d).
Proof.
  intros Hf. induction d as [|[k' v] d IH]; simpl; auto.
  specialize (Hf (k', v)) as Hk. destruct (f (k', v)) as [k'' v'] eqn:E.
  simpl in Hk. subst k''.
  destruct (String.eqb_spec k k') as [->|]; simpl; auto.
  now rewrite E.
Qed.

Lemma dict_keys_map {V W} (f : string * V -> string * W) (d : PyDict.t V) :
  (forall it, fst (f it) = fst it) ->
  PyDict.keys (map f d) = PyDict.keys d.
Proof.
  intros Hf. unfold PyDict.keys. rewrite map_map. apply map_ext, Hf.
Qed.

Lemma dict_set_In {V} (k : string) (v : V) d it :
  In it (PyDict.set k v d) -> In it d \/ it = (k, v).
Proof.
  induction d as [|[k' v'] d IH]; simpl.
  - intros [<-|[]]. now right.
  - destruct (String.eqb_spec k k') as [->|]; simpl.
    + intros [<-|Hin]; auto.
    + intros [<-|Hin]; auto. destruct (IH Hin); auto.
Qed.

Lemma dict_get_keys {V} (k : string) (d : PyDict.t V) :
  In k (PyDict.keys d) <-> exists v, PyDict.get k d = Some v.
Proof.
  rewrite <- dict_contains_keys. unfold PyDict.contains.
  destruct (PyDict.get k d); split; eauto; try discriminate.
  intros [v [=]].
Qed.

Section OnePass.
Context {HL : Hashlib}.

Lemma feed_key chunk it : fst (feed chunk it) = fst it.
Proof. reflexivity. Qed.

Lemma digest_of_key it : fst (digest_of it) = fst it.
Proof. reflexivity. Qed.

Lemma slots_ok_feed chunk d : slots_ok d -> slots_ok (map (feed chunk) d).
Proof.
  intros [Hn Hf]. split.
  - now rewrite dict_keys_map by apply feed_key.
  - apply List.Forall_forall. intros it Hit.
    apply List.in_map_iff in Hit as ([k s] & <- & Hin).
    rewrite List.Forall_forall in Hf. specialize (Hf _ Hin).
    unfold slot_fits in *. simpl in *. now destruct s.
Qed.

Lemma update_all_feeds chunk d w :
  slots_ok d ->
  FileHasher.update_all d chunk w = (Returned (map (feed chunk) d), w).
Proof.
  intros [Hn Hf]. unfold FileHasher.update_all, PyDict.items.
  enough (G : forall done todo,
             List.NoDup (PyDict.keys (done ++ todo)) -> Forall slot_fits todo ->
             for_each todo
               (fun hash_objects item =>
                  let algo := fst item in
                  if String.eqb algo "crc32"
                  then match snd item with
                       | FileHasher.Crc c =>
                           ret (PyDict.set algo (FileHasher.Crc (zlib_crc32 chunk c)) hash_objects)
                       | FileHasher.Obj _ => raise (TypeError "an integer is required")
                       end
                  else match snd item with
                       | FileHasher.Obj o =>
                           ret (PyDict.set algo (FileHasher.Obj (hash_update o chunk)) hash_objects)
                       | FileHasher.Crc _ => raise (AttributeError "update")
                       end)
               (map (feed chunk) done ++ todo) w
             = (Returned (map (feed chunk) (done ++ todo)), w)).
  { apply (G [] d); auto. }
  intros done todo. revert done.
  induction todo as [|[k s] todo IH]; intros done Hnd Hfit; simpl.
  - now rewrite !app_nil_r.
  - apply List.Forall_cons_iff in Hfit as [Hk Hfit]. unfold slot_fits in Hk. simpl in Hk.
    assert (Hfresh : ~ In k (PyDict.keys (map (feed chunk) done))).
    { rewrite dict_keys_map by apply feed_key.
      unfold PyDict.keys in *. rewrite map_app in Hnd. simpl in Hnd.
      apply List.NoDup_remove_2 in Hnd. intros Hin. apply Hnd.
      apply in_or_app. now left. }
    destruct s as [c|o].
    + subst k. simpl. unfold bind at 1, ret at 1.
      rewrite dict_set_middle by exact Hfresh.
      specialize (IH (done ++ [("crc32", FileHasher.Crc c)])).
      rewrite map_app in IH. simpl in IH. unfold feed at 2 in IH. simpl in IH.
      rewrite <- !app_assoc in IH. simpl in IH. apply IH; auto.
    + destruct (String.eqb_spec k "crc32"); [contradiction|].
      unfold bind at 1, ret at 1.
      rewrite dict_set_middle by exact Hfresh.
      specialize (IH (done ++ [(k, FileHasher.Obj o)])).
      rewrite map_app in IH. simpl in IH. unfold feed at 2 in IH. simpl in IH.
      rewrite <- !app_assoc in IH. simpl in IH. apply IH; auto.
Qed.

Lemma collect_results_digests d w :
  slots_ok d ->
  FileHasher.collect_results d w = (Returned (map digest_of d), w).
Proof.
  intros [Hn Hf]. unfold FileHasher.collect_results, PyDict.items.
  change (@nil (string * string)) with (map digest_of []).
  rewrite <- (app_nil_l d) at 2. rewrite <- (app_nil_l d) in Hn.
  generalize dependent (@nil (string * FileHasher.slot)).
  induction d as [|[k s] todo IH]; intros done Hnd; simpl.
  - now rewrite app_nil_r.
  - apply List.Forall_cons_iff in Hf as [Hk Hfit]. unfold slot_fits in Hk. simpl in Hk.
    assert (Hfresh : ~ In k (PyDict.keys (map digest_of done))).
    { rewrite dict_keys_map by apply digest_of_key.
      unfold PyDict.keys in *. rewrite map_app in Hnd. simpl in Hnd.
      apply List.NoDup_remove_2 in Hnd. intros Hin. apply Hnd.
      apply in_or_app. now left. }
    specialize (IH Hfit (done ++ [(k, s)])).
    rewrite map_app, <- !app_assoc in IH. simpl in IH.
    destruct s as [c|o].
    + subst k. simpl. unfold bind at 1, ret at 1.
      rewrite dict_set_fresh by exact Hfresh. apply IH; auto.
    + destruct (String.eqb_spec k "crc32"); [contradiction|].
      unfold bind at 1, ret at 1.
      rewrite dict_set_fresh by exact Hfresh. apply IH; auto.
Qed.

Lemma fresh_slot_fits a : slot_fits (a, fresh_slot a).
Proof.
  unfold slot_fits, fresh_slot. simpl.
  now destruct (String.eqb_spec a "crc32").
Qed.

Lemma fresh_slots_spec algorithms :
  slots_ok (fresh_slots algorithms) /\
  (forall a, In a (PyDict.keys (fresh_slots algorithms)) <-> In a algorithms) /\
  (forall a, In a algorithms ->
     PyDict.get a (fresh_slots algorithms) = Some (fresh_slot a)).
Proof.
  unfold fresh_slots.
  enough (G : forall l d,
    slots_ok d ->
    (forall a v, PyDict.get a d = Some v -> v = fresh_slot a) ->
    let d' := fold_left (fun d algo => PyDict.set algo (fresh_slot algo) d) l d in
    slots_ok d' /\
    (forall a, In a (PyDict.keys d') <-> In a (PyDict.keys d) \/ In a l) /\
    (forall a v, PyDict.get a d' = Some v -> v = fresh_slot a)).
  { destruct (G algorithms []) as (Hok & Hk & Hv).
    - split; constructor.
    - discriminate.
    - split; [exact Hok|]. split.
      + intros a. rewrite Hk. simpl. tauto.
      + intros a Ha. assert (Hin : In a (PyDict.keys (fold_left
          (fun d algo => PyDict.set algo (fresh_slot algo) d) algorithms [])))
          by (apply Hk; now right).
        apply dict_get_keys in Hin as [v Hv']. rewrite Hv'. f_equal. eauto. }
  induction l as [|x l IH]; intros d Hok Hv; simpl.
  - split; [exact Hok|]. split; [|exact Hv]. intros a. simpl. tauto.
  - destruct (IH (PyDict.set x (fresh_slot x) d)) as (Hok' & Hk' & Hv').
    + destruct Hok as [Hn Hf]. split; [now apply dict_set_NoDup|].
      apply List.Forall_forall. intros it Hit. apply dict_set_In in Hit as [Hit| ->].
      * rewrite List.Forall_forall in Hf. auto.
      * apply fresh_slot_fits.
    + intros a v. destruct (String.eqb_spec x a) as [->|Hne].
      * rewrite dict_get_set_eq. now intros [= <-].
      * rewrite dict_get_set_ne by exact Hne. apply Hv.
    + split; [exact Hok'|]. split; [|exact Hv'].
      intros a. rewrite Hk', dict_keys_set.
      destruct (PyDict.contains x d) eqn:Ec.
      * apply dict_contains_keys in Ec. split; [tauto|].
        intros [?|[<-|?]]; auto.
      * rewrite in_app_iff. simpl. tauto.
Qed.

End OnePass.

Section Agreement.
Context {HL : Hashlib}.

Lemma update_all_pure (d0 : PyDict.t FileHasher.slot) :
  pure_step (fun d => slots_ok d /\ PyDict.keys d = PyDict.keys d0)
            FileHasher.update_all.
Proof.
  intros d chunk w [Hok Hk]. exists (map (feed chunk) d). split.
  - now apply update_all_feeds.
  - split; [now apply slots_ok_feed|].
    now rewrite dict_keys_map by apply feed_key.
Qed.

Lemma crc_step_pure :
  pure_step (fun _ : Z => True) (fun crc chunk => ret (zlib_crc32 chunk crc)).
Proof. intros c chunk w _. eexists. split; [reflexivity|exact I]. Qed.

Lemma obj_step_pure :
  pure_step (fun _ : hash_obj => True) (fun o chunk => ret (hash_update o chunk)).
Proof. intros o chunk w _. eexists. split; [reflexivity|exact I]. Qed.

Lemma update_all_sim_crc :
  sim_step (fun d c => slots_ok d /\ PyDict.get "crc32" d = Some (FileHasher.Crc c))
           FileHasher.update_all
           (fun crc chunk => ret (zlib_crc32 chunk crc)).
Proof.
  intros d c chunk w [Hok Hg]. do 2 eexists.
  split; [now apply update_all_feeds|]. split; [reflexivity|].
  split; [now apply slots_ok_feed|].
  rewrite dict_get_map by apply feed_key. now rewrite Hg.
Qed.

Lemma update_all_sim_obj a :
  sim_step (fun d o => slots_ok d /\ PyDict.get a d = Some (FileHasher.Obj o))
           FileHasher.update_all
           (fun o chunk => ret (hash_update o chunk)).
Proof.
  intros d o chunk w [Hok Hg]. do 2 eexists.
  split; [now apply update_all_feeds|]. split; [reflexivity|].
  split; [now apply slots_ok_feed|].
  rewrite dict_get_map by apply feed_key. now rewrite Hg.
Qed.

(** C1. When the file is read without error and every requested name is
    supported, [calculate_multiple_hashes] opens the file once and returns
    a dict whose keys are exactly the requested names, each once; the value
    under each name is the digest [calculate_hash] returns for that name
    alone on the same file. *)
Theorem multiple_hashes_agree_with_single
    (self : FileHasher.hasher) (filepath : string)
    (algorithms : list string) (w : world) :
  io_failure (FileHasher.chunk_size self) w filepath = None ->
  forallb supported algorithms = true ->
  exists digests,
    FileHasher.calculate_multiple_hashes self filepath algorithms w =
      (Returned digests, with_event w (EvOpen filepath))
    /\ List.NoDup (PyDict.keys digests)
    /\ (forall a, In a (PyDict.keys digests) <-> In a algorithms)
    /\ (forall a, In a algorithms ->
          exists v, PyDict.get a digests = Some v /\
            FileHasher.calculate_hash self filepath a w =
              (Returned (Some v), with_event w (EvOpen filepath))).
Proof.
  intros Hio Hsup.
  destruct (fresh_slots_spec algorithms) as (Hok0 & Hkeys0 & Hget0).
  destruct (hash_stream_clean _ _ _ filepath (fresh_slots algorithms) w
              (update_all_pure (fresh_slots algorithms))
              (conj Hok0 eq_refl) Hio) as (dN & Estream & HokN & HkN).
  exists (map digest_of dN).
  assert (Emulti : FileHasher.calculate_multiple_hashes self filepath algorithms w =
                   (Returned (map digest_of dN), with_event w (EvOpen filepath))).
  { unfold FileHasher.calculate_multiple_hashes.
    erewrite bind_returned by (apply new_hash_objects_supported, Hsup).
    unfold try_except.
    erewrite bind_returned by exact Estream.
    now rewrite collect_results_digests. }
  split; [exact Emulti|]. split; [|split].
  - rewrite dict_keys_map by apply digest_of_key. apply HokN.
  - intros a. rewrite dict_keys_map by apply digest_of_key.
    rewrite HkN. apply Hkeys0.
  - intros a Ha.
    assert (Hsa : supported a = true).
    { rewrite forallb_forall in Hsup. auto. }
    rewrite dict_get_map by apply digest_of_key.
    unfold FileHasher.calculate_hash. unfold supported in Hsa.
    replace (negb (FileHasher.in_SUPPORTED a) && negb (String.eqb a "crc32"))
      with false by (destruct (FileHasher.in_SUPPORTED a), (String.eqb a "crc32");
                     simpl in *; congruence).
    specialize (Hget0 a Ha). unfold fresh_slot in Hget0.
    destruct (String.eqb_spec a "crc32") as [Ea|Hne].
    + subst a. destruct (hash_stream_sim _ _ _ _ _ _ 0%Z _ _ _
                  update_all_sim_crc (conj Hok0 Hget0) Estream)
        as (c & Ec & _ & Hc).
      rewrite Hc. simpl. eexists. split; [reflexivity|].
      unfold try_except, FileHasher._calculate_crc32.
      erewrite bind_returned.
      2:{ erewrite bind_returned by exact Ec. reflexivity. }
      reflexivity.
    + destruct (hash_stream_sim _ _ _ _ _ _ (hashlib_new a) _ _ _
                  (update_all_sim_obj a) (conj Hok0 Hget0) Estream)
        as (o & Eo & _ & Ho).
      rewrite Ho. simpl. eexists. split; [reflexivity|].
      unfold try_except, FileHasher._calculate_cryptographic_hash.
      erewrite bind_returned.
      2:{ erewrite bind_returned by exact Eo. reflexivity. }
      reflexivity.
Qed.

End Agreement.

Lemma multiple_hashes_agree_with_single_witness :
  exists digests,
    @FileHasher.calculate_multiple_hashes toy_hashlib (FileHasher.init 4)
       "a.txt" ["sha256"; "crc32"; "md5"; "crc32"]
       (world_of [("a.txt", plain_file "123456789" 1)] []) =
      (Returned digests,
       with_event (world_of [("a.txt", plain_file "123456789" 1)] []) (EvOpen "a.txt"))
    /\ List.NoDup (PyDict.keys digests)
    /\ (forall a, In a (PyDict.keys digests) <->
                  In a ["sha256"; "crc32"; "md5"; "crc32"])
    /\ (forall a, In a ["sha256"; "crc32"; "md5"; "crc32"] ->
          exists v, PyDict.get a digests = Some v /\
            @FileHasher.calculate_hash toy_hashlib (FileHasher.init 4) "a.txt" a
               (world_of [("a.txt", plain_file "123456789" 1)] []) =
              (Returned (Some v),
               with_event (world_of [("a.txt", plain_file "123456789" 1)] [])
                 (EvOpen "a.txt"))).
Proof.
  apply (@multiple_hashes_agree_with_single toy_hashlib); reflexivity.
Defined.

Example multiple_hashes_example :
  fst (@FileHasher.calculate_multiple_hashes toy_hashlib (FileHasher.init 4)
         "a.txt" ["sha256"; "crc32"; "md5"; "crc32"]
         (world_of [("a.txt", plain_file "123456789" 1)] []))
  = Returned [("sha256", "sha256-cbf43926"); ("crc32", "cbf43926");
              ("md5", "md5-cbf43926")].
Proof. vm_compute. reflexivity. Qed.

(** *** Read errors *)

Lemma io_failure_is_OSError cs w p e :
  io_failure cs w p = Some e -> is_OSError e = true.
Proof.
  unfold io_failure. destruct (fs w !! p) as [[f|]|]; try (now intros [= <-]).
  destruct (f_readable f); simpl; [|now intros [= <-]].
  destruct (f_fault f) as [g|]; [|discriminate].
  destruct (_ && _); [now intros [= <-]|discriminate].
Qed.

Section ReadErrors.
Context {HL : Hashlib}.

Lemma calculate_hash_read_error
    (self : FileHasher.hasher) (filepath algorithm : string) (w : world)
    (e : exn) :
  io_failure (FileHasher.chunk_size self) w filepath = Some e ->
  supported algorithm = true ->
  FileHasher.calculate_hash self filepath algorithm w =
    (Returned None,
     with_event (with_event w (EvOpen filepath))
       (EvPrint (MsgErrorReading filepath e))).
Proof.
  intros Hio Hs. pose proof (io_failure_is_OSError _ _ _ _ Hio) as He.
  unfold FileHasher.calculate_hash. unfold supported in Hs.
  replace (negb (FileHasher.in_SUPPORTED algorithm)
           && negb (String.eqb algorithm "crc32"))
    with false by (destruct (FileHasher.in_SUPPORTED algorithm),
                     (String.eqb algorithm "crc32"); simpl in *; congruence).
  unfold try_except.
  destruct (String.eqb algorithm "crc32").
  - unfold FileHasher._calculate_crc32.
    erewrite bind_raised.
    2:{ erewrite bind_raised; [reflexivity|].
        now apply (hash_stream_fails (fun _ => True)), Hio; [apply crc_step_pure|]. }
    now rewrite He.
  - unfold FileHasher._calculate_cryptographic_hash.
    erewrite bind_raised.
    2:{ erewrite bind_raised; [reflexivity|].
        now apply (hash_stream_fails (fun _ => True)), Hio; [apply obj_step_pure|]. }
    now rewrite He.
Qed.

Lemma calculate_multiple_hashes_read_error
    (self : FileHasher.hasher) (filepath : string) (algorithms : list string)
    (w : world) (e : exn) :
  io_failure (FileHasher.chunk_size self) w filepath = Some e ->
  forallb supported algorithms = true ->
  FileHasher.calculate_multiple_hashes self filepath algorithms w =
    (Returned [],
     with_event (with_event w (EvOpen filepath))
       (EvPrint (MsgErrorReading filepath e))).
Proof.
  intros Hio Hall. pose proof (io_failure_is_OSError _ _ _ _ Hio) as He.
  unfold FileHasher.calculate_multiple_hashes.
  erewrite bind_returned by (apply new_hash_objects_supported, Hall).
  unfold try_except.
  erewrite bind_raised.
  2:{ eapply hash_stream_fails, Hio.
      - apply (update_all_pure (fresh_slots algorithms)).
      - split; [apply fresh_slots_spec|reflexivity]. }
  now rewrite He.
Qed.

(** C2, as the code has it. When the file cannot be opened, or a read fails
    partway, neither entry point raises: each catches the error, prints
    "Error reading file" with the path and the cause, and returns no digest
    at all ([None] from [calculate_hash], the empty dict from
    [calculate_multiple_hashes]); what was hashed before the failure is
    dropped. *)
Theorem read_error_is_caught_and_no_digest_returned
    (self : FileHasher.hasher) (filepath algorithm : string)
    (algorithms : list string) (w : world) (e : exn) :
  io_failure (FileHasher.chunk_size self) w filepath = Some e ->
  supported algorithm = true ->
  forallb supported algorithms = true ->
  is_OSError e = true
  /\ FileHasher.calculate_hash self filepath algorithm w =
       (Returned None,
        with_event (with_event w (EvOpen filepath))
          (EvPrint (MsgErrorReading filepath e)))
  /\ FileHasher.calculate_multiple_hashes self filepath algorithms w =
       (Returned [],
        with_event (with_event w (EvOpen filepath))
          (EvPrint (MsgErrorReading filepath e))).
Proof.
  intros Hio Hs Hall. split; [|split].
  - eapply io_failure_is_OSError, Hio.
  - now apply calculate_hash_read_error.
  - now apply calculate_multiple_hashes_read_error.
Qed.

End ReadErrors.

Lemma read_error_is_caught_and_no_digest_returned_witness :
  is_OSError (OSError EIO "a.bin") = true
  /\ @FileHasher.calculate_hash toy_hashlib (FileHasher.init 4) "a.bin" "sha256"
       (world_of [("a.bin", damaged_file)] []) =
       (Returned None,
        with_event (with_event (world_of [("a.bin", damaged_file)] [])
                      (EvOpen "a.bin"))
          (EvPrint (MsgErrorReading "a.bin" (OSError EIO "a.bin"))))
  /\ @FileHasher.calculate_multiple_hashes toy_hashlib (FileHasher.init 4)
       "a.bin" ["sha256"; "crc32"] (world_of [("a.bin", damaged_file)] []) =
       (Returned [],
        with_event (with_event (world_of [("a.bin", damaged_file)] [])
                      (EvOpen "a.bin"))
          (EvPrint (MsgErrorReading "a.bin" (OSError EIO "a.bin")))).
Proof.
  apply (@read_error_is_caught_and_no_digest_returned toy_hashlib);
    reflexivity.
Defined.

(** C2 as the spec states it fails: a read that breaks after the first
    chunk, and a file that is not there, both end in a returned value, not
    in an exception reaching the caller. *)
Lemma read_error_does_not_reach_the_caller :
  fst (@FileHasher.calculate_hash toy_hashlib (FileHasher.init 4) "a.bin"
         "sha256" (world_of [("a.bin", damaged_file)] [])) = Returned None
  /\ fst (@FileHasher.calculate_multiple_hashes toy_hashlib (FileHasher.init 4)
            "a.bin" ["sha256"; "crc32"] (world_of [("a.bin", damaged_file)] []))
     = Returned []
  /\ fst (@FileHasher.calculate_hash toy_hashlib (FileHasher.init 4)
            "missing.bin" "crc32" (world_of [("a.bin", damaged_file)] []))
     = Returned None
  /\ ~ (exists e, fst (@FileHasher.calculate_hash toy_hashlib (FileHasher.init 4)
                         "a.bin" "sha256" (world_of [("a.bin", damaged_file)] []))
                  = Raised e).
Proof.
  assert (E : fst (@FileHasher.calculate_hash toy_hashlib (FileHasher.init 4)
                     "a.bin" "sha256" (world_of [("a.bin", damaged_file)] []))
              = Returned None) by (vm_compute; reflexivity).
  repeat split; try (vm_compute; reflexivity).
  intros [e He]. rewrite E in He. discriminate.
Qed.

(** *** The line-oriented manifest *)

Lemma append_cons a s t : (String a s ++ t)%string = String a (s ++ t).
Proof. reflexivity. Qed.

Lemma append_nil t : ("" ++ t)%string = t.
Proof. reflexivity. Qed.

Lemma lstrip_unblank s c r : lstrip s = String c r -> is_space c = false.
Proof.
  induction s as [|a s IH]; simpl; [discriminate|].
  destruct (is_space a) eqn:E; auto. now intros [= <- <-].
Qed.

Lemma lstrip_id c r : is_space c = false -> lstrip (String c r) = String c r.
Proof. intros E. simpl. now rewrite E. Qed.

Lemma lstrip_blanks ws p :
  str_forall is_space ws = true -> lstrip (ws ++ p)%string = lstrip p.
Proof.
  induction ws as [|a ws IH]; simpl; auto.
  intros H. apply andb_prop in H as [-> H]. auto.
Qed.

Lemma lstrip_split s :
  exists ws, s = (ws ++ lstrip s)%string /\ str_forall is_space ws = true.
Proof.
  induction s as [|a s (ws & E & H)]; simpl.
  - now exists "".
  - destruct (is_space a) eqn:Ea.
    + exists (String a ws). simpl. rewrite Ea, H, append_cons. split; [f_equal; exact E|reflexivity].
    + now exists "".
Qed.

Lemma rstrip_head c r c' r' : rstrip (String c r) = String c' r' -> c' = c.
Proof.
  simpl. destruct (rstrip r); [destruct (is_space c)|]; congruence.
Qed.

Lemma strip_unblank s c r : strip s = String c r -> is_space c = false.
Proof.
  unfold strip. destruct (lstrip s) as [|a t] eqn:E; [discriminate|].
  intros H. apply rstrip_head in H as ->. eapply lstrip_unblank, E.
Qed.

Lemma take_word_split s :
  s = (fst (take_word s) ++ snd (take_word s))%string
  /\ str_forall (fun c => negb (is_space c)) (fst (take_word s)) = true
  /\ (snd (take_word s) = "" \/ exists c r, snd (take_word s) = String c r /\ is_space c = true).
Proof.
  induction s as [|a s (E & Hw & Hr)]; simpl.
  - auto.
  - destruct (is_space a) eqn:Ea; simpl.
    + repeat split; auto. right. eauto.
    + rewrite Ea, Hw, append_cons. repeat split; auto. f_equal; exact E.
Qed.

Lemma take_word_field h rest :
  str_forall (fun c => negb (is_space c)) h = true ->
  (rest = "" \/ exists c r, rest = String c r /\ is_space c = true) ->
  take_word (h ++ rest)%string = (h, rest).
Proof.
  intros Hh Hr. induction h as [|a h IH]; simpl in *.
  - rewrite ?append_nil.
    destruct Hr as [->|(c & r & -> & Hc)]; simpl; auto. now rewrite Hc.
  - apply andb_prop in Hh as [Ha Hh]. apply negb_true_iff in Ha.
    rewrite ?append_cons. simpl. rewrite Ha, (IH Hh). reflexivity.
Qed.

(** [s.split(None, 1)] gives two pieces exactly on a field, blanks and a
    text; the pieces are the field and the text. *)
Lemma split_ws_1_two s h p :
  (exists c r, s = String c r /\ is_space c = false) ->
  split_ws_1 s = [h; p] <->
  exists ws, s = (h ++ ws ++ p)%string /\ is_field h /\ is_blanks ws /\ starts_unblank p.
Proof.
  intros (c & r & -> & Hc). unfold split_ws_1. rewrite (lstrip_id _ _ Hc).
  destruct (take_word_split (String c r)) as (E & Hw & Hr).
  split.
  - destruct (lstrip (snd (take_word (String c r)))) as [|c1 r1] eqn:El;
      [discriminate|]. intros [= <- <-].
    destruct (lstrip_split (snd (take_word (String c r)))) as (ws & Ews & Hws).
    rewrite El in Ews. exists ws. rewrite <- Ews. split; [exact E|].
    split; [|split].
    + split; [|exact Hw]. simpl. rewrite Hc. discriminate.
    + split; [|exact Hws]. intros ->. rewrite append_nil in Ews.
      destruct Hr as [Hr|(c2 & r2 & Hr & Hc2)]; rewrite Hr in *; [discriminate|].
      inversion Ews; subst. apply lstrip_unblank in El. congruence.
    + exists c1, r1. split; auto. eapply lstrip_unblank, El.
  - intros (ws & Es & [Hh0 Hh] & [Hws0 Hws] & (c1 & r1 & -> & Hc1)).
    rewrite Es. rewrite take_word_field; auto.
    + cbn [fst snd]. rewrite lstrip_blanks by exact Hws.
      now rewrite (lstrip_id _ _ Hc1).
    + right. destruct ws as [|a ws]; [congruence|]. simpl in *.
      apply andb_prop in Hws as [Ha _]. eauto.
Qed.


Lemma substring_all s : String.substring 0 (String.length s) s = s.
Proof. induction s; simpl; congruence. Qed.

Lemma prefix_one a c r :
  String.prefix (String a "") (String c r) = Ascii.eqb c a.
Proof.
  change (String.prefix (String a "") (String c r))
    with (if ascii_dec a c then String.prefix "" r else false).
  destruct (ascii_dec a c) as [<-|Hne].
  - rewrite Ascii.eqb_refl. now destruct r.
  - symmetry. apply Ascii.eqb_neq. congruence.
Qed.

Lemma star_dropped p :
  (if startswith "*" p
   then String.substring 1 (String.length p - 1) p else p) = without_star p.
Proof.
  unfold startswith, without_star. destruct p as [|c r]; [reflexivity|].
  rewrite prefix_one. destruct (Ascii.eqb c "*"); [|reflexivity].
  simpl. now rewrite Nat.sub_0_r, substring_all.
Qed.

Lemma parse_line_appends marker results line :
  FileHasher.parse_line marker results line =
  results ++ FileHasher.parse_line marker [] line.
Proof.
  unfold FileHasher.parse_line.
  destruct (_ || _); [now rewrite app_nil_r|].
  destruct (split_ws_1 (strip line)) as [|h [|p [|]]];
    simpl; now rewrite ?app_nil_r.
Qed.

Lemma parse_line_alone marker line :
  FileHasher.parse_line marker [] line =
  if String.eqb (strip line) "" || startswith marker (strip line) then []
  else match split_ws_1 (strip line) with
       | [digest; path] => [manifest_entry digest path]
       | _ => []
       end.
Proof.
  unfold FileHasher.parse_line. destruct (_ || _); [reflexivity|].
  destruct (split_ws_1 (strip line)) as [|h [|p [|]]]; try reflexivity.
  simpl. unfold manifest_entry. now rewrite star_dropped.
Qed.

Lemma fold_parse_lines marker lines acc :
  fold_left (FileHasher.parse_line marker) lines acc =
  acc ++ flat_map (FileHasher.parse_line marker []) lines.
Proof.
  revert acc. induction lines as [|l lines IH]; intros acc; simpl.
  - now rewrite app_nil_r.
  - rewrite IH, (parse_line_appends _ acc l). now rewrite <- app_assoc.
Qed.


Example simple_manifest_example :
  FileHasher._parse_simple_hash_file "#"
    (String "010" "# made by sha256sum" ++ String "010" ""
     ++ "abc123  *docs/a b.txt" ++ String "010" ""
     ++ String "010" "" ++ "lonelyfield" ++ String "010" ""
     ++ String "009" "ff00 x.bin  " ++ String "010" "")%string "sha256"
  = [manifest_entry "abc123" "*docs/a b.txt"; manifest_entry "ff00" "x.bin"]
  /\ manifest_entry "abc123" "*docs/a b.txt"
     = JDict [("filepath", JStr "docs/a b.txt"); ("hash", JStr "abc123")].
Proof. split; vm_compute; reflexivity. Qed.

(** *** Verification against a manifest *)

Section Verify.
Context {HL : Hashlib}.

(** C5, as the code has it. An entry whose ['filepath'] is a string naming
    nothing in the file system is added to [missing] with the reason
    'File not found'; nothing else changes: no other list grows, the file
    is not opened, nothing is printed, the hasher's counters stay, and the
    loop goes on with the entries that follow. *)
Theorem absent_filepath_is_missing
    (self : FileHasher.hasher) (results : FileHasher.verification_results)
    (d : list (string * json)) (p : string) (rest : list json) (w : world) :
  PyDict.get "filepath" d = Some (JStr p) ->
  os_path_exists w p = false ->
  FileHasher.verify_entry (self, results) (JDict d) w =
    (Returned (self, FileHasher.add_missing results (JStr p, "File not found")), w)
  /\ for_each (JDict d :: rest) FileHasher.verify_entry (self, results) w =
     for_each rest FileHasher.verify_entry
       (self, FileHasher.add_missing results (JStr p, "File not found")) w.
Proof.
  intros Hp Hex.
  assert (E : FileHasher.verify_entry (self, results) (JDict d) w =
    (Returned (self, FileHasher.add_missing results (JStr p, "File not found")), w)).
  { unfold FileHasher.verify_entry, FileHasher.entry_get. cbn [fst snd].
    unfold bind, ret, get_world. rewrite Hp. cbn.
    unfold bind, ret, get_world. now rewrite Hex. }
  split; [exact E|]. simpl. now rewrite (bind_returned _ _ _ _ _ E).
Qed.

End Verify.

Lemma absent_filepath_is_missing_witness :
  @FileHasher.verify_entry toy_hashlib (FileHasher.init 65536, FileHasher.no_results)
    (JDict [("filepath", JStr "missing.txt");
            ("hashes", JDict [("sha256", JStr "abc")])])
    (world_of [("a.txt", plain_file "hello" 1)] []) =
    (Returned (FileHasher.init 65536,
               FileHasher.add_missing FileHasher.no_results
                 (JStr "missing.txt", "File not found")),
     world_of [("a.txt", plain_file "hello" 1)] [])
  /\ for_each (JDict [("filepath", JStr "missing.txt");
                      ("hashes", JDict [("sha256", JStr "abc")])] :: [])
       (@FileHasher.verify_entry toy_hashlib)
       (FileHasher.init 65536, FileHasher.no_results)
       (world_of [("a.txt", plain_file "hello" 1)] []) =
     for_each [] (@FileHasher.verify_entry toy_hashlib)
       (FileHasher.init 65536,
        FileHasher.add_missing FileHasher.no_results
          (JStr "missing.txt", "File not found"))
       (world_of [("a.txt", plain_file "hello" 1)] []).
Proof.
  apply (@absent_filepath_is_missing toy_hashlib); reflexivity.
Defined.

(** C5 as the spec states it fails on the spec's own scenario: the entry
    keyed "path" has no 'filepath', [get] gives [None], and
    [os.path.exists(None)] raises [TypeError]; the entry reaches no list and
    the run ends there. *)
Lemma entry_keyed_path_raises :
  fst (@FileHasher.verify_entry toy_hashlib
         (FileHasher.init 65536, FileHasher.no_results) spec_missing_entry
         (world_of [("a.txt", plain_file "hello" 1)] []))
  = Raised (TypeError "stat: path should be string, bytes, os.PathLike or integer")
  /\ fst (@FileHasher.verify_entries toy_hashlib (FileHasher.init 65536)
            (JList [spec_missing_entry])
            (world_of [("a.txt", plain_file "hello" 1)] []))
     = Raised (TypeError "stat: path should be string, bytes, os.PathLike or integer")
  /\ os_path_exists (world_of [("a.txt", plain_file "hello" 1)] []) "missing.txt"
     = false.
Proof. repeat split; vm_compute; reflexivity. Qed.
Section VerifyUnreadable.
Context {HL : Hashlib}.

Lemma compare_hash_unread acc item w :
  FileHasher.compare_hash [] acc item w = (Returned (unread acc item), w).
Proof. reflexivity. Qed.

Lemma fold_unread_overall hs acc :
  hs <> [] -> snd (fold_left unread hs acc) = false.
Proof.
  destruct hs as [|h hs]; [congruence|]. intros _. simpl.
  assert (G : forall l b, snd b = false -> snd (fold_left unread l b) = false).
  { induction l; simpl; auto. }
  apply G. reflexivity.
Qed.

(** What [hash_file] returns for a file that opens badly or breaks while
    being read: a record without digests, after the failure was printed. *)
Lemma hash_file_read_error (self : FileHasher.hasher) (p : string)
    (algorithms : list string) (f : file_node) (e : exn) (w : world) :
  fs w !! p = Some (NFile f) ->
  io_failure (FileHasher.chunk_size self) w p = Some e ->
  forallb supported algorithms = true ->
  algorithms <> [] ->
  FileHasher.hash_file self p (Some algorithms) w =
    (Returned
       ({| FileHasher.chunk_size := FileHasher.chunk_size self;
           FileHasher.processed_files := FileHasher.processed_files self + 1;
           FileHasher.total_size :=
             FileHasher.total_size self + Z.of_nat (length (f_data f)) |},
        FileHasher.HashInfo
          {| FileHasher.fi_filepath := os_path_abspath w p;
             FileHasher.fi_filename := os_path_basename p;
             FileHasher.fi_size := Z.of_nat (length (f_data f));
             FileHasher.fi_modified_timestamp := f_mtime f;
             FileHasher.fi_hashes := [] |}),
     with_event (with_event w (EvOpen p)) (EvPrint (MsgErrorReading p e))).
Proof.
  intros Hf Hio Hall Hne. unfold FileHasher.hash_file.
  unfold bind at 1, get_world at 1. unfold os_path_isfile. rewrite Hf. cbn [negb].
  unfold bind at 1, os_stat at 1. rewrite Hf.
  destruct algorithms as [|a [|b l]]; [congruence| |].
  - simpl in Hall. rewrite andb_true_r in Hall.
    unfold bind at 1. unfold bind at 1.
    rewrite (calculate_hash_read_error self p a w e Hio Hall).
    reflexivity.
  - unfold bind at 1.
    rewrite (calculate_multiple_hashes_read_error self p (a :: b :: l) w e Hio Hall).
    reflexivity.
Qed.

(** C6, as the code has it. An entry whose file is there but cannot be read
    to its end, and which lists at least one expected digest (all of
    supported algorithms), lands in [failed]: the failure is printed, every
    expected digest is recorded against the current value [None], and the
    overall match is false.  The hasher counts the file, the exception does
    not leave the loop, and the entries that follow are verified. *)
Theorem unreadable_entry_is_failed_and_run_continues
    (self : FileHasher.hasher) (results : FileHasher.verification_results)
    (d hs : list (string * json)) (p : string) (f : file_node) (e : exn)
    (rest : list json) (w : world) :
  PyDict.get "filepath" d = Some (JStr p) ->
  PyDict.get "hashes" d = Some (JDict hs) ->
  hs <> [] ->
  forallb supported (map fst hs) = true ->
  fs w !! p = Some (NFile f) ->
  io_failure (FileHasher.chunk_size self) w p = Some e ->
  let self' :=
    {| FileHasher.chunk_size := FileHasher.chunk_size self;
       FileHasher.processed_files := FileHasher.processed_files self + 1;
       FileHasher.total_size :=
         FileHasher.total_size self + Z.of_nat (length (f_data f)) |} in
  let entry_result :=
    {| FileHasher.vr_filepath := JStr p;
       FileHasher.vr_filename := os_path_basename p;
       FileHasher.vr_size := Z.of_nat (length (f_data f));
       FileHasher.vr_hash_matches := fst (fold_left unread hs ([], true));
       FileHasher.vr_overall_match := false |} in
  let w' :=
    with_event
      (with_event (with_event w (EvPrint (MsgVerifying (os_path_basename p))))
         (EvOpen p))
      (EvPrint (MsgErrorReading p e)) in
  FileHasher.verify_entry (self, results) (JDict d) w =
    (Returned (self', FileHasher.add_failed results entry_result), w')
  /\ for_each (JDict d :: rest) FileHasher.verify_entry (self, results) w =
     for_each rest FileHasher.verify_entry
       (self', FileHasher.add_failed results entry_result) w'.
Proof.
  intros Hp Hh Hne Hsup Hf Hio self' entry_result w'.
  assert (E : FileHasher.verify_entry (self, results) (JDict d) w =
    (Returned (self', FileHasher.add_failed results entry_result), w')).
  { unfold FileHasher.verify_entry, FileHasher.entry_get. cbn [fst snd].
    unfold bind at 1, ret at 1. rewrite Hp.
    unfold bind at 1, ret at 1. rewrite Hh.
    unfold bind at 1, FileHasher.exists_json, bind at 1, get_world at 1, ret at 1.
    unfold os_path_exists. rewrite Hf. cbn [negb].
    unfold bind at 1, FileHasher.fspath, ret at 1.
    unfold bind at 1, print at 1, emit at 1.
    unfold bind at 1, FileHasher.dict_items, ret at 1. unfold PyDict.items.
    set (w1 := with_event w (EvPrint (MsgVerifying (os_path_basename p)))).
    assert (Hf1 : fs w1 !! p = Some (NFile f)) by exact Hf.
    assert (Hio1 : io_failure (FileHasher.chunk_size self) w1 p = Some e)
      by exact Hio.
    assert (Hm : map fst hs <> []) by (destruct hs; [congruence|discriminate]).
    unfold bind at 1.
    rewrite (hash_file_read_error self p (map fst hs) f e w1 Hf1 Hio1 Hsup Hm).
    cbn [fst snd FileHasher.fi_hashes FileHasher.fi_filename FileHasher.fi_size].
    unfold bind at 1.
    rewrite (for_each_pure hs (FileHasher.compare_hash []) unread)
      by (intros; apply compare_hash_unread).
    rewrite (fold_unread_overall hs _ Hne). reflexivity. }
  split; [exact E|]. simpl. now rewrite (bind_returned _ _ _ _ _ E).
Qed.

End VerifyUnreadable.

Lemma unreadable_entry_is_failed_and_run_continues_witness :
  let self' :=
    {| FileHasher.chunk_size := 4; FileHasher.processed_files := 0 + 1;
       FileHasher.total_size := 0 + Z.of_nat 9 |} in
  let entry_result :=
    {| FileHasher.vr_filepath := JStr "a.bin";
       FileHasher.vr_filename := os_path_basename "a.bin";
       FileHasher.vr_size := Z.of_nat 9;
       FileHasher.vr_hash_matches :=
         fst (fold_left unread [("sha256", JStr "abc")] ([], true));
       FileHasher.vr_overall_match := false |} in
  let w' :=
    with_event
      (with_event
         (with_event (world_of [("a.bin", damaged_file)] [])
            (EvPrint (MsgVerifying (os_path_basename "a.bin"))))
         (EvOpen "a.bin"))
      (EvPrint (MsgErrorReading "a.bin" (OSError EIO "a.bin"))) in
  @FileHasher.verify_entry toy_hashlib (FileHasher.init 4, FileHasher.no_results)
     damaged_entry (world_of [("a.bin", damaged_file)] []) =
    (Returned (self', FileHasher.add_failed FileHasher.no_results entry_result), w')
  /\ for_each (damaged_entry :: [JDict [("filepath", JStr "gone.txt")]])
       (@FileHasher.verify_entry toy_hashlib)
       (FileHasher.init 4, FileHasher.no_results)
       (world_of [("a.bin", damaged_file)] []) =
     for_each [JDict [("filepath", JStr "gone.txt")]]
       (@FileHasher.verify_entry toy_hashlib)
       (self', FileHasher.add_failed FileHasher.no_results entry_result) w'.
Proof.
  apply (@unreadable_entry_is_failed_and_run_continues toy_hashlib
           (FileHasher.init 4) FileHasher.no_results
           [("filepath", JStr "a.bin"); ("hashes", JDict [("sha256", JStr "abc")])]
           [("sha256", JStr "abc")] "a.bin"
           {| f_data := list_byte_of_string "123456789"; f_mtime := 1;
              f_readable := true; f_fault := Some 5; f_removable := true |}
           (OSError EIO "a.bin"));
    try reflexivity. discriminate.
Defined.

(** C6 as the spec states it fails: the entry of a file that breaks while
    being read is in [failed], and [errors] is empty; the entry after it is
    still classified. *)
Lemma unreadable_entry_is_not_in_errors :
  match fst (@FileHasher.verify_entries toy_hashlib (FileHasher.init 4)
               (JList [damaged_entry; JDict [("filepath", JStr "gone.txt")]])
               (world_of [("a.bin", damaged_file)] [])) with
  | Returned (_, r) =>
      FileHasher.errors r = [] /\ FileHasher.verified r = [] /\
      map FileHasher.vr_filepath (FileHasher.failed r) = [JStr "a.bin"] /\
      map FileHasher.vr_hash_matches (FileHasher.failed r) =
        [[("sha256", {| FileHasher.expected := JStr "abc";
                        FileHasher.current := None;
                        FileHasher.matches := FileHasher.Falsy None |})]] /\
      FileHasher.missing r = [(JStr "gone.txt", "File not found")]
  | _ => False
  end.
Proof. vm_compute. repeat split; reflexivity. Qed.

(** *** Sorting by a key *)

Section SortBy.
Context {A : Type} (key : A -> Z).

Lemma insert_by_perm x l : Permutation (insert_by key x l) (x :: l).
Proof.
  induction l as [|y l IH]; simpl; auto.
  destruct (key x <=? key y)%Z; auto.
  rewrite IH. apply perm_swap.
Qed.

Lemma sort_by_perm l : Permutation (sort_by key l) l.
Proof.
  induction l as [|x l IH]; simpl; auto.
  rewrite insert_by_perm. now constructor.
Qed.

Lemma insert_by_sorted x l :
  StronglySorted (fun a b => (key a <= key b)%Z) l ->
  StronglySorted (fun a b => (key a <= key b)%Z) (insert_by key x l).
Proof.
  induction l as [|y l IH]; simpl; intros Hs.
  - repeat constructor.
  - inversion Hs as [|? ? Hl Hy]; subst.
    destruct (Z.leb_spec (key x) (key y)).
    + constructor; auto. constructor; auto.
      eapply List.Forall_impl; [|exact Hy]. simpl. intros; lia.
    + constructor; auto.
      eapply Permutation_Forall; [symmetry; apply insert_by_perm|].
      constructor; auto. lia.
Qed.

Lemma sort_by_sorted l :
  StronglySorted (fun a b => (key a <= key b)%Z) (sort_by key l).
Proof.
  induction l; simpl; [constructor|]. now apply insert_by_sorted.
Qed.

Lemma insert_by_stable t x l :
  List.filter (fun a => (key a =? t)%Z) (insert_by key x l) =
  List.filter (fun a => (key a =? t)%Z) (x :: l).
Proof.
  induction l as [|y l IH]; auto.
  cbn [insert_by]. destruct (Z.leb_spec (key x) (key y)); auto.
  cbn [List.filter] in *. rewrite IH.
  destruct (Z.eqb_spec (key x) t), (Z.eqb_spec (key y) t); auto. lia.
Qed.

Lemma sort_by_stable t l :
  List.filter (fun a => (key a =? t)%Z) (sort_by key l) =
  List.filter (fun a => (key a =? t)%Z) l.
Proof.
  induction l as [|x l IH]; auto.
  cbn [sort_by fold_right]. fold (sort_by key l).
  rewrite insert_by_stable. cbn [List.filter]. now rewrite IH.
Qed.

End SortBy.
(** *** Grouping by digest *)

Lemma append_to_get h info fh k :
  PyDict.get k (DuplicateFileFinder.append_to h info fh) =
  if String.eqb h k
  then Some (match PyDict.get k fh with Some l => l ++ [info] | None => [info] end)
  else PyDict.get k fh.
Proof.
  unfold DuplicateFileFinder.append_to.
  destruct (String.eqb_spec h k) as [->|Hne].
  - destruct (PyDict.get k fh); now rewrite dict_get_set_eq.
  - destruct (PyDict.get h fh); now rewrite dict_get_set_ne.
Qed.

Lemma append_to_NoDup h info fh :
  List.NoDup (PyDict.keys fh) ->
  List.NoDup (PyDict.keys (DuplicateFileFinder.append_to h info fh)).
Proof.
  intros Hn. unfold DuplicateFileFinder.append_to.
  destruct (PyDict.get h fh); now apply dict_set_NoDup.
Qed.

Lemma group_records_spec records :
  List.NoDup (PyDict.keys (group_records records)) /\
  forall h, PyDict.get h (group_records records) =
            match digest_class h records with
            | [] => None
            | cls => Some cls
            end.
Proof.
  unfold group_records.
  enough (G : forall recs fh,
    List.NoDup (PyDict.keys fh) ->
    (forall h l, PyDict.get h fh = Some l -> l <> []) ->
    let fh' := fold_left (fun fh r => DuplicateFileFinder.append_to (fst r) (snd r) fh)
                 recs fh in
    List.NoDup (PyDict.keys fh') /\
    forall h, PyDict.get h fh' =
      match PyDict.get h fh, digest_class h recs with
      | Some l, cls => Some (l ++ cls)
      | None, [] => None
      | None, cls => Some cls
      end).
  { destruct (G records []) as [Hn Hg]; [constructor|discriminate|].
    split; [exact Hn|]. intros h. now rewrite Hg. }
  induction recs as [|[k info] recs IH]; intros fh Hn Hne; cbn [fold_left].
  - split; [exact Hn|]. intros h. unfold digest_class. simpl.
    destruct (PyDict.get h fh); now rewrite ?app_nil_r.
  - destruct (IH (DuplicateFileFinder.append_to k info fh)) as [Hn' Hg'].
    + now apply append_to_NoDup.
    + intros h l. rewrite append_to_get. cbn [fst snd].
      destruct (String.eqb k h).
      * intros [= <-]. destruct (PyDict.get h fh) as [l0|]; [|discriminate].
        destruct l0; discriminate.
      * apply Hne.
    + split; [exact Hn'|]. intros h. rewrite Hg', append_to_get.
      unfold digest_class. cbn [List.filter fst snd].
      destruct (String.eqb k h); cbn [map].
      * destruct (PyDict.get h fh); [now rewrite <- app_assoc|reflexivity].
      * reflexivity.
Qed.

(** *** find_duplicates *)

Lemma find_duplicates_fold todo fha dupa :
  List.NoDup (PyDict.keys todo) ->
  forall h,
    PyDict.get h (snd (fold_left
      (fun acc (item : string * list DuplicateFileFinder.file_info) =>
         if (1 <? length (snd item))%nat
         then (PyDict.set (fst item) (sort_by DuplicateFileFinder.mtime (snd item)) (fst acc),
               PyDict.set (fst item) (sort_by DuplicateFileFinder.mtime (snd item)) (snd acc))
         else acc)
      todo (fha, dupa))) =
    match PyDict.get h todo with
    | Some l => if (1 <? length l)%nat
                then Some (sort_by DuplicateFileFinder.mtime l)
                else PyDict.get h dupa
    | None => PyDict.get h dupa
    end.
Proof.
  revert fha dupa. induction todo as [|[k l] todo IH]; intros fha dupa Hn h.
  - reflexivity.
  - unfold PyDict.keys in Hn. cbn [map fst] in Hn.
    apply List.NoDup_cons_iff in Hn as [Hk Hn].
    cbn [fold_left fst snd PyDict.get].
    destruct (String.eqb_spec h k) as [->|Hne].
    + assert (Hnone : PyDict.get k todo = None).
      { destruct (PyDict.get k todo) eqn:E; auto. exfalso. apply Hk.
        apply dict_get_keys. eauto. }
      destruct (1 <? length l)%nat; rewrite IH by exact Hn; rewrite Hnone; auto.
      cbn [snd]. apply dict_get_set_eq.
    + destruct (1 <? length l)%nat; rewrite IH by exact Hn; auto.
      cbn [snd]. rewrite dict_get_set_ne by congruence. reflexivity.
Qed.

(** C4. After [find_duplicates] on the records of a scan, a digest has a
    group exactly when two or more records carry it.  The group holds the
    files recorded with that digest and no others, in non-decreasing order
    of modification time, and files with the same modification time stand
    in the order of the input.  The function is total and its result is a
    function of the records alone. *)
Theorem duplicate_groups_are_the_repeated_digests
    (directories ignore_patterns : list string)
    (records : list (string * DuplicateFileFinder.file_info)) (w : world) :
  exists self' w',
    DuplicateFileFinder.find_duplicates
      (scanned directories ignore_patterns records) w = (Returned self', w')
    /\ forall h,
         (length (digest_class h records) < 2 ->
          PyDict.get h (DuplicateFileFinder.duplicates self') = None)
         /\ (2 <= length (digest_class h records) ->
             exists group,
               PyDict.get h (DuplicateFileFinder.duplicates self') = Some group
               /\ Permutation group (digest_class h records)
               /\ (forall x, In x group -> In (h, x) records)
               /\ StronglySorted not_newer group
               /\ forall t, at_time t group = at_time t (digest_class h records)).
Proof.
  destruct (group_records_spec records) as [Hn Hg].
  unfold DuplicateFileFinder.find_duplicates, scanned.
  cbn [DuplicateFileFinder.file_hashes DuplicateFileFinder.duplicates
       DuplicateFileFinder.with_file_hashes DuplicateFileFinder.init].
  unfold bind, print, emit, ret. do 2 eexists. split; [reflexivity|].
  intros h. cbn [DuplicateFileFinder.duplicates]. unfold PyDict.items.
  rewrite (find_duplicates_fold _ _ _ Hn h), Hg.
  destruct (digest_class h records) as [|x cls] eqn:Ec.
  - split; [reflexivity|]. simpl. lia.
  - destruct (Nat.ltb_spec 1 (length (x :: cls))) as [Hlong|Hshort].
    + split; [lia|]. intros _. eexists. split; [reflexivity|].
      split; [apply sort_by_perm|]. split; [|split].
      * intros y Hy.
        apply (Permutation_in _ (sort_by_perm DuplicateFileFinder.mtime (x :: cls))) in Hy.
        rewrite <- Ec in Hy. unfold digest_class in Hy.
        apply List.in_map_iff in Hy as ([k y'] & <- & Hin).
        apply List.filter_In in Hin as [Hin Hk]. simpl in *.
        apply String.eqb_eq in Hk. now subst.
      * apply sort_by_sorted.
      * intros t. apply sort_by_stable.
    + split; [reflexivity|]. lia.
Qed.

Example duplicate_groups_example :
  match fst (@DuplicateFileFinder.find_duplicates
         (scanned ["d"] []
            [("h1", {| DuplicateFileFinder.path := "d/c";
                       DuplicateFileFinder.size := 5;
                       DuplicateFileFinder.mtime := 30 |});
             ("h2", {| DuplicateFileFinder.path := "d/x";
                       DuplicateFileFinder.size := 1;
                       DuplicateFileFinder.mtime := 10 |});
             ("h1", {| DuplicateFileFinder.path := "d/a";
                       DuplicateFileFinder.size := 5;
                       DuplicateFileFinder.mtime := 20 |});
             ("h1", {| DuplicateFileFinder.path := "d/b";
                       DuplicateFileFinder.size := 5;
                       DuplicateFileFinder.mtime := 20 |})])
         (world_of [] [])) with
  | Returned self' =>
      map (fun g => (fst g, map DuplicateFileFinder.path (snd g)))
          (DuplicateFileFinder.duplicates self')
      = [("h1", ["d/a"; "d/b"; "d/c"])]
  | _ => False
  end.
Proof. vm_compute. reflexivity. Qed.

(** *** Names that are free in the target *)

Lemma length_append a b :
  String.length (a ++ b)%string = String.length a + String.length b.
Proof. induction a; simpl; auto. Qed.

Lemma append_inv_tail a b s : (a ++ s)%string = (b ++ s)%string -> a = b.
Proof.
  revert b. induction a as [|c a IH]; intros [|c' b] E; auto.
  - apply (f_equal String.length) in E. rewrite !length_append in E.
    simpl in E. lia.
  - apply (f_equal String.length) in E. rewrite !length_append in E.
    simpl in E. lia.
  - rewrite !append_cons in E. inversion E; subst. f_equal. auto.
Qed.

Lemma str_of_nat_inj a b : str_of_nat a = str_of_nat b -> a = b.
Proof.
  unfold str_of_nat. intros E. apply Unsigned.to_uint_inj.
  assert (Some (Nat.to_uint a) = Some (Nat.to_uint b)) as [= ->]; auto.
  now rewrite <- !NilEmpty.usu, E.
Qed.

Lemma candidate_inj target name a b :
  joinpath target (candidate name (S a)) = joinpath target (candidate name (S b)) ->
  a = b.
Proof.
  unfold joinpath, candidate. intros E.
  apply String.app_inj in E. apply (String.app_inj "/") in E.
  apply String.app_inj in E. apply (String.app_inj "_") in E.
  apply append_inv_tail, str_of_nat_inj in E. congruence.
Qed.

Lemma present_keys_bounded (m : gmap string node) (l : list string) :
  NoDup l -> (forall x, x ∈ l -> is_Some (m !! x)) -> length l <= base.size m.
Proof.
  intros Hn Hin. rewrite <- (size_list_to_set (C := gset string)) by exact Hn.
  rewrite <- size_dom. apply subseteq_size. intros x Hx.
  apply elem_of_list_to_set in Hx. apply elem_of_dom. auto.
Qed.

Lemma taken_candidates_bounded w target name k :
  (forall j, j < k -> os_path_exists w (joinpath target (candidate name j)) = true) ->
  k <= S (base.size (fs w)).
Proof.
  intros Htaken.
  destruct k as [|k]; [lia|]. apply le_n_S.
  pose (l := (fun j => joinpath target (candidate name (S j))) <$> seq 0 k).
  assert (Hl : length l = k) by (unfold l; now rewrite length_fmap, length_seq).
  rewrite <- Hl. apply present_keys_bounded.
  - unfold l. apply NoDup_fmap_2; [|apply NoDup_seq].
    intros a b E. eapply candidate_inj, E.
  - intros x Hx. unfold l in Hx. apply list_elem_of_fmap in Hx as (j & -> & Hj).
    apply elem_of_seq in Hj. specialize (Htaken (S j) ltac:(lia)).
    unfold os_path_exists in Htaken.
    destruct (fs w !! joinpath target (candidate name (S j))); [eauto|discriminate].
Qed.

Lemma free_name_from w target name fuel k :
  (forall j, j < k -> os_path_exists w (joinpath target (candidate name j)) = true) ->
  base.size (fs w) + 2 <= fuel + k ->
  exists k',
    DuplicateFileFinder.free_name fuel w target (path_stem name) (path_suffix name)
      (S k) (candidate name k) = Returned (candidate name k')
    /\ (forall j, j < k' -> os_path_exists w (joinpath target (candidate name j)) = true)
    /\ os_path_exists w (joinpath target (candidate name k')) = false.
Proof.
  revert k. induction fuel as [|fuel IH]; intros k Htaken Hfuel.
  - apply taken_candidates_bounded in Htaken. lia.
  - simpl.
    destruct (os_path_exists w (joinpath target (candidate name k))) eqn:Ek.
    + apply (IH (S k)); [|lia].
      intros j Hj. destruct (Nat.eq_dec j k) as [->|]; [exact Ek|].
      apply Htaken. lia.
    + exists k. auto.
Qed.

(** *** What the two policies report *)

Lemma deletions_app l1 l2 : deletions (l1 ++ l2) = deletions l1 ++ deletions l2.
Proof. apply flat_map_app. Qed.

Lemma relocations_app l1 l2 :
  relocations (l1 ++ l2) = relocations l1 ++ relocations l2.
Proof. apply flat_map_app. Qed.

Lemma total_size_app l1 l2 :
  total_size (l1 ++ l2) = (total_size l1 + total_size l2)%Z.
Proof. induction l1; simpl; lia. Qed.








Example removal_report_example :
  printed (log (snd (DuplicateFileFinder.remove_duplicates dup_finder false false
                       dup_scenario)))
  = [MsgProcessingSet "0f0f"; MsgKeeping "keep/dup.txt";
     MsgDeleted "a/dup.txt"; MsgDeleted "b/dup.txt";
     MsgRemoveSummary false 8 2].
Proof. vm_compute. reflexivity. Qed.


(** *** The first member of a group *)

(** C7 fails on the code when a file is reached twice by the scan.  With
    the directory [d] given twice, the one file in it is recorded twice
    under its digest; the group is the file followed by itself, and both
    policies act on the second member: the only copy is deleted, or moved
    away. *)
Lemma overlapping_roots_lose_the_original :
  match @scan_and_find toy_hashlib overlap_finder overlap_world with
  | (Returned self, w) =>
      map (fun g => map DuplicateFileFinder.path (snd g))
          (DuplicateFileFinder.duplicates self) = [["d/a.txt"; "d/a.txt"]]
      /\ fs w !! "d/a.txt" = Some (plain_file "hello" 1)
      /\ fs (snd (DuplicateFileFinder.remove_duplicates self false false w))
           !! "d/a.txt" = None
      /\ touched (log (snd (DuplicateFileFinder.remove_duplicates self false false w)))
         = ["d/a.txt"]
      /\ fs (snd (DuplicateFileFinder.move_duplicates_to_folder self "quarantine"
                    false w)) !! "d/a.txt" = None
      /\ fs (snd (DuplicateFileFinder.move_duplicates_to_folder self "quarantine"
                    false w)) !! "quarantine/a.txt" = Some (plain_file "hello" 1)
  | _ => False
  end.
Proof. vm_compute. repeat split; reflexivity. Qed.















(** *** Entries of a line-oriented manifest *)

Section LineEntries.
Context {HL : Hashlib}.

Lemma calculate_multiple_hashes_none (self : FileHasher.hasher) (p : string)
    (w : world) :
  exists w', FileHasher.calculate_multiple_hashes self p [] w = (Returned [], w').
Proof.
  destruct (io_failure (FileHasher.chunk_size self) w p) as [e|] eqn:Eio.
  - eexists. apply calculate_multiple_hashes_read_error; [exact Eio|reflexivity].
  - unfold FileHasher.calculate_multiple_hashes.
    unfold bind at 1. cbn [FileHasher.new_hash_objects for_each]. unfold ret at 1.
    destruct (hash_stream_clean (fun d : PyDict.t FileHasher.slot => d = [])
                FileHasher.update_all (FileHasher.chunk_size self) p [] w)
      as (d & E & ->); auto.
    { intros d chunk w0 ->. exists []. split; reflexivity. }
    unfold try_except. rewrite (bind_returned _ _ _ _ _ E). eexists. reflexivity.
Qed.

(** An entry as [_parse_simple_hash_file] builds it carries its digest
    under 'hash'; the loop of [verify_hashes] looks for 'hashes', finds
    none, asks for no digest and compares nothing: when the path is a
    regular file the entry is classified verified, whatever digest the line
    gave and whatever the file holds. *)
Theorem line_entry_is_verified_without_comparison
    (self : FileHasher.hasher) (results : FileHasher.verification_results)
    (digest path : string) (f : file_node) (w : world) :
  fs w !! without_star path = Some (NFile f) ->
  exists self' w',
    FileHasher.verify_entry (self, results) (manifest_entry digest path) w =
      (Returned
         (self',
          FileHasher.add_verified results
            {| FileHasher.vr_filepath := JStr (without_star path);
               FileHasher.vr_filename := os_path_basename (without_star path);
               FileHasher.vr_size := Z.of_nat (length (f_data f));
               FileHasher.vr_hash_matches := [];
               FileHasher.vr_overall_match := true |}),
       w').
Proof.
  intros Hf. unfold manifest_entry.
  unfold FileHasher.verify_entry, FileHasher.entry_get. cbn [fst snd].
  unfold bind at 1, ret at 1. cbn [PyDict.get String.eqb Ascii.eqb Bool.eqb].
  cbn.
  unfold os_path_exists. rewrite Hf. cbn [negb].
  unfold bind at 1, ret at 1.
  unfold bind at 1, print at 1, emit at 1.
  unfold bind at 1, ret at 1. unfold PyDict.items. cbn [map].
  set (w1 := with_event w _).
  unfold bind at 1, FileHasher.hash_file.
  unfold bind at 1, get_world at 1. unfold os_path_isfile.
  assert (Hf1 : fs w1 !! without_star path = Some (NFile f)) by exact Hf.
  rewrite Hf1. cbn [negb].
  unfold bind at 1, os_stat at 1. rewrite Hf1.
  destruct (calculate_multiple_hashes_none self (without_star path) w1)
    as (w2 & E).
  unfold bind at 1. rewrite E. cbn. do 2 eexists. reflexivity.
Qed.

End LineEntries.

Lemma line_entry_is_verified_without_comparison_witness :
  exists self' w',
    @FileHasher.verify_entry toy_hashlib
      (FileHasher.init 65536, FileHasher.no_results)
      (manifest_entry "0000" "*a.txt")
      (world_of [("a.txt", plain_file "hello" 1)] []) =
      (Returned
         (self',
          FileHasher.add_verified FileHasher.no_results
            {| FileHasher.vr_filepath := JStr (without_star "*a.txt");
               FileHasher.vr_filename := os_path_basename (without_star "*a.txt");
               FileHasher.vr_size :=
                 Z.of_nat (length (f_data
                   {| f_data := list_byte_of_string "hello"; f_mtime := 1;
                      f_readable := true; f_fault := None;
                      f_removable := true |}));
               FileHasher.vr_hash_matches := [];
               FileHasher.vr_overall_match := true |}),
       w').
Proof.
  apply (@line_entry_is_verified_without_comparison toy_hashlib).
  reflexivity.
Defined.

(** *** hash_file *)

Section HashFile.
Context {HL : Hashlib}.

Lemma calculate_hash_returns (self : FileHasher.hasher) (p a : string) (w : world) :
  supported a = true ->
  exists d w', FileHasher.calculate_hash self p a w = (Returned d, w')
    /\ (io_failure (FileHasher.chunk_size self) w p <> None -> d = None).
Proof.
  intros Hs.
  destruct (io_failure (FileHasher.chunk_size self) w p) as [e|] eqn:Eio.
  - do 2 eexists. split; [apply calculate_hash_read_error; eassumption|reflexivity].
  - unfold FileHasher.calculate_hash. unfold supported in Hs.
    replace (negb (FileHasher.in_SUPPORTED a) && negb (String.eqb a "crc32"))
      with false by (destruct (FileHasher.in_SUPPORTED a), (String.eqb a "crc32");
                     simpl in *; congruence).
    unfold try_except. destruct (String.eqb a "crc32").
    + destruct (hash_stream_clean (fun _ => True) _ _ p 0%Z w crc_step_pure I Eio)
        as (c & E & _).
      unfold FileHasher._calculate_crc32.
      erewrite bind_returned.
      2:{ erewrite bind_returned by exact E. reflexivity. }
      do 2 eexists. split; [reflexivity|congruence].
    + destruct (hash_stream_clean (fun _ => True) _ _ p (hashlib_new a) w
                  obj_step_pure I Eio) as (o & E & _).
      unfold FileHasher._calculate_cryptographic_hash.
      erewrite bind_returned.
      2:{ erewrite bind_returned by exact E. reflexivity. }
      do 2 eexists. split; [reflexivity|congruence].
Qed.

Lemma calculate_multiple_hashes_returns (self : FileHasher.hasher) (p : string)
    (algorithms : list string) (w : world) :
  forallb supported algorithms = true ->
  exists d w', FileHasher.calculate_multiple_hashes self p algorithms w = (Returned d, w')
    /\ (io_failure (FileHasher.chunk_size self) w p <> None -> d = []).
Proof.
  intros Hs.
  destruct (io_failure (FileHasher.chunk_size self) w p) as [e|] eqn:Eio.
  - do 2 eexists. split; [apply calculate_multiple_hashes_read_error; eassumption|reflexivity].
  - destruct (fresh_slots_spec algorithms) as (Hok0 & _ & _).
    destruct (hash_stream_clean _ _ _ p (fresh_slots algorithms) w
                (update_all_pure (fresh_slots algorithms))
                (conj Hok0 eq_refl) Eio) as (dN & E & HokN & _).
    unfold FileHasher.calculate_multiple_hashes.
    erewrite bind_returned by (apply new_hash_objects_supported, Hs).
    unfold try_except. erewrite bind_returned by exact E.
    rewrite collect_results_digests by exact HokN.
    do 2 eexists. split; [reflexivity|congruence].
Qed.

(** [hash_file] turns away whatever is not a regular file with the record
    ['error': 'File not found: ...'], opening nothing and counting nothing.
    A regular file is always counted, once and with its size, whether or
    not its bytes could be read; when they could not, the record it
    returns has no digest at all. *)
Theorem hash_file_counts_every_regular_file
    (self : FileHasher.hasher) (p : string) (algorithms : option (list string))
    (w : world) :
  (os_path_isfile w p = false ->
   FileHasher.hash_file self p algorithms w =
     (Returned (self, FileHasher.HashError ("File not found: " ++ p)), w))
  /\ (forall f,
        fs w !! p = Some (NFile f) ->
        forallb supported
          (match algorithms with None => ["sha256"] | Some l => l end) = true ->
        exists hashes w',
          FileHasher.hash_file self p algorithms w =
            (Returned
               ({| FileHasher.chunk_size := FileHasher.chunk_size self;
                   FileHasher.processed_files := FileHasher.processed_files self + 1;
                   FileHasher.total_size :=
                     FileHasher.total_size self + Z.of_nat (length (f_data f)) |},
                FileHasher.HashInfo
                  {| FileHasher.fi_filepath := os_path_abspath w p;
                     FileHasher.fi_filename := os_path_basename p;
                     FileHasher.fi_size := Z.of_nat (length (f_data f));
                     FileHasher.fi_modified_timestamp := f_mtime f;
                     FileHasher.fi_hashes := hashes |}),
             w')
          /\ (io_failure (FileHasher.chunk_size self) w p <> None -> hashes = [])).
Proof.
  split.
  - intros Hno. unfold FileHasher.hash_file, bind, get_world. now rewrite Hno.
  - intros f Hf Hs. unfold FileHasher.hash_file.
    unfold bind at 1, get_world at 1. unfold os_path_isfile. rewrite Hf. cbn [negb].
    unfold bind at 1, os_stat at 1. rewrite Hf.
    set (algos := match algorithms with None => ["sha256"] | Some l => l end) in *.
    destruct algos as [|a [|b l]] eqn:Ea.
    + destruct (calculate_multiple_hashes_returns self p [] w eq_refl)
        as (d & w' & E & Hd).
      unfold bind at 1. rewrite E. do 2 eexists. split; [reflexivity|exact Hd].
    + simpl in Hs. rewrite andb_true_r in Hs.
      destruct (calculate_hash_returns self p a w Hs) as (d & w' & E & Hd).
      unfold bind at 1. unfold bind at 1. rewrite E.
      destruct d as [[|c d]|]; cbn; do 2 eexists;
        (split; [reflexivity|]); auto.
      intros Hio. specialize (Hd Hio). discriminate.
    + destruct (calculate_multiple_hashes_returns self p (a :: b :: l) w Hs)
        as (d & w' & E & Hd).
      unfold bind at 1. rewrite E. do 2 eexists. split; [reflexivity|exact Hd].
Qed.

End HashFile.

(** *** Loading the manifest *)

Lemma read_text_outcome (p : string) (w : world) :
  read_text p w =
  (match io_failure (-1) w p with
   | Some e => Raised e
   | None =>
       match fs w !! p with
       | Some (NFile f) => Returned (string_of_list_byte (f_data f))
       | _ => Diverged
       end
   end, with_event w (EvOpen p)).
Proof.
  unfold read_text, bind at 1. rewrite open_rb_outcome. unfold io_failure.
  destruct (fs w !! p) as [[f|sz mt]|]; try reflexivity.
  destruct (f_readable f); cbn [negb]; [|reflexivity].
  unfold bind, lift, f_read. cbn [h_rest h_good h_path Z.ltb Z.compare].
  rewrite firstn_all.
  destruct (f_fault f) as [g|]; [|reflexivity].
  destruct (Nat.ltb_spec g (length (f_data f))); reflexivity.
Qed.

Section Manifest.
Context {HL : Hashlib}.
Context (comment_marker : string) (json_loads : string -> outcome json).

(** A manifest file that is absent, a directory, unreadable or broken ends
    the verification at once and without an exception: the result holds
    one error, about the manifest, and nothing else; no entry was looked
    at and the hasher is as it was. *)
Theorem unreadable_manifest_is_one_error
    (self : FileHasher.hasher) (hash_file algorithm : string) (w : world)
    (e : exn) :
  io_failure (-1) w hash_file = Some e ->
  FileHasher.verify_hashes comment_marker json_loads self hash_file algorithm w =
    (Returned (self, FileHasher.add_error FileHasher.no_results
                       (FileHasher.ManifestError e)),
     with_event w (EvOpen hash_file)).
Proof.
  intros Hio. unfold FileHasher.verify_hashes, FileHasher.load_manifest.
  unfold bind at 1. rewrite read_text_outcome, Hio.
  pose proof (io_failure_is_OSError _ _ _ _ Hio) as He.
  destruct e; try discriminate. reflexivity.
Qed.


End Manifest.

Lemma unreadable_manifest_is_one_error_witness :
  @FileHasher.verify_hashes toy_hashlib "#" (fun _ => Raised JSONDecodeError)
    (FileHasher.init 65536) "sums.txt" "sha256"
    (world_of [("a.txt", plain_file "hello" 1)] []) =
    (Returned (FileHasher.init 65536,
               FileHasher.add_error FileHasher.no_results
                 (FileHasher.ManifestError (OSError ENOENT "sums.txt"))),
     with_event (world_of [("a.txt", plain_file "hello" 1)] []) (EvOpen "sums.txt")).
Proof.
  apply (@unreadable_manifest_is_one_error toy_hashlib). reflexivity.
Defined.


(** *** Dry runs *)

Lemma with_events_app w l1 l2 :
  with_events w (l1 ++ l2) = with_events (with_events w l1) l2.
Proof. apply fold_left_app. Qed.

Lemma with_events_same w l :
  fs (with_events w l) = fs w /\ stdin (with_events w l) = stdin w
  /\ log (with_events w l) = log w ++ l.
Proof.
  revert w. induction l as [|e l IH]; intros w; cbn.
  - now rewrite app_nil_r.
  - destruct (IH (with_event w e)) as (Hf & Hs & Hl).
    unfold with_events in *. rewrite Hf, Hs, Hl. cbn.
    now rewrite <- app_assoc.
Qed.

Lemma dry_remove_members interactive members : forall acc w,
  DuplicateFileFinder.for_each_flow members
    (DuplicateFileFinder.remove_one interactive true) acc w =
  (Returned (DuplicateFileFinder.Next
               (fst acc + Z.of_nat (length members),
                snd acc + total_size members)%Z),
   with_events w
     (map (fun x => EvPrint (MsgWouldDelete (DuplicateFileFinder.path x))) members)).
Proof.
  induction members as [|x members IH]; intros acc w.
  - cbn. unfold ret. destruct acc as [a b]. cbn. do 4 f_equal; lia.
  - cbn [DuplicateFileFinder.for_each_flow]. unfold bind at 1.
    unfold DuplicateFileFinder.remove_one at 1.
    rewrite andb_false_r. cbn. rewrite IH. cbn [fst snd].
    unfold total_size. cbn [fold_right]. do 4 f_equal; lia.
Qed.

Lemma would_delete_log members :
  deletions (map (fun x => EvPrint (MsgWouldDelete (DuplicateFileFinder.path x)))
               members) = map DuplicateFileFinder.path members
  /\ forallb is_print
       (map (fun x => EvPrint (MsgWouldDelete (DuplicateFileFinder.path x)))
          members) = true.
Proof.
  induction members as [|x l [IH1 IH2]]; cbn; [auto|].
  split; [now f_equal|exact IH2].
Qed.

Lemma dry_remove_groups interactive groups : forall acc w,
  Forall (fun g : string * list DuplicateFileFinder.file_info => snd g <> []) groups ->
  exists new,
    DuplicateFileFinder.for_each_flow groups
      (DuplicateFileFinder.remove_group interactive true) acc w =
    (Returned (DuplicateFileFinder.Next
                 (fst acc + Z.of_nat (length (candidates groups)),
                  snd acc + total_size (candidates groups))%Z),
     with_events w new)
    /\ deletions new = map DuplicateFileFinder.path (candidates groups)
    /\ forallb is_print new = true.
Proof.
  induction groups as [|[h files] groups IH]; intros acc w Hne.
  - exists []. cbn. unfold ret. destruct acc as [a b]. cbn.
    repeat split. do 4 f_equal; lia.
  - apply List.Forall_cons_iff in Hne as [Hf Hne]. cbn [snd] in Hf.
    destruct files as [|original members]; [congruence|].
    cbn [DuplicateFileFinder.for_each_flow]. unfold bind at 1.
    unfold DuplicateFileFinder.remove_group at 1. cbn [fst snd].
    unfold bind at 1, print at 1, emit at 1.
    unfold bind at 1, print at 1, emit at 1.
    rewrite dry_remove_members.
    set (w1 := with_events _ _).
    destruct (IH (fst acc + Z.of_nat (length members),
                  snd acc + total_size members)%Z w1 Hne) as (new & E & Hd & Ht).
    rewrite E. cbn [fst snd].
    exists ([EvPrint (MsgProcessingSet (String.substring 0 12 h));
             EvPrint (MsgKeeping (DuplicateFileFinder.path original))]
            ++ map (fun x => EvPrint (MsgWouldDelete (DuplicateFileFinder.path x))) members
            ++ new).
    split; [|split].
    + unfold candidates. cbn [flat_map snd tl].
      rewrite length_app, total_size_app.
      unfold w1. rewrite !with_events_app. cbn [with_events fold_left].
      do 4 f_equal; lia.
    + rewrite !deletions_app, Hd, (proj1 (would_delete_log members)).
      unfold candidates. cbn [flat_map snd tl]. now rewrite map_app.
    + now rewrite !forallb_app, Ht, (proj2 (would_delete_log members)).
Qed.

Lemma dry_move_members target members : forall count w,
  exists new,
    for_each members (DuplicateFileFinder.move_one target true) count w =
    (Returned (count + Z.of_nat (length members))%Z, with_events w new)
    /\ relocations new = map DuplicateFileFinder.path members
    /\ forallb is_print new = true.
Proof.
  induction members as [|x members IH]; intros count w.
  - exists []. cbn. unfold ret. repeat split. do 2 f_equal. lia.
  - cbn [for_each]. unfold bind at 1.
    unfold DuplicateFileFinder.move_one at 1.
    unfold bind at 1, get_world at 1. unfold bind at 1, lift at 1.
    set (name := os_path_basename (DuplicateFileFinder.path x)).
    destruct (free_name_from w target name (S (S (base.size (fs w)))) 0)
      as (k & Efree & _ & _); [intros j Hj; lia|lia|].
    change (candidate name 0) with name in Efree. rewrite Efree.
    unfold try_except, bind at 1. cbn [negb]. unfold print at 1, emit at 1.
    cbn [ret].
    set (e := EvPrint _).
    destruct (IH (count + 1)%Z (with_event w e)) as (new & E & Hr & Hp).
    rewrite E.
    exists (e :: new). split; [|split].
    + cbn [with_events fold_left length]. do 2 f_equal. lia.
    + unfold e. cbn. now f_equal.
    + exact Hp.
Qed.

Lemma dry_move_groups target groups : forall count w,
  exists new,
    for_each groups
      (fun moved_count (item : string * list DuplicateFileFinder.file_info) =>
         for_each (tl (snd item)) (DuplicateFileFinder.move_one target true)
           moved_count) count w =
    (Returned (count + Z.of_nat (length (candidates groups)))%Z,
     with_events w new)
    /\ relocations new = map DuplicateFileFinder.path (candidates groups)
    /\ forallb is_print new = true.
Proof.
  induction groups as [|[h files] groups IH]; intros count w.
  - exists []. cbn. unfold ret. repeat split. do 2 f_equal. lia.
  - cbn [for_each]. unfold bind at 1. cbn [snd].
    destruct (dry_move_members target (tl files) count w) as (new1 & E1 & Hr1 & Hp1).
    rewrite E1.
    destruct (IH (count + Z.of_nat (length (tl files)))%Z (with_events w new1))
      as (new2 & E2 & Hr2 & Hp2).
    rewrite E2. exists (new1 ++ new2). split; [|split].
    + unfold candidates. cbn [flat_map snd]. rewrite length_app, with_events_app.
      do 2 f_equal. lia.
    + unfold candidates. cbn [flat_map snd].
      now rewrite relocations_app, Hr1, Hr2, map_app.
    + now rewrite forallb_app, Hp1, Hp2.
Qed.

(** A dry run of either policy always returns, whether interactive or
    not, and does nothing but print: the file system, the pending answers
    at the prompt and everything else of the world are as before (no prompt
    is shown, no directory is made for the target), every member after the
    first of every group is reported, in order, as "Would delete" or "Would
    move", and the last line gives the number of all these members and, for
    removal, the sum of their sizes.  For removal every group must have a
    member, as the groups [find_duplicates] makes do. *)
Theorem dry_run_only_reports
    (self : DuplicateFileFinder.finder) (interactive : bool)
    (target : string) (w : world) :
  DuplicateFileFinder.duplicates self <> [] ->
  Forall (fun g : string * list DuplicateFileFinder.file_info => snd g <> [])
    (DuplicateFileFinder.duplicates self) ->
  let cs := candidates (DuplicateFileFinder.duplicates self) in
  (exists before,
     let new := before ++ [EvPrint (MsgRemoveSummary true (total_size cs)
                                      (Z.of_nat (length cs)))] in
     DuplicateFileFinder.remove_duplicates self interactive true w
       = (Returned tt, with_events w new)
     /\ forallb is_print new = true
     /\ deletions new = map DuplicateFileFinder.path cs)
  /\ (exists before,
        let new := before ++ [EvPrint (MsgMoveSummary true (Z.of_nat (length cs))
                                         target)] in
        DuplicateFileFinder.move_duplicates_to_folder self target true w
          = (Returned tt, with_events w new)
        /\ forallb is_print new = true
        /\ relocations new = map DuplicateFileFinder.path cs)
  /\ forall new, fs (with_events w new) = fs w
                 /\ stdin (with_events w new) = stdin w
                 /\ log (with_events w new) = log w ++ new.
Proof.
  intros Hdup Hne cs. split; [|split].
  - unfold DuplicateFileFinder.remove_duplicates.
    destruct (DuplicateFileFinder.duplicates self) as [|g groups] eqn:Ed;
      [congruence|].
    unfold bind at 1, print at 1, emit at 1.
    destruct (dry_remove_groups interactive (g :: groups) (0, 0)%Z
                (with_event w (EvPrint MsgDryRunDelete)) Hne)
      as (new & E & Hd & Hp).
    unfold PyDict.items. unfold bind at 1. rewrite E. cbn [fst snd].
    exists (EvPrint MsgDryRunDelete :: new). subst cs. cbv zeta.
    split; [|split].
    + unfold print, emit. rewrite !Z.add_0_l.
      rewrite (with_events_app _ (_ :: new)). reflexivity.
    + cbn [app forallb is_print andb]. now rewrite forallb_app, Hp.
    + rewrite (deletions_app (_ :: new)).
      change (EvPrint MsgDryRunDelete :: new)
        with ([EvPrint MsgDryRunDelete] ++ new).
      rewrite deletions_app, Hd. cbn. now rewrite app_nil_r.
  - unfold DuplicateFileFinder.move_duplicates_to_folder.
    destruct (DuplicateFileFinder.duplicates self) as [|g groups] eqn:Ed;
      [congruence|].
    cbn [negb]. unfold bind at 1, ret at 1.
    unfold bind at 1, print at 1, emit at 1.
    destruct (dry_move_groups target (g :: groups) 0%Z
                (with_event w (EvPrint MsgDryRunMove)))
      as (new & E & Hr & Hp).
    unfold PyDict.items. unfold bind at 1. rewrite E. cbn [Z.add].
    exists (EvPrint MsgDryRunMove :: new). subst cs. cbv zeta.
    split; [|split].
    + unfold print, emit. rewrite ?Z.add_0_l.
      rewrite (with_events_app _ (_ :: new)). reflexivity.
    + cbn [app forallb is_print andb]. now rewrite forallb_app, Hp.
    + rewrite (relocations_app (_ :: new)).
      change (EvPrint MsgDryRunMove :: new) with ([EvPrint MsgDryRunMove] ++ new).
      rewrite relocations_app, Hr. cbn. now rewrite app_nil_r.
  - apply with_events_same.
Qed.

Lemma dry_run_only_reports_witness :
  let cs := candidates (DuplicateFileFinder.duplicates dup_finder) in
  (exists before,
     let new := before ++ [EvPrint (MsgRemoveSummary true (total_size cs)
                                      (Z.of_nat (length cs)))] in
     DuplicateFileFinder.remove_duplicates dup_finder true true dup_scenario
       = (Returned tt, with_events dup_scenario new)
     /\ forallb is_print new = true
     /\ deletions new = map DuplicateFileFinder.path cs)
  /\ (exists before,
        let new := before ++ [EvPrint (MsgMoveSummary true (Z.of_nat (length cs))
                                         "quarantine")] in
        DuplicateFileFinder.move_duplicates_to_folder dup_finder "quarantine"
          true dup_scenario
          = (Returned tt, with_events dup_scenario new)
        /\ forallb is_print new = true
        /\ relocations new = map DuplicateFileFinder.path cs)
  /\ forall new, fs (with_events dup_scenario new) = fs dup_scenario
                 /\ stdin (with_events dup_scenario new) = stdin dup_scenario
                 /\ log (with_events dup_scenario new) = log dup_scenario ++ new.
Proof.
  apply (dry_run_only_reports dup_finder true "quarantine" dup_scenario).
  - discriminate.
  - repeat constructor; discriminate.
Defined.

(** *** Interactive removal *)















(** *** Digests do not depend on the chunk size *)

Lemma chunks_of_concat fuel k data :
  0 < k -> length data < fuel -> concat (chunks_of fuel k data) = data.
Proof.
  intros Hk. revert data. induction fuel as [|fuel IH]; intros data Hf; [lia|].
  cbn [chunks_of].
  destruct (firstn k data) as [|b chunk] eqn:Ec.
  - destruct data; [reflexivity|]. destruct k; [lia|discriminate].
  - cbn [concat]. rewrite IH.
    + rewrite <- Ec. apply firstn_skipn.
    + rewrite length_skipn. destruct data; [destruct k; discriminate|].
      cbn [length] in *. lia.
Qed.

Lemma chunks_of_zero fuel data : chunks_of fuel 0 data = [].
Proof. destruct fuel; reflexivity. Qed.

Lemma chunks_nonempty fuel k data :
  0 < k -> data <> [] -> chunks_of (S fuel) k data <> [].
Proof.
  intros Hk Hd. cbn [chunks_of]. destruct data as [|b data]; [congruence|].
  destruct k; [lia|]. discriminate.
Qed.

Lemma read_loop_chunks {A} (g : A -> bytes -> A) cs :
  (0 <= cs)%Z ->
  forall fuel h a w,
    length (h_rest h) < fuel ->
    cs = 0%Z \/ match h_good h with
                | Some good => length (h_rest h) <= good
                | None => True
                end ->
    read_loop fuel cs h (fun a chunk => ret (g a chunk)) a w =
    (Returned (fold_left g (chunks_of fuel (Z.to_nat cs) (h_rest h)) a), w).
Proof.
  intros Hcs. induction fuel as [|fuel IH]; intros h a w Hfuel Hclean; [lia|].
  cbn [read_loop chunks_of]. unfold bind at 1, lift at 1, f_read.
  replace (cs <? 0)%Z with false by (symmetry; apply Z.ltb_ge; exact Hcs).
  set (k := Z.to_nat cs).
  assert (Hread : match h_good h with
                  | Some good => (good <? length (firstn k (h_rest h)))%nat = false
                  | None => True
                  end).
  { revert Hclean. destruct (h_good h) as [good|]; intros Hclean; [|exact I].
    apply Nat.ltb_ge. destruct Hclean as [E|Hc].
    - rewrite length_firstn. subst k. lia.
    - rewrite length_firstn. lia. }
  assert (Hnext : forall h',
            h_rest h' = skipn k (h_rest h) ->
            h_good h' = match h_good h with
                        | Some good => Some (good - length (firstn k (h_rest h)))
                        | None => None
                        end ->
            cs = 0%Z \/ match h_good h' with
                        | Some good => length (h_rest h') <= good
                        | None => True
                        end).
  { intros h' Er Eg. destruct Hclean as [E|Hc]; [now left|right].
    rewrite Eg, Er. revert Hc. destruct (h_good h) as [good|]; intros Hc; [|exact I].
    rewrite length_skipn, length_firstn. lia. }
  assert (Hless : forall b chunk, firstn k (h_rest h) = b :: chunk ->
            length (skipn k (h_rest h)) < fuel).
  { intros b chunk Ec. rewrite length_skipn.
    destruct (h_rest h); [destruct k; discriminate|].
    destruct k; [discriminate|]. cbn [length] in *. lia. }
  destruct (h_good h) as [good|] eqn:Eg.
  - rewrite Hread. cbn [fst snd].
    destruct (firstn k (h_rest h)) as [|b chunk] eqn:Ec; [reflexivity|].
    unfold bind at 1, ret at 1.
    rewrite IH; [reflexivity|eapply Hless; reflexivity|apply Hnext; reflexivity].
  - cbn [fst snd].
    destruct (firstn k (h_rest h)) as [|b chunk] eqn:Ec; [reflexivity|].
    unfold bind at 1, ret at 1.
    rewrite IH; [reflexivity|eapply Hless; reflexivity|apply Hnext; reflexivity].
Qed.

Lemma hash_stream_chunks {A} (g : A -> bytes -> A) cs p f acc w :
  (0 <= cs)%Z ->
  fs w !! p = Some (NFile f) ->
  io_failure cs w p = None ->
  hash_stream p cs (fun a chunk => ret (g a chunk)) acc w =
  (Returned (fold_left g (chunks (Z.to_nat cs) (f_data f)) acc),
   with_event w (EvOpen p)).
Proof.
  intros Hcs Hf Hio. unfold hash_stream, bind at 1.
  rewrite open_rb_outcome, Hf. unfold io_failure in Hio. rewrite Hf in Hio.
  destruct (f_readable f); [|discriminate]. cbn [negb] in Hio.
  rewrite read_loop_chunks; [reflexivity|exact Hcs|cbn; lia|].
  cbn [h_good h_rest].
  destruct (f_fault f) as [good|]; [|now right].
  destruct (Nat.ltb_spec good (length (f_data f))); [|now right].
  cbn [andb] in Hio. destruct (Z.eqb_spec cs 0); [now left|discriminate].
Qed.

Lemma lxor_32 a b :
  (0 <= a < 2 ^ 32)%Z -> (0 <= b < 2 ^ 32)%Z -> (0 <= Z.lxor a b < 2 ^ 32)%Z.
Proof.
  intros Ha Hb. assert (Hn : (0 <= Z.lxor a b)%Z) by (apply Z.lxor_nonneg; lia).
  split; [exact Hn|].
  destruct (Z.eq_dec (Z.lxor a b) 0%Z) as [->|Hne]; [lia|].
  apply Z.log2_lt_pow2; [lia|].
  assert (Hla : (Z.log2 a < 32)%Z).
  { destruct (Z.eq_dec a 0%Z) as [->|]; [reflexivity|]. apply Z.log2_lt_pow2; lia. }
  assert (Hlb : (Z.log2 b < 32)%Z).
  { destruct (Z.eq_dec b 0%Z) as [->|]; [reflexivity|]. apply Z.log2_lt_pow2; lia. }
  pose proof (Z.log2_lxor a b ltac:(lia) ltac:(lia)). lia.
Qed.

Lemma crc32_bit_32 c : (0 <= c < 2 ^ 32)%Z -> (0 <= crc32_bit c < 2 ^ 32)%Z.
Proof.
  intros Hc. unfold crc32_bit.
  assert (Hs : (0 <= Z.shiftr c 1 < 2 ^ 32)%Z).
  { rewrite Z.shiftr_div_pow2 by lia. change (2 ^ 1)%Z with 2%Z.
    split; [apply Z.div_pos; lia|]. apply Z.div_lt_upper_bound; lia. }
  destruct (Z.testbit c 0); [|exact Hs]. apply lxor_32; [exact Hs|lia].
Qed.

Lemma crc32_byte_32 c b : (0 <= c < 2 ^ 32)%Z -> (0 <= crc32_byte c b < 2 ^ 32)%Z.
Proof.
  intros Hc. unfold crc32_byte. cbv zeta.
  do 8 apply crc32_bit_32. apply lxor_32; [exact Hc|].
  pose proof (Byte.to_N_bounded b). lia.
Qed.

Lemma crc32_fold_32 data c :
  (0 <= c < 2 ^ 32)%Z -> (0 <= fold_left crc32_byte data c < 2 ^ 32)%Z.
Proof.
  revert c. induction data as [|b data IH]; intros c Hc; [exact Hc|].
  cbn [fold_left]. apply IH, crc32_byte_32, Hc.
Qed.

Lemma land_32 c : (0 <= c < 2 ^ 32)%Z -> Z.land c 4294967295 = c.
Proof.
  intros Hc. change 4294967295%Z with (Z.ones 32).
  rewrite Z.land_ones by lia. apply Z.mod_small, Hc.
Qed.

Lemma zlib_crc32_32 data v : (0 <= zlib_crc32 data v < 2 ^ 32)%Z.
Proof.
  unfold zlib_crc32. apply lxor_32; [|lia]. apply crc32_fold_32.
  apply lxor_32; [|lia]. change 4294967295%Z with (Z.ones 32).
  rewrite Z.land_ones by lia. apply Z.mod_pos_bound. lia.
Qed.

(** [zlib.crc32(b, zlib.crc32(a, v))] is [zlib.crc32(a + b, v)]. *)
Lemma zlib_crc32_app a b v :
  zlib_crc32 b (zlib_crc32 a v) = zlib_crc32 (a ++ b) v.
Proof.
  pose proof (zlib_crc32_32 a v) as H32. unfold zlib_crc32 at 1.
  rewrite (land_32 _ H32). unfold zlib_crc32.
  rewrite Z.lxor_assoc, Z.lxor_nilpotent, Z.lxor_0_r, fold_left_app.
  reflexivity.
Qed.

Lemma crc32_of_chunks cs v :
  (0 <= v < 2 ^ 32)%Z ->
  fold_left (fun crc chunk => zlib_crc32 chunk crc) cs v = zlib_crc32 (concat cs) v.
Proof.
  revert v. induction cs as [|c cs IH]; intros v Hv.
  - cbn. unfold zlib_crc32. cbn [fold_left].
    rewrite Z.lxor_assoc, Z.lxor_nilpotent, Z.lxor_0_r. symmetry. now apply land_32.
  - cbn [fold_left concat]. rewrite IH by apply zlib_crc32_32.
    apply zlib_crc32_app.
Qed.

Section WholeFile.
Context {HL : Hashlib}.

Lemma update_of_chunks (Hlaw : update_concatenates) cs : forall o c,
  fold_left hash_update cs (hash_update o c) = hash_update o (c ++ concat cs).
Proof.
  induction cs as [|d cs IH]; intros o c; cbn [fold_left concat].
  - now rewrite app_nil_r.
  - now rewrite Hlaw, IH, app_assoc.
Qed.

Lemma digest_of_chunks (Hlaw : update_concatenates) k data o :
  0 < k ->
  fold_left hash_update (chunks k data) o =
  match data with [] => o | _ => hash_update o data end.
Proof.
  intros Hk. pose proof (chunks_of_concat (S (length data)) k data Hk ltac:(lia)) as Hc.
  fold (chunks k data) in Hc.
  destruct (chunks k data) as [|c cs] eqn:E.
  - cbn in Hc. now rewrite <- Hc.
  - cbn [fold_left]. rewrite update_of_chunks by exact Hlaw.
    cbn [concat] in Hc. rewrite Hc.
    destruct data as [|b data]; [|reflexivity].
    unfold chunks in E. cbn in E. destruct k; discriminate.
Qed.

(** Reading in chunks gives the digest of the whole file.  For a file read
    without error and a chunk size above zero, [calculate_hash] returns
    the digest of the file's bytes taken in one piece, whatever the chunk
    size; so does [calculate_file_hash] of the duplicate finder, for md5.
    With a chunk size of zero the first read is empty, the loop ends at
    once, and every file gets the digest of the empty input. *)
Theorem digest_is_of_the_whole_file
    (self : FileHasher.hasher) (p algorithm : string) (w : world)
    (f : file_node) (chunk_size : Z) :
  update_concatenates ->
  fs w !! p = Some (NFile f) ->
  supported algorithm = true ->
  (0 <= FileHasher.chunk_size self)%Z ->
  io_failure (FileHasher.chunk_size self) w p = None ->
  (0 < chunk_size)%Z ->
  io_failure chunk_size w p = None ->
  FileHasher.calculate_hash self p algorithm w =
    (Returned (Some (one_shot algorithm
                       (if (FileHasher.chunk_size self =? 0)%Z then []
                        else f_data f))),
     with_event w (EvOpen p))
  /\ DuplicateFileFinder.calculate_file_hash p chunk_size w =
       (Returned (Some (one_shot "md5" (f_data f))), with_event w (EvOpen p)).
Proof.
  intros Hlaw Hf Hsup Hcs Hio Hcs' Hio'. split.
  - unfold FileHasher.calculate_hash. unfold supported in Hsup.
    replace (negb (FileHasher.in_SUPPORTED algorithm)
             && negb (String.eqb algorithm "crc32"))
      with false
      by (destruct (FileHasher.in_SUPPORTED algorithm),
                   (String.eqb algorithm "crc32"); simpl in *; congruence).
    unfold try_except, one_shot.
    assert (Hk : (FileHasher.chunk_size self =? 0)%Z = false ->
                 0 < Z.to_nat (FileHasher.chunk_size self)).
    { intros E. apply Z.eqb_neq in E. lia. }
    destruct (String.eqb algorithm "crc32").
    + unfold FileHasher._calculate_crc32, bind.
      rewrite (hash_stream_chunks (fun crc chunk => zlib_crc32 chunk crc)
                 _ _ f _ _ Hcs Hf Hio).
      rewrite crc32_of_chunks by lia.
      rewrite land_32 by apply zlib_crc32_32. unfold ret.
      destruct (Z.eqb_spec (FileHasher.chunk_size self) 0) as [E|E].
      * rewrite E. unfold chunks. now rewrite chunks_of_zero.
      * unfold chunks. rewrite chunks_of_concat by lia. reflexivity.
    + unfold FileHasher._calculate_cryptographic_hash, bind.
      rewrite (hash_stream_chunks hash_update _ _ f _ _ Hcs Hf Hio). unfold ret.
      destruct (Z.eqb_spec (FileHasher.chunk_size self) 0) as [E|E].
      * rewrite E. unfold chunks. now rewrite chunks_of_zero.
      * rewrite digest_of_chunks by (auto; lia). reflexivity.
  - unfold DuplicateFileFinder.calculate_file_hash, try_except, bind.
    rewrite (hash_stream_chunks hash_update _ _ f _ _ (Z.lt_le_incl _ _ Hcs') Hf Hio').
    unfold ret, one_shot. cbn [String.eqb Ascii.eqb].
    rewrite digest_of_chunks by (auto; lia). reflexivity.
Qed.

End WholeFile.

Lemma toy_update_concatenates : @update_concatenates toy_hashlib.
Proof.
  intros o a b. unfold hash_update, toy_hashlib. cbn [fst snd].
  now rewrite zlib_crc32_app.
Qed.

Lemma digest_is_of_the_whole_file_witness :
  let w := world_of [("a.txt", plain_file "123456789" 1)] [] in
  @FileHasher.calculate_hash toy_hashlib
    {| FileHasher.chunk_size := 4; FileHasher.processed_files := 0;
       FileHasher.total_size := 0 |} "a.txt" "crc32" w =
    (Returned (Some (@one_shot toy_hashlib "crc32"
                       (list_byte_of_string "123456789"))),
     with_event w (EvOpen "a.txt"))
  /\ @DuplicateFileFinder.calculate_file_hash toy_hashlib "a.txt" 8192 w =
       (Returned (Some (@one_shot toy_hashlib "md5"
                          (list_byte_of_string "123456789"))),
        with_event w (EvOpen "a.txt")).
Proof.
  apply (@digest_is_of_the_whole_file toy_hashlib
           {| FileHasher.chunk_size := 4; FileHasher.processed_files := 0;
              FileHasher.total_size := 0 |} "a.txt" "crc32"
           (world_of [("a.txt", plain_file "123456789" 1)] [])
           {| f_data := list_byte_of_string "123456789"; f_mtime := 1;
              f_readable := true; f_fault := None; f_removable := true |}
           8192%Z).
  - exact toy_update_concatenates.
  - reflexivity.
  - reflexivity.
  - cbn. lia.
  - reflexivity.
  - lia.
  - reflexivity.
Defined.

(** *** The scan *)

Lemma with_events_walk w l : walk (with_events w l) = walk w.
Proof.
  revert w. induction l as [|e l IH]; intros w; [reflexivity|].
  cbn. unfold with_events in IH. now rewrite IH.
Qed.

Lemma with_events_fs w l : fs (with_events w l) = fs w.
Proof. apply with_events_same. Qed.

Lemma with_events_snoc w l e :
  with_event (with_events w l) e = with_events w (l ++ [e]).
Proof. now rewrite with_events_app. Qed.

Lemma io_failure_fs cs w w' p : fs w' = fs w -> io_failure cs w' p = io_failure cs w p.
Proof. unfold io_failure. now intros ->. Qed.

Lemma for_each_quiet {A S} (l : list A) (body : S -> A -> Py S)
    (g : S -> A -> S) (w0 : world) :
  (forall s x l0, exists new,
     body s x (with_events w0 l0) = (Returned (g s x), with_events w0 (l0 ++ new))
     /\ forallb is_quiet new = true) ->
  forall acc l0, exists new,
    for_each l body acc (with_events w0 l0) =
      (Returned (fold_left g l acc), with_events w0 (l0 ++ new))
    /\ forallb is_quiet new = true.
Proof.
  intros Hbody. induction l as [|x l IH]; intros acc l0.
  - exists []. now rewrite app_nil_r.
  - cbn [for_each fold_left]. unfold bind at 1.
    destruct (Hbody acc x l0) as (new1 & E1 & Hq1). rewrite E1.
    destruct (IH (g acc x) (l0 ++ new1)) as (new2 & E2 & Hq2). rewrite E2.
    exists (new1 ++ new2). rewrite app_assoc, forallb_app, Hq1, Hq2. auto.
Qed.

Lemma fold_left_flat_map {A B S} (f : S -> B -> S) (g : A -> list B) l a :
  fold_left f (flat_map g l) a = fold_left (fun a x => fold_left f (g x) a) l a.
Proof.
  revert a. induction l as [|x l IH]; intros a; [reflexivity|].
  cbn [flat_map fold_left]. now rewrite fold_left_app, IH.
Qed.

Lemma fold_left_map' {A B S} (f : S -> B -> S) (g : A -> B) l a :
  fold_left f (map g l) a = fold_left (fun a x => f a (g x)) l a.
Proof. revert a. induction l as [|x l IH]; intros a; cbn; auto. Qed.

Lemma fold_left_pointwise {A S} (f g : S -> A -> S) l a :
  (forall a x, f a x = g a x) -> fold_left f l a = fold_left g l a.
Proof.
  intros E. revert a. induction l as [|x l IH]; intros a; [reflexivity|].
  cbn. now rewrite E, IH.
Qed.

Section Scan.
Context {HL : Hashlib}.

(** What one path does to the pair (file_hashes, total_files). *)
Lemma calculate_file_hash_outcome p w :
  exists new,
    DuplicateFileFinder.calculate_file_hash p 8192 w =
      (Returned match fs w !! p, io_failure 8192 w p with
                | Some (NFile f), None => Some (md5_digest (f_data f))
                | _, _ => None
                end, with_events w new)
    /\ forallb is_quiet new = true.
Proof.
  unfold DuplicateFileFinder.calculate_file_hash, try_except.
  destruct (io_failure 8192 w p) as [e|] eqn:Eio.
  - unfold bind at 1.
    rewrite (hash_stream_fails (fun _ => True) _ _ _ _ _ e obj_step_pure I Eio).
    rewrite (io_failure_is_OSError _ _ _ _ Eio).
    exists [EvOpen p; EvPrint (MsgErrorReading p e)].
    split; [|reflexivity]. unfold bind, print, emit, ret.
    now destruct (fs w !! p) as [[f|sz mt]|].
  - destruct (fs w !! p) as [[f|sz mt]|] eqn:Ef;
      try (unfold io_failure in Eio; rewrite Ef in Eio; discriminate).
    unfold bind at 1.
    rewrite (hash_stream_chunks hash_update 8192 p f _ w ltac:(lia) Ef Eio).
    exists [EvOpen p]. split; reflexivity.
Qed.

Lemma scan_file_outcome self root st filename w :
  exists new,
    DuplicateFileFinder.scan_file self root st filename w =
      (Returned match scan_record self w (joinpath root filename) with
                | Some r => (DuplicateFileFinder.append_to (fst r) (snd r) (fst st),
                             (snd st + 1)%Z)
                | None => st
                end, with_events w new)
    /\ forallb is_quiet new = true.
Proof.
  unfold DuplicateFileFinder.scan_file, scan_record.
  set (p := joinpath root filename).
  destruct (DuplicateFileFinder.should_ignore_file self p).
  { exists []. split; reflexivity. }
  unfold try_except, bind at 1, os_stat at 1.
  destruct (fs w !! p) as [[f|sz mt]|] eqn:Ef.
  - cbn [fst snd].
    destruct (Nat.eqb_spec (length (f_data f)) 0) as [E0|E0].
    + rewrite E0. cbn. exists []. split; reflexivity.
    + replace (Z.of_nat (length (f_data f)) =? 0)%Z with false
        by (symmetry; apply Z.eqb_neq; lia).
      unfold bind at 1.
      destruct (calculate_file_hash_outcome p w) as (new1 & E1 & Hq1).
      rewrite E1, Ef.
      destruct (io_failure 8192 w p) as [e|].
      { exists new1. split; [reflexivity|exact Hq1]. }
      destruct (md5_digest (f_data f)) as [|c h].
      { exists new1. split; [reflexivity|exact Hq1]. }
      unfold bind at 1, os_stat at 1. rewrite with_events_fs, Ef. cbn [fst snd].
      unfold bind at 1.
      destruct ((snd st + 1) mod 100 =? 0)%Z.
      * exists (new1 ++ [EvPrint (MsgProcessed (snd st + 1))]).
        unfold print, emit, ret. rewrite with_events_snoc, forallb_app, Hq1.
        split; reflexivity.
      * exists new1. split; [reflexivity|exact Hq1].
  - cbn [fst snd]. destruct (Z.eqb_spec sz 0).
    + exists []. split; reflexivity.
    + unfold bind at 1.
      destruct (calculate_file_hash_outcome p w) as (new1 & E1 & Hq1).
      rewrite E1, Ef. exists new1. split; [reflexivity|exact Hq1].
  - cbn [is_OSError]. exists [EvPrint (MsgErrorProcessing p (OSError ENOENT p))].
    split; reflexivity.
Qed.

Lemma scan_record_fs self w w' p :
  fs w' = fs w -> scan_record self w' p = scan_record self w p.
Proof.
  intros E. unfold scan_record. rewrite E.
  now rewrite (io_failure_fs _ _ _ _ E).
Qed.

Lemma fold_scan_records self w paths : forall fh n,
  fold_left
    (fun (st : PyDict.t (list DuplicateFileFinder.file_info) * Z) p =>
       match scan_record self w p with
       | Some r => (DuplicateFileFinder.append_to (fst r) (snd r) (fst st),
                    (snd st + 1)%Z)
       | None => st
       end) paths (fh, n) =
  (fold_left (fun fh r => DuplicateFileFinder.append_to (fst r) (snd r) fh)
     (flat_map (fun p => match scan_record self w p with
                        | Some r => [r]
                        | None => []
                        end) paths) fh,
   (n + Z.of_nat (length (flat_map (fun p => match scan_record self w p with
                        | Some r => [r]
                        | None => []
                        end) paths)))%Z).
Proof.
  induction paths as [|p paths IH]; intros fh n.
  - cbn. f_equal. lia.
  - cbn [fold_left flat_map]. destruct (scan_record self w p) as [r|].
    + cbn [fst snd app]. rewrite IH. cbn [fold_left length]. f_equal. lia.
    + apply IH.
Qed.

(** The whole scan, as one equation. *)
Lemma scan_directories_outcome (self : DuplicateFileFinder.finder) (w : world) :
  exists new,
    DuplicateFileFinder.scan_directories self w =
      (Returned (DuplicateFileFinder.with_file_hashes self
                   (fold_left
                      (fun fh r => DuplicateFileFinder.append_to (fst r) (snd r) fh)
                      (scan_records self w) (DuplicateFileFinder.file_hashes self))),
       with_events w
         (new ++ [EvPrint (MsgCompletedScanning
                             (Z.of_nat (length (scan_records self w))))]))
    /\ forallb is_quiet new = true.
Proof.
  set (records := scan_records self w).
  set (step := fun (st : PyDict.t (list DuplicateFileFinder.file_info) * Z) p =>
       match scan_record self w p with
       | Some r => (DuplicateFileFinder.append_to (fst r) (snd r) (fst st),
                    (snd st + 1)%Z)
       | None => st
       end).
  set (g_mid := fun st (entry : string * list string) =>
       fold_left (fun st fn => step st (joinpath (fst entry) fn)) (snd entry) st).
  set (g_out := fun st directory =>
       if os_path_exists w directory
       then fold_left g_mid (walk w directory) st else st).
  assert (Hfile : forall root st fn l0, exists new,
            DuplicateFileFinder.scan_file self root st fn (with_events w l0) =
              (Returned (step st (joinpath root fn)), with_events w (l0 ++ new))
            /\ forallb is_quiet new = true).
  { intros root st fn l0.
    destruct (scan_file_outcome self root st fn (with_events w l0))
      as (new & E & Hq).
    exists new. rewrite E, <- with_events_app.
    rewrite (scan_record_fs self w) by apply with_events_fs. auto. }
  assert (Hmid : forall st entry l0, exists new,
            for_each (snd entry) (DuplicateFileFinder.scan_file self (fst entry)) st
              (with_events w l0) =
              (Returned (g_mid st entry), with_events w (l0 ++ new))
            /\ forallb is_quiet new = true).
  { intros st entry l0.
    apply (for_each_quiet (snd entry) _
             (fun st fn => step st (joinpath (fst entry) fn))).
    intros; apply Hfile. }
  assert (Hout : forall st directory l0, exists new,
            (do w' <- get_world;
             if negb (os_path_exists w' directory)
             then print (MsgDirectoryMissing directory) ;; ret st
             else
               print (MsgScanning directory) ;;
               for_each (walk w' directory)
                 (fun st entry =>
                    for_each (snd entry)
                      (DuplicateFileFinder.scan_file self (fst entry)) st) st)
              (with_events w l0) =
              (Returned (g_out st directory), with_events w (l0 ++ new))
            /\ forallb is_quiet new = true).
  { intros st directory l0. unfold bind at 1, get_world at 1.
    rewrite with_events_walk. unfold g_out, os_path_exists.
    rewrite with_events_fs.
    destruct (fs w !! directory); cbn [negb].
    - unfold bind at 1, print at 1, emit at 1. rewrite with_events_snoc.
      destruct (for_each_quiet (walk w directory)
                  (fun st entry =>
                     for_each (snd entry)
                       (DuplicateFileFinder.scan_file self (fst entry)) st)
                  g_mid w Hmid st
                  (l0 ++ [EvPrint (MsgScanning directory)])) as (new & E & Hq).
      rewrite E. exists (EvPrint (MsgScanning directory) :: new).
      rewrite <- app_assoc. split; [reflexivity|exact Hq].
    - exists [EvPrint (MsgDirectoryMissing directory)].
      unfold bind, print, emit, ret. rewrite with_events_snoc. auto. }
  assert (Hfold : forall st,
            fold_left g_out (DuplicateFileFinder.directories self) st =
            fold_left step (scan_paths self w) st).
  { intros st. unfold scan_paths. rewrite fold_left_flat_map.
    apply fold_left_pointwise. intros a d. unfold g_out.
    destruct (os_path_exists w d); [|reflexivity].
    rewrite fold_left_flat_map. apply fold_left_pointwise. intros a' entry.
    now rewrite fold_left_map'. }
  unfold DuplicateFileFinder.scan_directories.
    unfold bind at 1, print at 1, emit at 1.
    change (with_event w (EvPrint MsgScanningForFiles))
      with (with_events w [EvPrint MsgScanningForFiles]).
    destruct (for_each_quiet (DuplicateFileFinder.directories self)
                (fun st directory =>
                   do w' <- get_world;
                   if negb (os_path_exists w' directory)
                   then print (MsgDirectoryMissing directory) ;; ret st
                   else
                     print (MsgScanning directory) ;;
                     for_each (walk w' directory)
                       (fun st entry =>
                          for_each (snd entry)
                            (DuplicateFileFinder.scan_file self (fst entry)) st) st)
                g_out w Hout
                (DuplicateFileFinder.file_hashes self, 0%Z)
                [EvPrint MsgScanningForFiles]) as (new & E & Hq).
    unfold bind at 1. rewrite E, Hfold. unfold step.
    rewrite fold_scan_records. fold (scan_records self w). fold records.
    cbn [fst snd]. unfold bind, print, emit, ret. rewrite with_events_snoc.
    exists (EvPrint MsgScanningForFiles :: new).
    rewrite Z.add_0_l. split; [reflexivity|exact Hq].
Qed.

(** The scan keeps one record for every file it comes by that it can hash.
    [scan_directories] always returns; it opens files and prints, and does
    nothing else to the world; the records it appends to [file_hashes], in
    the order it comes by the paths, are those of the files whose name is
    not ignored, that are regular files, not empty, readable to their end,
    each under its md5 digest with its size and modification time; the
    last line printed gives their number.  Started from a new finder, the
    result is the grouping of exactly these records. *)
Theorem scan_records_every_hashable_file
    (self : DuplicateFileFinder.finder) (w : world) :
  let records := scan_records self w in
  (exists new,
     DuplicateFileFinder.scan_directories self w =
       (Returned (DuplicateFileFinder.with_file_hashes self
                    (fold_left
                       (fun fh r => DuplicateFileFinder.append_to (fst r) (snd r) fh)
                       records (DuplicateFileFinder.file_hashes self))),
        with_events w
          (new ++ [EvPrint (MsgCompletedScanning (Z.of_nat (length records)))]))
     /\ forallb is_quiet new = true)
  /\ (DuplicateFileFinder.file_hashes self = [] ->
      DuplicateFileFinder.duplicates self = [] ->
      fst (DuplicateFileFinder.scan_directories self w) =
        Returned (scanned (DuplicateFileFinder.directories self)
                    (DuplicateFileFinder.ignore_patterns self) records)).
Proof.
  intros records. pose proof (scan_directories_outcome self w) as Hrun.
  fold records in Hrun.
  split; [exact Hrun|].
  intros Hfh Hd. destruct Hrun as (new & E & _). rewrite E. cbn [fst].
  unfold scanned, DuplicateFileFinder.with_file_hashes, DuplicateFileFinder.init,
    group_records. rewrite Hfh, Hd. reflexivity.
Qed.

End Scan.

(** *** Ignored names *)

Lemma str_append_assoc a b c : ((a ++ b) ++ c)%string = (a ++ b ++ c)%string.
Proof.
  induction a as [|x a IH]; [reflexivity|].
  rewrite !append_cons. now f_equal.
Qed.

Lemma prefix_spec p s :
  String.prefix p s = true <-> exists b, s = (p ++ b)%string.
Proof.
  revert s. induction p as [|x p IH]; intros s.
  - split; [exists s; reflexivity|]. now destruct s.
  - destruct s as [|y s].
    + split; [discriminate|]. intros (b & E). rewrite append_cons in E.
      discriminate.
    + cbn [String.prefix]. destruct (ascii_dec x y) as [->|Hne].
      * rewrite IH. split; intros (b & E); exists b.
        -- rewrite append_cons. now f_equal.
        -- rewrite append_cons in E. now inversion E.
      * split; [discriminate|]. intros (b & E). rewrite append_cons in E.
        inversion E. congruence.
Qed.

Lemma str_contains_spec p s :
  str_contains p s = true <-> exists a b, s = (a ++ p ++ b)%string.
Proof.
  induction s as [|c s IH].
  - cbn [str_contains]. rewrite orb_false_r, prefix_spec. split.
    + intros (b & E). exists ""%string, b. exact E.
    + intros (a & b & E). destruct a as [|x a].
      * exists b. exact E.
      * rewrite append_cons in E. discriminate.
  - cbn [str_contains]. rewrite orb_true_iff, prefix_spec, IH. split.
    + intros [(b & E)|(a & b & E)].
      * exists ""%string, b. exact E.
      * exists (String c a), b. rewrite append_cons. now f_equal.
    + intros (a & b & E). destruct a as [|x a].
      * left. exists b. exact E.
      * right. rewrite append_cons in E. inversion E. eauto.
Qed.

Lemma basename_has_no_slash p : str_contains "/" (os_path_basename p) = false.
Proof.
  induction p as [|c p IH]; [reflexivity|].
  cbn [os_path_basename].
  destruct (str_contains "/" (String c p)) eqn:E; [exact IH|exact E].
Qed.

Lemma basename_of_name s : str_contains "/" s = false -> os_path_basename s = s.
Proof. destruct s as [|c s]; [reflexivity|]. cbn [os_path_basename]. now intros ->. Qed.

Lemma basename_joinpath root filename :
  str_contains "/" filename = false ->
  os_path_basename (joinpath root filename) = filename.
Proof.
  intros Hno. unfold joinpath. induction root as [|c root IH].
  - change ("" ++ "/" ++ filename)%string with (String "/" filename).
    cbn [os_path_basename].
    replace (str_contains "/" (String "/" filename)) with true.
    + now apply basename_of_name.
    + symmetry. apply str_contains_spec. exists ""%string, filename. reflexivity.
  - rewrite append_cons. cbn [os_path_basename].
    replace (str_contains "/" (String c (root ++ "/" ++ filename))) with true.
    + exact IH.
    + symmetry. apply str_contains_spec. exists (String c root), filename.
      reflexivity.
Qed.

(** A file is ignored exactly when some pattern occurs somewhere in its
    name; the directory it lies in plays no part, and the test with
    [startswith] of line 35 adds nothing.  So an empty pattern ignores
    every file, and patterns that hold a slash ignore none. *)
Theorem ignored_when_a_pattern_occurs_in_the_name
    (self : DuplicateFileFinder.finder) (root filename : string) :
  str_contains "/" filename = false ->
  let filepath := joinpath root filename in
  (DuplicateFileFinder.should_ignore_file self filepath = true <->
   exists pattern a b,
     In pattern (DuplicateFileFinder.ignore_patterns self)
     /\ filename = (a ++ pattern ++ b)%string)
  /\ (In ""%string (DuplicateFileFinder.ignore_patterns self) ->
      DuplicateFileFinder.should_ignore_file self filepath = true)
  /\ (forallb (str_contains "/") (DuplicateFileFinder.ignore_patterns self) = true ->
      DuplicateFileFinder.should_ignore_file self filepath = false).
Proof.
  intros Hname filepath.
  assert (Hiff : DuplicateFileFinder.should_ignore_file self filepath = true <->
            exists pattern a b,
              In pattern (DuplicateFileFinder.ignore_patterns self)
              /\ filename = (a ++ pattern ++ b)%string).
  { unfold DuplicateFileFinder.should_ignore_file, filepath.
    rewrite (basename_joinpath _ _ Hname), existsb_exists. split.
    - intros (pattern & Hin & Hm). apply orb_true_iff in Hm as [Hm|Hm].
      + apply str_contains_spec in Hm as (a & b & E). eauto.
      + apply prefix_spec in Hm as (b & E). exists pattern, ""%string, b. auto.
    - intros (pattern & a & b & Hin & E). exists pattern. split; [exact Hin|].
      apply orb_true_iff. left. apply str_contains_spec. eauto. }
  split; [exact Hiff|]. split.
  - intros Hin. apply Hiff. exists ""%string, ""%string, filename. auto.
  - intros Hall. apply not_true_is_false. intros E.
    apply Hiff in E as (pattern & a & b & Hin & E).
    rewrite forallb_forall in Hall. apply Hall in Hin.
    apply str_contains_spec in Hin as (x & y & ->).
    assert (Hyes : str_contains "/" filename = true).
    { apply str_contains_spec. exists (a ++ x)%string, (y ++ b)%string.
      rewrite E, !str_append_assoc. reflexivity. }
    congruence.
Qed.

Lemma ignored_when_a_pattern_occurs_in_the_name_witness :
  let filepath := joinpath "d" "x.DS_Store" in
  (DuplicateFileFinder.should_ignore_file overlap_finder filepath = true <->
   exists pattern a b,
     In pattern (DuplicateFileFinder.ignore_patterns overlap_finder)
     /\ "x.DS_Store"%string = (a ++ pattern ++ b)%string)
  /\ (In ""%string (DuplicateFileFinder.ignore_patterns overlap_finder) ->
      DuplicateFileFinder.should_ignore_file overlap_finder filepath = true)
  /\ (forallb (str_contains "/")
        (DuplicateFileFinder.ignore_patterns overlap_finder) = true ->
      DuplicateFileFinder.should_ignore_file overlap_finder filepath = false).
Proof.
  apply (ignored_when_a_pattern_occurs_in_the_name overlap_finder "d" "x.DS_Store").
  reflexivity.
Defined.

(** *** Classifying an entry *)

Section Classify.
Context {HL : Hashlib}.

Lemma hash_file_regular (self : FileHasher.hasher) (p : string)
    (algorithms : list string) (w : world) :
  os_path_isfile w p = true ->
  forallb supported algorithms = true ->
  exists self' info w',
    FileHasher.hash_file self p (Some algorithms) w =
      (Returned (self', FileHasher.HashInfo info), w').
Proof.
  intros Hf Hs. unfold FileHasher.hash_file.
  unfold bind at 1, get_world at 1. rewrite Hf. cbn [negb].
  unfold os_path_isfile in Hf.
  destruct (fs w !! p) as [[f|sz mt]|] eqn:Ef; try discriminate.
  unfold bind at 1, os_stat at 1. rewrite Ef.
  destruct algorithms as [|a [|b l]].
  - destruct (calculate_multiple_hashes_returns self p [] w eq_refl)
      as (d & w' & E & _).
    unfold bind at 1. rewrite E. do 3 eexists. reflexivity.
  - simpl in Hs. rewrite andb_true_r in Hs.
    destruct (calculate_hash_returns self p a w Hs) as (d & w' & E & _).
    unfold bind at 1. unfold bind at 1. rewrite E.
    destruct d as [[|c d]|]; cbn; do 3 eexists; reflexivity.
  - destruct (calculate_multiple_hashes_returns self p (a :: b :: l) w Hs)
      as (d & w' & E & _).
    unfold bind at 1. rewrite E. do 3 eexists. reflexivity.
Qed.

Lemma compare_hashes_agree current items :
  forallb is_JStr (map snd items) = true ->
  forall m ok w,
  exists m',
    for_each items (FileHasher.compare_hash current) (m, ok) w =
      (Returned (m', ok && forallb (digest_agrees current) items), w).
Proof.
  induction items as [|[algo expected] items IH]; intros Hstr m ok w.
  - exists m. cbn. now rewrite andb_true_r.
  - cbn [map snd forallb] in Hstr. apply andb_true_iff in Hstr as [He Hstr].
    destruct expected as [| | | |e| |]; try discriminate.
    cbn [for_each]. unfold bind at 1, FileHasher.compare_hash at 1.
    cbn [fst snd forallb]. unfold digest_agrees at 1. cbn [fst snd].
    destruct (PyDict.get algo current) as [[|c d]|];
      cbn [FileHasher.nonempty]; unfold bind at 1, ret at 1; unfold ret at 1;
      cbn [FileHasher.truthy].
    + destruct (IH Hstr (PyDict.set algo
                  {| FileHasher.expected := JStr e;
                     FileHasher.current := Some ""%string;
                     FileHasher.matches := FileHasher.Falsy (Some ""%string) |} m)
                  false w) as (m' & E).
      rewrite E. exists m'. now rewrite andb_false_r.
    + destruct (String.eqb (lower (String c d)) (lower e)) eqn:Eq.
      * destruct (IH Hstr (PyDict.set algo
                    {| FileHasher.expected := JStr e;
                       FileHasher.current := Some (String c d);
                       FileHasher.matches := FileHasher.Compared true |} m)
                    ok w) as (m' & E).
        rewrite E. exists m'. reflexivity.
      * destruct (IH Hstr (PyDict.set algo
                    {| FileHasher.expected := JStr e;
                       FileHasher.current := Some (String c d);
                       FileHasher.matches := FileHasher.Compared false |} m)
                    false w) as (m' & E).
        rewrite E. exists m'. now rewrite andb_false_r.
    + destruct (IH Hstr (PyDict.set algo
                  {| FileHasher.expected := JStr e;
                     FileHasher.current := None;
                     FileHasher.matches := FileHasher.Falsy None |} m)
                  false w) as (m' & E).
      rewrite E. exists m'. now rewrite andb_false_r.
Qed.

(** An entry naming a regular file is verified exactly when every digest
    it expects agrees with the one [hash_file] gives for the file now:
    there is a digest under that name, it is not empty, and it equals the
    expected one, letter case apart.  Otherwise the entry is failed.  The
    hasher comes back as [hash_file] left it. *)
Theorem entry_is_verified_when_every_digest_agrees
    (self : FileHasher.hasher) (results : FileHasher.verification_results)
    (entry : PyDict.t json) (p : string) (expected : PyDict.t json) (w : world) :
  PyDict.get "filepath" entry = Some (JStr p) ->
  PyDict.get "hashes" entry = Some (JDict expected) ->
  os_path_isfile w p = true ->
  forallb supported (map fst expected) = true ->
  forallb is_JStr (map snd expected) = true ->
  exists self' info w' r,
    FileHasher.hash_file self p (Some (map fst expected))
      (with_event w (EvPrint (MsgVerifying (os_path_basename p)))) =
      (Returned (self', FileHasher.HashInfo info), w')
    /\ FileHasher.verify_entry (self, results) (JDict entry) w =
       (Returned
          (self',
           if forallb (digest_agrees (FileHasher.fi_hashes info)) expected
           then FileHasher.add_verified results r
           else FileHasher.add_failed results r),
        w')
    /\ FileHasher.vr_filepath r = JStr p
    /\ FileHasher.vr_overall_match r =
       forallb (digest_agrees (FileHasher.fi_hashes info)) expected.
Proof.
  intros Hp Hh Hf Hsup Hstr.
  set (w1 := with_event w (EvPrint (MsgVerifying (os_path_basename p)))).
  assert (Hf1 : os_path_isfile w1 p = true) by exact Hf.
  destruct (hash_file_regular self p (map fst expected) w1 Hf1 Hsup)
    as (self' & info & w' & Ehash).
  destruct (compare_hashes_agree (FileHasher.fi_hashes info) expected Hstr
              [] true w') as (m & Ecmp).
  exists self', info, w'.
  exists {| FileHasher.vr_filepath := JStr p;
            FileHasher.vr_filename := FileHasher.fi_filename info;
            FileHasher.vr_size := FileHasher.fi_size info;
            FileHasher.vr_hash_matches := m;
            FileHasher.vr_overall_match :=
              forallb (digest_agrees (FileHasher.fi_hashes info)) expected |}.
  split; [exact Ehash|]. split; [|split; reflexivity].
  unfold FileHasher.verify_entry, FileHasher.entry_get. cbn [fst snd].
  unfold bind at 1, ret at 1. rewrite Hp.
  unfold bind at 1, ret at 1. rewrite Hh.
  unfold bind at 1, FileHasher.exists_json, bind at 1, get_world at 1, ret at 1.
  assert (Hex : os_path_exists w p = true).
  { unfold os_path_exists, os_path_isfile in *. now destruct (fs w !! p). }
  rewrite Hex. cbn [negb].
  unfold bind at 1, FileHasher.fspath, ret at 1.
  unfold bind at 1, print at 1, emit at 1. fold w1.
  unfold bind at 1, FileHasher.dict_items, ret at 1. unfold PyDict.items.
  unfold bind at 1. rewrite Ehash. cbn [fst snd].
  unfold bind at 1. unfold PyDict.t in *. rewrite Ecmp. cbn [fst snd andb].
  destruct (forallb (digest_agrees (FileHasher.fi_hashes info)) expected);
    reflexivity.
Qed.

End Classify.

Lemma entry_is_verified_when_every_digest_agrees_witness :
  exists self' info w' r,
    @FileHasher.hash_file toy_hashlib (FileHasher.init 65536) "a.txt"
      (Some (map fst [("sha256", JStr "SHA256-3610A686")]))
      (with_event (world_of [("a.txt", plain_file "hello" 1)] [])
         (EvPrint (MsgVerifying (os_path_basename "a.txt")))) =
      (Returned (self', FileHasher.HashInfo info), w')
    /\ @FileHasher.verify_entry toy_hashlib
         (FileHasher.init 65536, FileHasher.no_results)
         (JDict [("filepath", JStr "a.txt");
                 ("hashes", JDict [("sha256", JStr "SHA256-3610A686")])])
         (world_of [("a.txt", plain_file "hello" 1)] []) =
       (Returned
          (self',
           if forallb (digest_agrees (FileHasher.fi_hashes info))
                [("sha256", JStr "SHA256-3610A686")]
           then FileHasher.add_verified FileHasher.no_results r
           else FileHasher.add_failed FileHasher.no_results r),
        w')
    /\ FileHasher.vr_filepath r = JStr "a.txt"
    /\ FileHasher.vr_overall_match r =
       forallb (digest_agrees (FileHasher.fi_hashes info))
         [("sha256", JStr "SHA256-3610A686")].
Proof.
  apply (@entry_is_verified_when_every_digest_agrees toy_hashlib
           (FileHasher.init 65536) FileHasher.no_results
           [("filepath", JStr "a.txt");
            ("hashes", JDict [("sha256", JStr "SHA256-3610A686")])]
           "a.txt" [("sha256", JStr "SHA256-3610A686")]
           (world_of [("a.txt", plain_file "hello" 1)] []));
    reflexivity.
Defined.

(** *** Entries that are not objects *)

Lemma ends_ret {A} (a : A) : ends (ret a).
Proof. intros w. discriminate. Qed.

Lemma ends_raise {A} e : ends (@raise A e).
Proof. intros w. discriminate. Qed.

Lemma ends_print m : ends (print m).
Proof. intros w. discriminate. Qed.

Lemma ends_get_world : ends get_world.
Proof. intros w. discriminate. Qed.

Lemma ends_bind {A B} (c : Py A) (k : A -> Py B) :
  ends c -> (forall a, ends (k a)) -> ends (bind c k).
Proof.
  intros Hc Hk w. unfold bind. specialize (Hc w).
  destruct (c w) as [[a| |] w']; cbn in *; [apply Hk|discriminate|congruence].
Qed.

Lemma ends_for_each {A S} (l : list A) (body : S -> A -> Py S) :
  (forall s x, ends (body s x)) -> forall acc, ends (for_each l body acc).
Proof.
  intros Hb. induction l as [|x l IH]; intros acc; cbn [for_each].
  - apply ends_ret.
  - apply ends_bind; auto.
Qed.

Lemma ends_outcome {A} (c : Py A) w :
  ends c -> (exists a w', c w = (Returned a, w')) \/ (exists e w', c w = (Raised e, w')).
Proof.
  intros Hc. specialize (Hc w). destruct (c w) as [[a| |] w']; cbn in *; eauto.
  congruence.
Qed.

Section NotObjects.
Context {HL : Hashlib}.

Lemma ends_calculate_hash self p a : ends (FileHasher.calculate_hash self p a).
Proof.
  intros w. destruct (supported a) eqn:Hs.
  - destruct (calculate_hash_returns self p a w Hs) as (d & w' & E & _).
    rewrite E. discriminate.
  - unfold FileHasher.calculate_hash. unfold supported in Hs.
    apply orb_false_iff in Hs as [-> ->]. discriminate.
Qed.

Lemma ends_calculate_multiple_hashes self p algorithms :
  ends (FileHasher.calculate_multiple_hashes self p algorithms).
Proof.
  intros w. destruct (forallb supported algorithms) eqn:Hs.
  - destruct (calculate_multiple_hashes_returns self p algorithms w Hs)
      as (d & w' & E & _).
    rewrite E. discriminate.
  - destruct (first_unsupported algorithms Hs) as (before & bad & after & -> & Hb & Hbad).
    unfold FileHasher.calculate_multiple_hashes, bind.
    rewrite (new_hash_objects_unsupported before after bad w Hb Hbad). discriminate.
Qed.

Lemma ends_hash_file self p algorithms : ends (FileHasher.hash_file self p algorithms).
Proof.
  unfold FileHasher.hash_file. intros w. unfold bind at 1, get_world at 1.
  unfold os_path_isfile.
  destruct (fs w !! p) as [[f|sz mt]|] eqn:Ef; cbn [negb]; try discriminate.
  unfold bind at 1, os_stat at 1. rewrite Ef.
  apply ends_bind; [|intros; apply ends_ret].
  destruct (match algorithms with Some l => l | None => ["sha256"%string] end)
    as [|a [|b l]].
  - apply ends_calculate_multiple_hashes.
  - apply ends_bind; [apply ends_calculate_hash|].
    intros d. destruct (FileHasher.nonempty d); apply ends_ret.
  - apply ends_calculate_multiple_hashes.
Qed.

Lemma ends_verify_entry st entry : ends (FileHasher.verify_entry st entry).
Proof.
  unfold FileHasher.verify_entry.
  apply ends_bind.
  { unfold FileHasher.entry_get. destruct entry; try apply ends_raise. apply ends_ret. }
  intros filepath. apply ends_bind.
  { unfold FileHasher.entry_get. destruct entry; try apply ends_raise. apply ends_ret. }
  intros expected. apply ends_bind.
  { unfold FileHasher.exists_json.
    destruct filepath; try apply ends_raise;
      (apply ends_bind; [apply ends_get_world|intros; apply ends_ret]). }
  intros present. destruct present; cbn [negb]; [|apply ends_ret].
  apply ends_bind.
  { unfold FileHasher.fspath. destruct filepath; try apply ends_raise. apply ends_ret. }
  intros path. apply ends_bind; [apply ends_print|]. intros _.
  apply ends_bind.
  { unfold FileHasher.dict_items. destruct expected; try apply ends_raise.
    apply ends_ret. }
  intros items. apply ends_bind; [apply ends_hash_file|]. intros r.
  destruct (snd r) as [error|info]; [apply ends_ret|].
  apply ends_bind.
  - apply ends_for_each. intros acc item. unfold FileHasher.compare_hash.
    apply ends_bind; [|intros; apply ends_ret].
    destruct (FileHasher.nonempty _); [|apply ends_ret].
    destruct (PyDict.get _ _); [|apply ends_raise].
    destruct (snd item); try apply ends_raise. apply ends_ret.
  - intros m. destruct (snd m); apply ends_ret.
Qed.

(** One entry that is not an object costs the whole result.  For such an
    entry both branches of lines 150-155 call [get] on it, which it does
    not have: [AttributeError].  Nothing in [verify_hashes] catches it, so
    a manifest holding such an entry anywhere never yields a result: the
    run ends with an exception, at the latest when the entry is reached.
    When the entry comes first, no file has been looked at. *)
Theorem entry_that_is_no_object_aborts_the_run
    (self : FileHasher.hasher) (before after : list json) (bad : json)
    (w : world) :
  is_JDict bad = false ->
  (exists e w',
     FileHasher.verify_entries self (JList (before ++ bad :: after)) w
       = (Raised e, w'))
  /\ FileHasher.verify_entries self (JList (bad :: after)) w
     = (Raised (AttributeError "get"), w).
Proof.
  intros Hbad.
  assert (Hone : forall st w0,
            FileHasher.verify_entry st bad w0 = (Raised (AttributeError "get"), w0)).
  { intros st w0. unfold FileHasher.verify_entry, FileHasher.entry_get, bind, raise.
    destruct bad; try reflexivity. discriminate. }
  split.
  - unfold FileHasher.verify_entries. unfold bind at 1. rewrite for_each_app.
    unfold bind at 1.
    destruct (ends_outcome
                (for_each before FileHasher.verify_entry (self, FileHasher.no_results))
                w) as [(st & w' & E)|(e & w' & E)].
    { apply ends_for_each. intros; apply ends_verify_entry. }
    + rewrite E. cbn [for_each]. unfold bind at 1. rewrite Hone. eauto.
    + rewrite E. eauto.
  - unfold FileHasher.verify_entries. unfold bind at 1. cbn [for_each].
    unfold bind at 1. now rewrite Hone.
Qed.

End NotObjects.

Lemma entry_that_is_no_object_aborts_the_run_witness :
  (exists e w',
     @FileHasher.verify_entries toy_hashlib (FileHasher.init 65536)
       (JList ([JDict [("filepath", JStr "a.txt")]] ++ JStr "b.txt" :: []))
       (world_of [("a.txt", plain_file "hello" 1)] [])
       = (Raised e, w'))
  /\ @FileHasher.verify_entries toy_hashlib (FileHasher.init 65536)
       (JList (JStr "b.txt" :: []))
       (world_of [("a.txt", plain_file "hello" 1)] [])
     = (Raised (AttributeError "get"), world_of [("a.txt", plain_file "hello" 1)] []).
Proof.
  apply (@entry_that_is_no_object_aborts_the_run toy_hashlib).
  reflexivity.
Defined.

(** *** Saving in the simple format, and reading it back *)

Lemma rstrip_blank_tail s ws :
  str_forall is_space ws = true -> rstrip (s ++ ws) = rstrip s.
Proof.
  intros Hws. induction s as [|c s IH].
  - rewrite append_nil. induction ws as [|b ws IHws]; [reflexivity|].
    cbn [str_forall] in Hws. apply andb_true_iff in Hws as [Hb Hws].
    cbn [rstrip]. rewrite (IHws Hws), Hb. reflexivity.
  - rewrite append_cons. cbn [rstrip]. now rewrite IH.
Qed.

Lemma rstrip_app_keep a p :
  rstrip p = p -> p <> ""%string -> rstrip (a ++ p) = (a ++ p)%string.
Proof.
  intros Hp Hne. induction a as [|c a IH]; [now rewrite append_nil|].
  rewrite append_cons. cbn [rstrip]. rewrite IH.
  destruct (a ++ p)%string eqn:E; [|reflexivity].
  destruct a; [rewrite append_nil in E; congruence|].
  rewrite append_cons in E. discriminate.
Qed.

Lemma strip_fixed p :
  strip p = p -> p <> ""%string ->
  (exists c r, p = String c r /\ is_space c = false) /\ rstrip p = p.
Proof.
  intros Hs Hne. destruct p as [|c r]; [congruence|].
  pose proof (strip_unblank _ _ _ Hs) as Hc.
  split; [eauto|]. unfold strip in Hs. now rewrite (lstrip_id _ _ Hc) in Hs.
Qed.

Lemma str_forall_app P a b :
  str_forall P (a ++ b) = str_forall P a && str_forall P b.
Proof.
  induction a as [|c a IH]; [reflexivity|].
  rewrite append_cons. cbn [str_forall]. now rewrite IH, andb_assoc.
Qed.

Lemma split_char_no_sep sep s :
  str_forall (fun c => negb (Ascii.eqb c sep)) s = true -> split_char sep s = [s].
Proof.
  induction s as [|c s IH]; intros H; [reflexivity|].
  cbn [str_forall] in H. apply andb_true_iff in H as [Hc Hs].
  cbn [split_char]. apply negb_true_iff in Hc. rewrite Hc, (IH Hs). reflexivity.
Qed.

Lemma split_char_app_sep sep l s :
  str_forall (fun c => negb (Ascii.eqb c sep)) l = true ->
  split_char sep (l ++ String sep s) = l :: split_char sep s.
Proof.
  induction l as [|c l IH]; intros H.
  - rewrite append_nil. cbn [split_char]. now rewrite Ascii.eqb_refl.
  - cbn [str_forall] in H. apply andb_true_iff in H as [Hc Hl].
    rewrite append_cons. cbn [split_char]. apply negb_true_iff in Hc.
    rewrite Hc, (IH Hl). reflexivity.
Qed.

Lemma split_char_of_join sep lines :
  lines <> [] ->
  Forall (fun l => str_forall (fun c => negb (Ascii.eqb c sep)) l = true) lines ->
  split_char sep (join (String sep "") lines) = lines.
Proof.
  induction lines as [|l [|l2 rest] IH]; intros Hne Hall; [congruence| |].
  - cbn [join]. apply split_char_no_sep. now inversion Hall.
  - apply List.Forall_cons_iff in Hall as [Hl Hall].
    change (join (String sep "") (l :: l2 :: rest))
      with (l ++ String sep "" ++ join (String sep "") (l2 :: rest))%string.
    rewrite append_cons, append_nil, (split_char_app_sep _ _ _ Hl).
    rewrite IH; [reflexivity|discriminate|exact Hall].
Qed.

Lemma field_has_no_newline d :
  str_forall (fun c => negb (is_space c)) d = true ->
  str_forall (fun c => negb (Ascii.eqb c "010")) d = true.
Proof.
  induction d as [|x d IH]; [reflexivity|]. cbn [str_forall].
  intros H. apply andb_true_iff in H as [Hx Hd]. rewrite (IH Hd), andb_true_r.
  destruct (Ascii.eqb_spec x "010"%char) as [->|]; [discriminate|reflexivity].
Qed.

(** One line of the simple format, without its newline. *)
Lemma simple_line_shape d p :
  is_field d -> line_safe p ->
  let line := (d ++ "  " ++ p)%string in
  strip line = line
  /\ (exists c r, line = String c r /\ is_space c = false)
  /\ rstrip line = line
  /\ str_forall (fun c => negb (Ascii.eqb c "010")) line = true
  /\ split_ws_1 line = [d; p].
Proof.
  intros [Hd Hfield] (Hp & Hstrip & Hnl). cbv zeta.
  pose proof (field_has_no_newline d Hfield) as Hdnl.
  destruct (strip_fixed p Hstrip Hp) as [(pc & pr & Ep & Hpc) Hr].
  destruct d as [|c d]; [congruence|].
  cbn [str_forall] in Hfield. apply andb_true_iff in Hfield as [Hc Hfield].
  apply negb_true_iff in Hc.
  assert (Hrs : rstrip (String c d ++ "  " ++ p) = (String c d ++ "  " ++ p)%string).
  { rewrite <- str_append_assoc. now apply rstrip_app_keep. }
  assert (Hst : exists c0 r, (String c d ++ "  " ++ p)%string = String c0 r
                             /\ is_space c0 = false).
  { exists c, (d ++ "  " ++ p)%string. now rewrite append_cons. }
  split; [|split; [exact Hst|split; [exact Hrs|split]]].
  - unfold strip. rewrite append_cons, (lstrip_id _ _ Hc), <- append_cons. exact Hrs.
  - rewrite !str_forall_app, Hnl, Hdnl. reflexivity.
  - apply (split_ws_1_two _ _ _ Hst). exists "  "%string.
    split; [reflexivity|]. split.
    + split; [discriminate|]. cbn [str_forall]. rewrite Hc. exact Hfield.
    + split; [split; [discriminate|reflexivity]|]. exists pc, pr. auto.
Qed.

Lemma save_hashes_simple_text results : forall acc,
  fold_left (fun text result => (text ++ simple_line result)%string) results acc =
  (acc ++ fold_right (fun dp text =>
                        (fst dp ++ "  " ++ snd dp ++ String "010" text)%string)
            ""%string (flat_map saved_pair results))%string.
Proof.
  induction results as [|r results IH]; intros acc.
  - cbn. clear. induction acc as [|c acc IH]; [reflexivity|].
    rewrite append_cons. now f_equal.
  - cbn [fold_left flat_map]. rewrite IH, fold_right_app, str_append_assoc.
    f_equal. destruct r as [error|info]; [reflexivity|].
    unfold simple_line, saved_pair.
    destruct (FileHasher.fi_hashes info) as [|[algo h] rest]; [reflexivity|].
    cbn [fold_right fst snd app]. rewrite !str_append_assoc. reflexivity.
Qed.

Lemma simple_text_is_join pairs :
  pairs <> [] ->
  fold_right (fun dp text => (fst dp ++ "  " ++ snd dp ++ String "010" text)%string)
    ""%string pairs =
  (join (String "010" "")
     (map (fun dp => (fst dp ++ "  " ++ snd dp)%string) pairs)
   ++ String "010" "")%string.
Proof.
  induction pairs as [|dp [|dp2 rest] IH]; intros Hne; [congruence| |].
  - cbn [fold_right map join]. now rewrite !str_append_assoc.
  - cbn [fold_right] in *. rewrite IH by discriminate.
    change (join (String "010" "") (map (fun dp => (fst dp ++ "  " ++ snd dp)%string)
                                      (dp :: dp2 :: rest)))
      with ((fst dp ++ "  " ++ snd dp) ++ String "010" "" ++
            join (String "010" "")
              (map (fun dp => (fst dp ++ "  " ++ snd dp)%string) (dp2 :: rest)))%string.
    rewrite !str_append_assoc. reflexivity.
Qed.

Lemma join_keeps_its_ends sep lines :
  lines <> [] ->
  Forall (fun l => (exists c r, l = String c r /\ is_space c = false)
                   /\ rstrip l = l) lines ->
  (exists c r, join sep lines = String c r /\ is_space c = false)
  /\ rstrip (join sep lines) = join sep lines.
Proof.
  induction lines as [|l [|l2 rest] IH]; intros Hne Hall; [congruence| |].
  - cbn [join]. now inversion Hall.
  - apply List.Forall_cons_iff in Hall as [[(c & r & -> & Hc) Hl] Hall].
    destruct (IH ltac:(discriminate) Hall) as [(c2 & r2 & E2 & Hc2) Hr2].
    change (join sep (String c r :: l2 :: rest))
      with (String c r ++ sep ++ join sep (l2 :: rest))%string.
    split.
    + rewrite append_cons. eauto.
    + rewrite <- str_append_assoc. apply rstrip_app_keep; [exact Hr2|].
      rewrite E2. discriminate.
Qed.

(** What [save_hashes] writes in the simple format, [_parse_simple_hash_file]
    reads back: one entry per record that has a digest, in order, holding
    the path under 'filepath' and the record's first digest under 'hash'.
    The name of the algorithm is not written and not read back, and the
    other digests of a record are dropped.  This needs digests without
    blanks, paths that a line can carry, and lines that do not start with
    the comment marker. *)
Theorem simple_format_reads_back_what_was_saved
    (comment_marker default_algorithm : string)
    (hash_results : list FileHasher.hash_file_result) :
  Forall (fun dp => is_field (fst dp) /\ line_safe (snd dp)
                    /\ startswith comment_marker
                         (fst dp ++ "  " ++ snd dp)%string = false)
    (flat_map saved_pair hash_results) ->
  FileHasher._parse_simple_hash_file comment_marker
    (save_hashes_simple hash_results) default_algorithm =
  map (fun dp => manifest_entry (fst dp) (snd dp))
    (flat_map saved_pair hash_results).
Proof.
  intros Hall. unfold save_hashes_simple.
  rewrite save_hashes_simple_text, append_nil.
  set (pairs := flat_map saved_pair hash_results) in *.
  unfold FileHasher._parse_simple_hash_file. rewrite fold_parse_lines, app_nil_l.
  destruct pairs as [|dp0 pairs0] eqn:Ep; [reflexivity|].
  rewrite <- Ep in *. assert (Hne : pairs <> []) by (rewrite Ep; discriminate).
  clear Ep. rewrite (simple_text_is_join _ Hne).
  set (lines := map (fun dp => (fst dp ++ "  " ++ snd dp)%string) pairs).
  assert (Hlines : Forall (fun l => (exists c r, l = String c r /\ is_space c = false)
                                    /\ rstrip l = l) lines).
  { unfold lines. apply List.Forall_forall. intros l Hl.
    apply List.in_map_iff in Hl as (dp & <- & Hin).
    rewrite List.Forall_forall in Hall. destruct (Hall dp Hin) as (Hd & Hp & _).
    destruct (simple_line_shape _ _ Hd Hp) as (_ & H1 & H2 & _). auto. }
  assert (Hnl : Forall (fun l => str_forall (fun c => negb (Ascii.eqb c "010")) l = true)
                  lines).
  { unfold lines. apply List.Forall_forall. intros l Hl.
    apply List.in_map_iff in Hl as (dp & <- & Hin).
    rewrite List.Forall_forall in Hall. destruct (Hall dp Hin) as (Hd & Hp & _).
    destruct (simple_line_shape _ _ Hd Hp) as (_ & _ & _ & H & _). exact H. }
  assert (Hlne : lines <> []).
  { unfold lines. destruct pairs; [congruence|discriminate]. }
  destruct (join_keeps_its_ends (String "010" "") lines Hlne Hlines)
    as [(c & r & Ej & Hc) Hr].
  assert (Hstrip : strip (join (String "010" "") lines ++ String "010" "")
                   = join (String "010" "") lines).
  { unfold strip. rewrite Ej, append_cons, (lstrip_id _ _ Hc), <- append_cons, <- Ej.
    rewrite rstrip_blank_tail by reflexivity. exact Hr. }
  rewrite Hstrip, (split_char_of_join _ _ Hlne Hnl).
  unfold lines. clear -Hall. induction pairs as [|dp pairs IH]; [reflexivity|].
  apply List.Forall_cons_iff in Hall as [(Hd & Hp & Hm) Hall].
  cbn [map flat_map]. rewrite (IH Hall).
  destruct (simple_line_shape _ _ Hd Hp) as (Hs & (c & r & E & Hc) & _ & _ & Hsplit).
  cbv zeta in *. rewrite parse_line_alone, Hs, Hm, Hsplit, orb_false_r.
  rewrite E. reflexivity.
Qed.

Lemma simple_format_reads_back_what_was_saved_witness :
  FileHasher._parse_simple_hash_file "#"
    (save_hashes_simple
       [FileHasher.HashInfo
          {| FileHasher.fi_filepath := "/home/my file.txt";
             FileHasher.fi_filename := "my file.txt";
             FileHasher.fi_size := 5;
             FileHasher.fi_modified_timestamp := 1;
             FileHasher.fi_hashes := [("sha256", "2cf24dba"); ("md5", "5d41402a")] |};
        FileHasher.HashError "File not found: b.txt"]) "sha256" =
  map (fun dp => manifest_entry (fst dp) (snd dp))
    (flat_map saved_pair
       [FileHasher.HashInfo
          {| FileHasher.fi_filepath := "/home/my file.txt";
             FileHasher.fi_filename := "my file.txt";
             FileHasher.fi_size := 5;
             FileHasher.fi_modified_timestamp := 1;
             FileHasher.fi_hashes := [("sha256", "2cf24dba"); ("md5", "5d41402a")] |};
        FileHasher.HashError "File not found: b.txt"]).
Proof.
  apply simple_format_reads_back_what_was_saved.
  repeat constructor; try discriminate; reflexivity.
Defined.

(** *** Removal, then a second scan *)


















Section Rescan.
Context {HL : Hashlib}.












End Rescan.


Example second_scan_example :
  match @scan_and_find toy_hashlib (DuplicateFileFinder.init ["d"] [".DS_Store"])
          two_copies_world with
  | (Returned self1, w1) =>
      map DuplicateFileFinder.path (candidates (DuplicateFileFinder.duplicates self1))
      = ["d/a.txt"]
      /\ match DuplicateFileFinder.remove_duplicates self1 false false w1 with
         | (Returned _, w2) =>
             fs w2 !! "d/a.txt" = None
             /\ fs w2 !! "d/b.txt" = Some (plain_file "hello" 1)
         | _ => False
         end
  | _ => False
  end.
Proof. vm_compute. repeat split; reflexivity. Qed.

(** *** The first member of a group, when no path is scanned twice *)




Section Kept.
Context {HL : Hashlib}.



End Kept.


(** *** The totals of the report *)

Lemma fold_add_from (l : list Z) (a : Z) :
  fold_left Z.add l a = (a + fold_left Z.add l 0)%Z.
Proof.
  revert a. induction l as [|x l IH]; intros a; cbn [fold_left]; [lia|].
  rewrite (IH (a + x)%Z), (IH (0 + x)%Z). lia.
Qed.

Lemma sum_of_sizes members :
  fold_left Z.add (map DuplicateFileFinder.size members) 0%Z = total_size members.
Proof.
  induction members as [|x members IH]; [reflexivity|].
  cbn [map fold_left]. rewrite fold_add_from, IH. unfold total_size.
  cbn [fold_right]. lia.
Qed.

Lemma report_totals (groups : PyDict.t (list DuplicateFileFinder.file_info)) :
  Forall (fun g : string * list DuplicateFileFinder.file_info => snd g <> []) groups ->
  fold_left Z.add
    (map (fun files : list DuplicateFileFinder.file_info =>
            (Z.of_nat (length files) - 1)%Z) (PyDict.values groups)) 0%Z
  = Z.of_nat (length (candidates groups))
  /\ fold_left Z.add
       (map (fun files : list DuplicateFileFinder.file_info =>
               fold_left Z.add (map DuplicateFileFinder.size (tl files)) 0%Z)
          (PyDict.values groups)) 0%Z
     = total_size (candidates groups).
Proof.
  induction groups as [|[h files] groups IH]; intros Hne; [split; reflexivity|].
  apply List.Forall_cons_iff in Hne as [Hf Hne]. cbn [snd] in Hf.
  destruct (IH Hne) as [IH1 IH2]. unfold PyDict.values in *.
  unfold candidates. cbn [map snd flat_map fold_left].
  fold (candidates groups). split.
  - rewrite fold_add_from, IH1, length_app.
    destruct files as [|x files]; [congruence|]. cbn [tl length]. lia.
  - rewrite fold_add_from, IH2, total_size_app, sum_of_sizes. lia.
Qed.

(** The report and the removal agree.  The number of duplicate files and
    the wasted space that [display_duplicates] puts in its header are the
    number and the bytes that a dry run of [remove_duplicates] says it
    would remove and free, when every group has a member. *)
Theorem report_totals_are_what_a_dry_run_would_free
    (self : DuplicateFileFinder.finder) (interactive : bool) (w : world) :
  DuplicateFileFinder.duplicates self <> [] ->
  Forall (fun g : string * list DuplicateFileFinder.file_info => snd g <> [])
    (DuplicateFileFinder.duplicates self) ->
  total_duplicates self =
    Z.of_nat (length (candidates (DuplicateFileFinder.duplicates self)))
  /\ total_wasted_space self =
     total_size (candidates (DuplicateFileFinder.duplicates self))
  /\ exists before,
       DuplicateFileFinder.remove_duplicates self interactive true w =
       (Returned tt,
        with_events w
          (before ++ [EvPrint (MsgRemoveSummary true (total_wasted_space self)
                                 (total_duplicates self))])).
Proof.
  intros Hdup Hne. destruct (report_totals _ Hne) as [H1 H2].
  fold (total_duplicates self) in H1. fold (total_wasted_space self) in H2.
  split; [exact H1|]. split; [exact H2|].
  rewrite H1, H2. unfold DuplicateFileFinder.remove_duplicates.
  destruct (DuplicateFileFinder.duplicates self) as [|g groups] eqn:Ed;
    [congruence|].
  unfold bind at 1, print at 1, emit at 1.
  destruct (dry_remove_groups interactive (g :: groups) (0, 0)%Z
              (with_event w (EvPrint MsgDryRunDelete)) Hne)
    as (new & E & _ & _).
  unfold PyDict.items. unfold bind at 1. rewrite E. cbn [fst snd].
  exists (EvPrint MsgDryRunDelete :: new).
  unfold print, emit. rewrite !Z.add_0_l.
  rewrite (with_events_app _ (_ :: new)). reflexivity.
Qed.

Lemma report_totals_are_what_a_dry_run_would_free_witness :
  total_duplicates dup_finder =
    Z.of_nat (length (candidates (DuplicateFileFinder.duplicates dup_finder)))
  /\ total_wasted_space dup_finder =
     total_size (candidates (DuplicateFileFinder.duplicates dup_finder))
  /\ exists before,
       DuplicateFileFinder.remove_duplicates dup_finder true true dup_scenario =
       (Returned tt,
        with_events dup_scenario
          (before ++ [EvPrint (MsgRemoveSummary true (total_wasted_space dup_finder)
                                 (total_duplicates dup_finder))])).
Proof.
  apply (report_totals_are_what_a_dry_run_would_free dup_finder true dup_scenario).
  - discriminate.
  - repeat constructor; discriminate.
Defined.
